(** * CloudsenseElasticCancelMACDRequest: a shallow embedding

    The Lambda function of [src/lambda_function/app.py], the ticketing
    client of [src/lambda_function/kayako_connection.py] and the help-center
    gateway of [src/lambda_function/help_center_connection.py], embedded as
    Rocq functions.

    - Python values are a tagged variant ([pyval]); strings are byte strings
      and stand for the ASCII fragment of Python's [str], so [lower],
      [upper], [strip] and [repr_str] are the ASCII readings of the methods.
    - Exceptions are values ([exn]: a class and a message); code that may
      raise returns an [outcome].
    - Library code ([json.loads], [json.dumps], [ast.literal_eval]) is a
      parameter ([PyRuntime]); the statements hold for every implementation,
      and [Reference.runtime] is an executable one for concrete runs.
    - The Postgres session behind psycopg2 is a state ([world]): the
      committed database, what the open transaction sees, and the driver
      calls made.  The server may fail any driver call of the [try] block
      ([faults]).  The three statements are modelled by what they mean when
      the schema name is a plain identifier ([sql_identifier]); the program
      splices the org id into their text unchecked, and what the statements
      then are is outside the model, so that a theorem whose point is which
      rows end up stored or fetched is stated for safe org ids
      ([safe_org_id]).
    - The HTTP endpoint behind requests answers the n-th request of a call
      with an [attempt]; the SSM parameter store answers the n-th
      [get_parameter] call of the process; [os.environ] is a finite map,
      and the copy of the configuration into it is modelled for entries it
      accepts, so that a theorem whose point is the copy is stated for such
      configurations ([legal_environment]).
    - Base64 decoding and the comparison [==] that the tag methods of the
      client rely on are parameters of the sections that use them. *)

From Stdlib Require Import ZArith String Ascii List Lia.
From Stdlib Require Import Floats.
From stdpp Require Import base gmap strings list pretty.
From Equations Require Import Equations.

Open Scope string_scope.
Open Scope Z_scope.
Open Scope list_scope.

(** ** Python values *)

Module Py.

(** The values a JSON document or a Python literal can denote.  [POpaque]
    stands for any other object ([tuple], [set], [bytes], ...): only its
    truth value and its [repr] are ever observed by the program. *)
#[warnings="-register-all"]
Inductive pyval : Type :=
| PNone
| PBool (b : bool)
| PInt (z : Z)
| PFloat (f : float)
| PStr (s : string)
| PList (l : list pyval)
| PDict (d : list (string * pyval))
| POpaque (truth : bool) (repr : string).

(** [bool(v)] *)
Definition truthy (v : pyval) : bool :=
  match v with
  | PNone => false
  | PBool b => b
  | PInt z => negb (z =? 0)
  | PFloat f => negb (PrimFloat.eqb f 0%float)
  | PStr s => negb (String.eqb s "")
  | PList l => match l with [] => false | _ => true end
  | PDict d => match d with [] => false | _ => true end
  | POpaque t _ => t
  end.

(** [a or b] *)
Definition py_or (a b : pyval) : pyval := if truthy a then a else b.

(** [d.get(k)] and [d.get(k, default)] on a dict kept in insertion order. *)
Fixpoint dict_lookup (d : list (string * pyval)) (k : string) : option pyval :=
  match d with
  | [] => None
  | (k', v) :: d' => if String.eqb k' k then Some v else dict_lookup d' k
  end.

Definition dict_get_default (d : list (string * pyval)) (k : string) (dflt : pyval) : pyval :=
  match dict_lookup d k with Some v => v | None => dflt end.

Definition dict_get (d : list (string * pyval)) (k : string) : pyval :=
  dict_get_default d k PNone.

Definition dict_keys (d : list (string * pyval)) : list string := map fst d.

(** *** Exceptions *)

Inductive exn_class :=
| Exception | ValueError | JSONDecodeError | SyntaxError | TypeError
| AttributeError | KeyError | RecursionError | DatabaseError | ClientError
| RequestException | ConnectionError.

Global Instance exn_class_eq_dec : EqDecision exn_class.
Proof. solve_decision. Defined.

(** [issubclass(c, d)] for the classes above. *)
Definition issubclass (c d : exn_class) : bool :=
  match d with
  | Exception => true
  | ValueError => match c with ValueError | JSONDecodeError => true | _ => false end
  | RequestException =>
      match c with RequestException | ConnectionError => true | _ => false end
  | _ => bool_decide (c = d)
  end.

(** An exception object: its class and [str(e)]. *)
Record exn := Exn { exn_cls : exn_class; exn_msg : string }.

Definition isinstance_exn (e : exn) (cs : list exn_class) : bool :=
  existsb (issubclass (exn_cls e)) cs.

Inductive outcome (A : Type) : Type :=
| Ok (a : A)
| Raise (e : exn).
Global Arguments Ok {A} a.
Global Arguments Raise {A} e.

(** *** Strings *)

Definition is_upper (c : ascii) : bool :=
  let n := nat_of_ascii c in (Nat.leb 65 n && Nat.leb n 90)%bool.
Definition is_lower (c : ascii) : bool :=
  let n := nat_of_ascii c in (Nat.leb 97 n && Nat.leb n 122)%bool.

Definition lower_char (c : ascii) : ascii :=
  if is_upper c then ascii_of_nat (nat_of_ascii c + 32) else c.
Definition upper_char (c : ascii) : ascii :=
  if is_lower c then ascii_of_nat (nat_of_ascii c - 32) else c.

Fixpoint map_string (f : ascii -> ascii) (s : string) : string :=
  match s with
  | EmptyString => EmptyString
  | String c s' => String (f c) (map_string f s')
  end.

(** [s.lower()] and [s.upper()] *)
Definition lower (s : string) : string := map_string lower_char s.
Definition upper (s : string) : string := map_string upper_char s.

Fixpoint lstrip_by (p : ascii -> bool) (s : string) : string :=
  match s with
  | EmptyString => EmptyString
  | String c s' => if p c then lstrip_by p s' else s
  end.

Definition strip_by (p : ascii -> bool) (s : string) : string :=
  String.rev (lstrip_by p (String.rev (lstrip_by p s))).

(** The ASCII characters for which [str.isspace] holds. *)
Definition is_py_space (c : ascii) : bool :=
  let n := nat_of_ascii c in
  ((Nat.leb 9 n && Nat.leb n 13) || (Nat.leb 28 n && Nat.leb n 32))%bool.

(** [s.strip()] and [s.strip(chars)] *)
Definition strip (s : string) : string := strip_by is_py_space s.
Definition strip_chars (chars : string) (s : string) : string :=
  strip_by (fun c => existsb (Ascii.eqb c) (list_ascii_of_string chars)) s.

(** [sep.join(ls)] *)
Definition join (sep : string) (ls : list string) : string := String.concat sep ls.

Fixpoint string_mem (c : ascii) (s : string) : bool :=
  match s with
  | EmptyString => false
  | String c' s' => (Ascii.eqb c c' || string_mem c s')%bool
  end.

Definition dquote : ascii := ascii_of_nat 34.
Definition squote : ascii := ascii_of_nat 39.
Definition newline : string := String (ascii_of_nat 10) "".

Definition hex_digit (n : nat) : ascii :=
  if Nat.ltb n 10 then ascii_of_nat (48 + n) else ascii_of_nat (87 + n).

(** One character of [repr(s)], with [q] the quote chosen for the string. *)
Definition repr_char (q : ascii) (c : ascii) : string :=
  let n := nat_of_ascii c in
  if (Ascii.eqb c q || Ascii.eqb c "\")%bool then String "\" (String c "")
  else if Nat.eqb n 9 then "\t"
  else if Nat.eqb n 10 then "\n"
  else if Nat.eqb n 13 then "\r"
  else if (Nat.ltb n 32 || Nat.eqb n 127)%bool then
    "\x" +:+ String (hex_digit (n / 16)) (String (hex_digit (n mod 16)) "")
  else String c "".

Fixpoint concat_map_string (f : ascii -> string) (s : string) : string :=
  match s with
  | EmptyString => EmptyString
  | String c s' => f c +:+ concat_map_string f s'
  end.

(** [repr(s)] for a [str]: single quotes unless the string holds a single
    quote and no double quote. *)
Definition repr_str (s : string) : string :=
  let q : ascii :=
    if (string_mem squote s && negb (string_mem dquote s))%bool then dquote else squote in
  String q (concat_map_string (repr_char q) s) +:+ String q "".

End Py.
Export Py.

(** ** The Python runtime the program relies on

    [json.loads], [json.dumps], [ast.literal_eval] and the rendering of a
    float are library code: the program is embedded over an arbitrary
    implementation of them.  A parse either returns a value or raises. *)

Class PyRuntime := {
  json_loads : string -> outcome pyval;
  json_dumps : pyval -> string;
  literal_eval : string -> outcome pyval;
  float_repr : float -> string
}.

Section Builtins.
Context `{PyRuntime}.

(** [repr(v)] *)
Fixpoint py_repr (v : pyval) : string :=
  match v with
  | PNone => "None"
  | PBool b => if b then "True" else "False"
  | PInt z => pretty z
  | PFloat f => float_repr f
  | PStr s => repr_str s
  | PList l => "[" +:+ join ", " (map py_repr l) +:+ "]"
  | PDict d =>
      "{" +:+ join ", " (map (fun kv => repr_str (fst kv) +:+ ": " +:+ py_repr (snd kv)) d) +:+ "}"
  | POpaque _ r => r
  end.

(** [str(v)], which is also what an f-string field renders. *)
Definition py_str (v : pyval) : string :=
  match v with
  | PStr s => s
  | _ => py_repr v
  end.

End Builtins.

(** [type(v).__name__] *)
Definition type_name (v : pyval) : string :=
  match v with
  | PNone => "NoneType"
  | PBool _ => "bool"
  | PInt _ => "int"
  | PFloat _ => "float"
  | PStr _ => "str"
  | PList _ => "list"
  | PDict _ => "dict"
  | POpaque _ _ => "object"
  end.

(** The exception of [v.attr] when [v] has no such attribute. *)
Definition attribute_error (v : pyval) (attr : string) : exn :=
  Exn AttributeError
      (String squote (type_name v) +:+ String squote " object has no attribute "
       +:+ String squote attr +:+ String squote "").

(** ** Input normalizer (app.py, lines 147-250) *)

Section Normalizer.
Context `{PyRuntime}.

Definition parse_bool_parameter (value : pyval) : bool :=
  match value with
  | PNone => false
  | PBool b => b
  | PStr s => existsb (String.eqb (lower s)) ["true"; "1"; "yes"]
  | PInt _ | PFloat _ => truthy value
  | _ => false
  end.

(** The two parse attempts of [parse_list_parameter] on the stripped,
    non-empty string [value]. *)
Definition parse_list_string (value : string) : outcome (list pyval) :=
  let try_literal :=
    match literal_eval value with
    | Ok (PList parsed) => Ok parsed
    | Ok _ => Ok [PStr value]
    | Raise e =>
        if isinstance_exn e [ValueError; SyntaxError] then Ok [PStr value] else Raise e
    end in
  match json_loads value with
  | Ok (PList parsed) => Ok parsed
  | Ok _ => try_literal
  | Raise e => if isinstance_exn e [JSONDecodeError] then try_literal else Raise e
  end.

Definition parse_list_parameter (value : pyval) : outcome (list pyval) :=
  match value with
  | PNone => Ok []
  | PList l => Ok l
  | PStr s =>
      let value := strip s in
      if String.eqb value "" then Ok [] else parse_list_string value
  | _ => Ok [value]
  end.

Definition validate_inputs (org_id subscriptions region case_id : pyval) : list string :=
  let errors := [] in
  let errors :=
    if negb (truthy org_id) then errors ++ ["Missing required field: org_id"] else errors in
  let errors :=
    if negb (truthy subscriptions) then
      errors ++ ["Missing required field: subscriptions (must be a non-empty list)"]
    else match subscriptions with
         | PList l =>
             if Nat.eqb (length l) 0 then errors ++ ["subscriptions list cannot be empty"]
             else errors
         | _ => errors ++ ["subscriptions must be a list of Salesforce IDs"]
         end in
  let errors :=
    if negb (truthy region) then errors ++ ["Missing required field: region"] else errors in
  let errors :=
    if negb (truthy case_id) then errors ++ ["Missing required field: case_id"] else errors in
  errors.

(** ** Configuration resolver (app.py, lines 253-288) *)

(** [region not in databases] followed by [databases.keys()] or
    [databases[region]] when the decoded blob is not a dict. *)
Definition non_dict_databases (databases : pyval) (region : string) : exn :=
  let keys_error := attribute_error databases "keys" in
  match databases with
  | PList l =>
      if existsb (fun x => match x with PStr s => String.eqb s region | _ => false end) l
      then Exn TypeError "list indices must be integers or slices, not str"
      else keys_error
  | PStr s =>
      match String.index 0 region s with
      | Some _ => Exn TypeError
                    (("string indices must be integers, not " +:+ String squote "str")
                     +:+ String squote "")
      | None => keys_error
      end
  | _ =>
      Exn TypeError
          (("argument of type " +:+ String squote (type_name databases))
           +:+ String squote " is not iterable")
  end.

Definition get_database_config (environ : gmap string string) (region : pyval)
  : outcome (list (string * pyval)) :=
  match region with
  | PStr r =>
      let region := upper r in
      let databases_config := environ !! "databases" in
      match databases_config with
      | Some cfg =>
          if String.eqb cfg "" then
            Raise (Exn ValueError "No databases configuration found in SSM parameters")
          else
            match json_loads cfg with
            | Raise e =>
                if isinstance_exn e [JSONDecodeError; KeyError] then
                  Raise (Exn ValueError ("Invalid databases configuration: " +:+ exn_msg e))
                else Raise e
            | Ok (PDict databases) =>
                match dict_lookup databases region with
                | None =>
                    let available_regions := PList (map PStr (dict_keys databases)) in
                    Raise (Exn ValueError
                             ("Unsupported database region: " +:+ region
                              +:+ ". Supported regions: " +:+ py_repr available_regions))
                | Some (PDict region_config) =>
                    let db_config :=
                      [("dbname", dict_get region_config "sm_db_name");
                       ("user", dict_get region_config "sm_db_user");
                       ("password", dict_get region_config "sm_db_password");
                       ("host", dict_get region_config "sm_db_host");
                       ("port", dict_get_default region_config "sm_db_port" (PInt 5432))] in
                    let missing_params :=
                      map fst
                          (List.filter
                             (fun kv => (negb (truthy (snd kv))
                                         && negb (String.eqb (fst kv) "port"))%bool)
                             db_config) in
                    match missing_params with
                    | [] => Ok db_config
                    | _ =>
                        Raise (Exn ValueError
                                 ("Missing database configuration parameters for " +:+ region
                                  +:+ ": " +:+ join ", " missing_params))
                    end
                | Some region_config => Raise (attribute_error region_config "get")
                end
            | Ok databases => Raise (non_dict_databases databases region)
            end
      | None => Raise (Exn ValueError "No databases configuration found in SSM parameters")
      end
  | _ => Raise (attribute_error region "upper")
  end.

End Normalizer.

(** ** The tenant database behind psycopg2

    One database holds the tenant schemas by name; a schema has the three
    tables the program touches, each row with the columns the program reads
    or writes.  Rows keep their order, so a SELECT without ORDER BY returns
    them in table order. *)

Module Db.

(** A column value as psycopg2 hands it to Python: [NULL] is [None], an
    integer column an [int], a text column a [str]. *)
Inductive sqlval := VNull | VInt (z : Z) | VText (s : string).

Global Instance sqlval_eq_dec : EqDecision sqlval.
Proof. solve_decision. Defined.

(** [bool(v)] of a fetched column value. *)
Definition sql_truthy (v : sqlval) : bool :=
  match v with
  | VNull => false
  | VInt z => negb (z =? 0)
  | VText s => negb (String.eqb s "")
  end.

(** [x IN (v1, ..., vn)]: true only for a non-NULL [x] equal to some [vi]. *)
Definition sql_in (x : sqlval) (vs : list sqlval) : bool :=
  match x with
  | VNull => false
  | _ => bool_decide (x ∈ vs)
  end.

(** [s LIKE pat]: [%] matches any run of characters, [_] any one character,
    a backslash makes the next pattern character literal. *)
Fixpoint sql_like (pat : string) (s : string) {struct pat} : bool :=
  match pat with
  | EmptyString => match s with EmptyString => true | _ => false end
  | String c pat' =>
      if Ascii.eqb c "%" then
        (fix any (s : string) : bool :=
           (sql_like pat' s
            || match s with EmptyString => false | String _ s' => any s' end)%bool) s
      else if Ascii.eqb c "_" then
        match s with EmptyString => false | String _ s' => sql_like pat' s' end
      else if Ascii.eqb c "\" then
        match pat' with
        | EmptyString => false
        | String e pat'' =>
            match s with
            | EmptyString => false
            | String d s' => (Ascii.eqb d e && sql_like pat'' s')%bool
            end
        end
      else
        match s with
        | EmptyString => false
        | String d s' => (Ascii.eqb d c && sql_like pat' s')%bool
        end
  end.

Record subscription_row := {
  sub_id : sqlval;
  sub_sfdc_id : option string   (* a nullable text column *)
}.

Record macd_row := {
  macd_id : sqlval;
  macd_subscription_id : sqlval;
  macd_basket_id : sqlval;
  macd_status : sqlval
}.

Record order_row := {
  order_id : sqlval;
  order_basket_id : sqlval;
  order_status : sqlval
}.

(** The three tables of one tenant schema [org_<id>]. *)
Record tenant := {
  subscription : list subscription_row;
  macd_request : list macd_row;
  order_request : list order_row
}.

(** The database: tenant schemas by name. *)
Abbreviation database := (gmap string tenant).

(** [sfdc_id LIKE p1 OR ... OR sfdc_id LIKE pn]; a NULL [sfdc_id] satisfies
    no disjunct. *)
Definition like_conditions (like_patterns : list string) (s : subscription_row) : bool :=
  match sub_sfdc_id s with
  | None => false
  | Some sfdc => existsb (fun pat => sql_like pat sfdc) like_patterns
  end.

(** A fetched row [(id, basket_id, status)]. *)
Record record := { r_id : sqlval; r_basket_id : sqlval; r_status : sqlval }.

(** [SELECT id, basket_id, status FROM macd_request WHERE subscription_id IN
    (SELECT id FROM subscription WHERE <like_conditions>)] *)
Definition select_macd (t : tenant) (like_patterns : list string) : list record :=
  let sub_ids := map sub_id (List.filter (like_conditions like_patterns) (subscription t)) in
  map (fun m => {| r_id := macd_id m; r_basket_id := macd_basket_id m;
                   r_status := macd_status m |})
      (List.filter (fun m => sql_in (macd_subscription_id m) sub_ids) (macd_request t)).

(** [UPDATE order_request SET status = 'Error' WHERE basket_id IN (...)] *)
Definition order_hit (basket_ids : list sqlval) (o : order_row) : bool :=
  sql_in (order_basket_id o) basket_ids.

Definition set_order_error (o : order_row) : order_row :=
  {| order_id := order_id o; order_basket_id := order_basket_id o;
     order_status := VText "Error" |}.

Definition update_order (basket_ids : list sqlval) (t : tenant) : tenant :=
  {| subscription := subscription t;
     macd_request := macd_request t;
     order_request :=
       map (fun o => if order_hit basket_ids o then set_order_error o else o)
           (order_request t) |}.

Definition update_order_rowcount (basket_ids : list sqlval) (t : tenant) : nat :=
  length (List.filter (order_hit basket_ids) (order_request t)).

(** [UPDATE macd_request SET status = 'posted1' WHERE id IN (...)] *)
Definition macd_hit (macd_ids : list sqlval) (m : macd_row) : bool :=
  sql_in (macd_id m) macd_ids.

Definition set_macd_posted1 (m : macd_row) : macd_row :=
  {| macd_id := macd_id m; macd_subscription_id := macd_subscription_id m;
     macd_basket_id := macd_basket_id m; macd_status := VText "posted1" |}.

Definition update_macd (macd_ids : list sqlval) (t : tenant) : tenant :=
  {| subscription := subscription t;
     macd_request := map (fun m => if macd_hit macd_ids m then set_macd_posted1 m else m)
                         (macd_request t);
     order_request := order_request t |}.

Definition update_macd_rowcount (macd_ids : list sqlval) (t : tenant) : nat :=
  length (List.filter (macd_hit macd_ids) (macd_request t)).

(** *** The session: connection, transaction, and what can go wrong *)

(** The driver calls that talk to the server, in program order: those of
    the [try] block and, last, the rollback of the [except] clause.  Each
    of them may raise. *)
Inductive step :=
| Connect | Cursor | ExecuteSelect | Fetchall
| ExecuteUpdateOrder | ExecuteUpdateMacd | Rollback | Commit
| ExceptRollback.

Global Instance step_eq_dec : EqDecision step.
Proof. solve_decision. Defined.

(** Every driver call the function makes.  [CursorClose] releases a
    client-side cursor and [ConnClose] closes the connection: the driver
    performs both without a round trip to the server, and they always
    succeed. *)
Inductive db_call :=
| Step (s : step)
| CursorClose
| ConnClose.

Global Instance db_call_eq_dec : EqDecision db_call.
Proof. solve_decision. Defined.

(** [stored] is the committed state of the database.  [session] is [None]
    while no connection is open and otherwise holds the state the open
    transaction sees.  [calls] records the driver calls made so far. *)
Record world := {
  stored : database;
  session : option database;
  calls : list db_call
}.

Definition M (A : Type) : Type := world -> outcome A * world.

Definition ret {A} (a : A) : M A := fun w => (Ok a, w).
Definition raise {A} (e : exn) : M A := fun w => (Raise e, w).
Definition bind {A B} (m : M A) (k : A -> M B) : M B :=
  fun w => match m w with
           | (Ok a, w') => k a w'
           | (Raise e, w') => (Raise e, w')
           end.

Declare Scope db_scope.
Delimit Scope db_scope with db.
Notation "x <- m ;; k" := (bind m (fun x => k))
  (at level 100, m at next level, right associativity) : db_scope.
Notation "m ;;; k" := (bind m (fun _ => k))
  (at level 100, right associativity) : db_scope.

Definition record_call (c : db_call) (w : world) : world :=
  {| stored := stored w; session := session w; calls := calls w ++ [c] |}.

Definition set_session (s : option database) (w : world) : world :=
  {| stored := stored w; session := s; calls := calls w |}.

Definition connection_closed : exn := Exn DatabaseError "connection already closed".
Definition undefined_table (schema_name : string) : exn :=
  Exn DatabaseError ("relation in schema " +:+ schema_name +:+ " does not exist").
Definition syntax_error : exn := Exn DatabaseError "syntax error at or near )".

End Db.
Export Db.

(** ** Cancellation processor (app.py, lines 291-426) *)

Record result := {
  total_found : nat;
  eligible_count : nat;
  skipped_wrong_status : nat;
  order_requests_updated : nat;
  macd_requests_updated : nat;
  committed : bool;
  macd_records : list record;
  skipped_records : list record;
  updated_basket_ids : list sqlval;
  updated_macd_ids : list sqlval
}.

Definition initial_result : result :=
  {| total_found := 0; eligible_count := 0; skipped_wrong_status := 0;
     order_requests_updated := 0; macd_requests_updated := 0; committed := false;
     macd_records := []; skipped_records := [];
     updated_basket_ids := []; updated_macd_ids := [] |}.

Definition set_total_found (n : nat) (r : result) : result :=
  {| total_found := n; eligible_count := eligible_count r;
     skipped_wrong_status := skipped_wrong_status r;
     order_requests_updated := order_requests_updated r;
     macd_requests_updated := macd_requests_updated r; committed := committed r;
     macd_records := macd_records r; skipped_records := skipped_records r;
     updated_basket_ids := updated_basket_ids r; updated_macd_ids := updated_macd_ids r |}.

Definition set_eligible_count (n : nat) (r : result) : result :=
  {| total_found := total_found r; eligible_count := n;
     skipped_wrong_status := skipped_wrong_status r;
     order_requests_updated := order_requests_updated r;
     macd_requests_updated := macd_requests_updated r; committed := committed r;
     macd_records := macd_records r; skipped_records := skipped_records r;
     updated_basket_ids := updated_basket_ids r; updated_macd_ids := updated_macd_ids r |}.

(** [result['macd_records'].append(record)] *)
Definition append_macd_record (rc : record) (r : result) : result :=
  {| total_found := total_found r; eligible_count := eligible_count r;
     skipped_wrong_status := skipped_wrong_status r;
     order_requests_updated := order_requests_updated r;
     macd_requests_updated := macd_requests_updated r; committed := committed r;
     macd_records := macd_records r ++ [rc]; skipped_records := skipped_records r;
     updated_basket_ids := updated_basket_ids r; updated_macd_ids := updated_macd_ids r |}.

(** [result['skipped_records'].append(record); result['skipped_wrong_status'] += 1] *)
Definition append_skipped_record (rc : record) (r : result) : result :=
  {| total_found := total_found r; eligible_count := eligible_count r;
     skipped_wrong_status := skipped_wrong_status r + 1;
     order_requests_updated := order_requests_updated r;
     macd_requests_updated := macd_requests_updated r; committed := committed r;
     macd_records := macd_records r; skipped_records := skipped_records r ++ [rc];
     updated_basket_ids := updated_basket_ids r; updated_macd_ids := updated_macd_ids r |}.

Definition set_updated_ids (basket_ids macd_ids : list sqlval) (r : result) : result :=
  {| total_found := total_found r; eligible_count := eligible_count r;
     skipped_wrong_status := skipped_wrong_status r;
     order_requests_updated := order_requests_updated r;
     macd_requests_updated := macd_requests_updated r; committed := committed r;
     macd_records := macd_records r; skipped_records := skipped_records r;
     updated_basket_ids := basket_ids; updated_macd_ids := macd_ids |}.

Definition set_order_requests_updated (n : nat) (r : result) : result :=
  {| total_found := total_found r; eligible_count := eligible_count r;
     skipped_wrong_status := skipped_wrong_status r;
     order_requests_updated := n;
     macd_requests_updated := macd_requests_updated r; committed := committed r;
     macd_records := macd_records r; skipped_records := skipped_records r;
     updated_basket_ids := updated_basket_ids r; updated_macd_ids := updated_macd_ids r |}.

Definition set_macd_requests_updated (n : nat) (r : result) : result :=
  {| total_found := total_found r; eligible_count := eligible_count r;
     skipped_wrong_status := skipped_wrong_status r;
     order_requests_updated := order_requests_updated r;
     macd_requests_updated := n; committed := committed r;
     macd_records := macd_records r; skipped_records := skipped_records r;
     updated_basket_ids := updated_basket_ids r; updated_macd_ids := updated_macd_ids r |}.

Definition set_committed (b : bool) (r : result) : result :=
  {| total_found := total_found r; eligible_count := eligible_count r;
     skipped_wrong_status := skipped_wrong_status r;
     order_requests_updated := order_requests_updated r;
     macd_requests_updated := macd_requests_updated r; committed := b;
     macd_records := macd_records r; skipped_records := skipped_records r;
     updated_basket_ids := updated_basket_ids r; updated_macd_ids := updated_macd_ids r |}.

(** [list(dict.fromkeys(l))]: duplicates removed, first occurrences kept in
    order. *)
Definition dict_fromkeys (l : list sqlval) : list sqlval :=
  fold_left (fun acc x => if bool_decide (x ∈ acc) then acc else acc ++ [x]) l [].

(** One iteration of the [for row in rows] loop, on the pair of
    [eligible_records] and [result]. *)
Definition classify_row (acc : list record * result) (row : record) : list record * result :=
  let '(eligible_records, result) := acc in
  if bool_decide (r_status row = VText "posted") then
    (eligible_records ++ [row], append_macd_record row result)
  else
    (eligible_records, append_skipped_record row result).

(** The text of the SELECT (lines 327-340): one [sfdc_id LIKE %s] per
    pattern, joined by [OR], and the schema name spliced in twice.  The
    patterns themselves are bound, not spliced. *)
Definition like_conditions_text (like_patterns : list string) : string :=
  join " OR " (map (fun _ => "sfdc_id LIKE %s") like_patterns).

Definition select_query (schema_name like_conditions : string) : string :=
  join newline
    [ "";
      "            SELECT id, basket_id, status";
      "            FROM " +:+ schema_name +:+ ".macd_request";
      "            WHERE subscription_id IN (";
      "                SELECT id ";
      "                FROM " +:+ schema_name +:+ ".subscription ";
      "                WHERE " +:+ like_conditions;
      "            )";
      "        " ].

Section Processor.
Context `{PyRuntime}.

(** [faults s] is the exception the server answers the driver call [s]
    with, if any. *)
Variable faults : step -> option exn.

Local Open Scope db_scope.

(** A driver call of the [try] block: logged, then failed by the server or
    carried out. *)
Definition driver {A} (s : step) (effect : M A) : M A :=
  fun w =>
    let w := record_call (Step s) w in
    match faults s with
    | Some e => (Raise e, w)
    | None => effect w
    end.

(** Run [f] on the state the open transaction sees. *)
Definition in_session {A} (f : database -> M A) : M A :=
  fun w => match session w with
           | Some db => f db w
           | None => (Raise connection_closed, w)
           end.

(** The tables a statement names as [<schema_name>.<table>]: those of the
    schema of that name, or an error when there is none.  This is what the
    server makes of the statement when [schema_name] is a plain identifier;
    the program splices the name into the text as it is ([select_query]),
    and with any other name the text is other SQL, which this model does
    not describe.  A theorem whose point is which rows end up stored or
    fetched is therefore stated for org ids whose schema name is an
    identifier. *)
Definition in_schema {A} (schema_name : string) (f : database -> tenant -> M A) : M A :=
  in_session (fun db => match db !! schema_name with
                        | Some t => f db t
                        | None => raise (undefined_table schema_name)
                        end).

(** [psycopg2.connect] on the resolved profile: a new session that sees the committed
    state. *)
Definition connect (db_config : list (string * pyval)) : M unit :=
  driver Connect (fun w => (Ok tt, set_session (Some (stored w)) w)).

(** [conn.cursor()] *)
Definition cursor : M unit := driver Cursor (in_session (fun _ => ret tt)).

(** [cur.execute(query, like_patterns)] for the SELECT, whose text is
    [select_query schema_name (like_conditions_text like_patterns)]; with no
    pattern the WHERE clause is empty and the statement does not parse. *)
Definition execute_select (schema_name : string) (like_patterns : list string)
  : M (list record) :=
  driver ExecuteSelect
    (match like_patterns with
     | [] => in_session (fun _ => raise syntax_error)
     | _ => in_schema schema_name (fun _ t => ret (select_macd t like_patterns))
     end).

(** [cur.fetchall()] *)
Definition fetchall (pending : list record) : M (list record) :=
  driver Fetchall (in_session (fun _ => ret pending)).

(** [cur.execute(update_order_query, basket_ids)], returning [cur.rowcount]. *)
Definition execute_update_order (schema_name : string) (basket_ids : list sqlval) : M nat :=
  driver ExecuteUpdateOrder
    (in_schema schema_name
       (fun db t w =>
          (Ok (update_order_rowcount basket_ids t),
           set_session (Some (<[schema_name := update_order basket_ids t]> db)) w))).

(** [cur.execute(update_macd_query, macd_ids)], returning [cur.rowcount]. *)
Definition execute_update_macd (schema_name : string) (macd_ids : list sqlval) : M nat :=
  driver ExecuteUpdateMacd
    (in_schema schema_name
       (fun db t w =>
          (Ok (update_macd_rowcount macd_ids t),
           set_session (Some (<[schema_name := update_macd macd_ids t]> db)) w))).

(** [conn.rollback()] of the test-mode branch *)
Definition rollback : M unit :=
  driver Rollback (in_session (fun _ w => (Ok tt, set_session (Some (stored w)) w))).

(** [conn.commit()] *)
Definition commit : M unit :=
  driver Commit
    (in_session (fun db w =>
       (Ok tt, {| stored := db; session := Some db; calls := calls w |}))).

(** [cur.close()] *)
Definition cursor_close : M unit := fun w => (Ok tt, record_call CursorClose w).

(** [conn.rollback()] of the [except] clause *)
Definition except_rollback : M unit :=
  driver ExceptRollback (in_session (fun _ w => (Ok tt, set_session (Some (stored w)) w))).

(** [conn.close()] of the [finally] clause; closing discards whatever the
    transaction had not committed. *)
Definition conn_close (w : world) : world :=
  record_call ConnClose (set_session None w).

(** The body of the [try] block after [psycopg2.connect] has returned. *)
Definition try_block (org_id : pyval) (subscriptions : list pyval) (test_mode : bool)
  : M result :=
  let result := initial_result in
  _ <- cursor ;;
  clean_org_id <- match org_id with
                  | PStr s => ret (lower (strip_chars (String dquote "") s))
                  | _ => raise (attribute_error org_id "strip")
                  end ;;
  let schema_name := "org_" +:+ clean_org_id in
  let like_patterns := map (fun sub_id => py_str sub_id +:+ "%") subscriptions in
  pending <- execute_select schema_name like_patterns ;;
  rows <- fetchall pending ;;
  let result := set_total_found (length rows) result in
  let '(eligible_records, result) := fold_left classify_row rows ([], result) in
  let result := set_eligible_count (length eligible_records) result in
  match eligible_records with
  | [] => _ <- cursor_close ;; ret result
  | _ =>
      let basket_ids :=
        List.filter sql_truthy (map r_basket_id eligible_records) in
      let macd_ids := List.filter sql_truthy (map r_id eligible_records) in
      let basket_ids := dict_fromkeys basket_ids in
      let macd_ids := dict_fromkeys macd_ids in
      let result := set_updated_ids basket_ids macd_ids result in
      result <- match basket_ids with
                | [] => ret result
                | _ => n <- execute_update_order schema_name basket_ids ;;
                       ret (set_order_requests_updated n result)
                end ;;
      result <- match macd_ids with
                | [] => ret result
                | _ => n <- execute_update_macd schema_name macd_ids ;;
                       ret (set_macd_requests_updated n result)
                end ;;
      result <- (if test_mode
                 then _ <- rollback ;; ret (set_committed false result)
                 else _ <- commit ;; ret (set_committed true result)) ;;
      _ <- cursor_close ;;
      ret result
  end.

Definition process_macd_cancellation (db_config : list (string * pyval)) (org_id : pyval)
    (subscriptions : list pyval) (test_mode : bool) : M result :=
  fun w =>
    match connect db_config w with
    | (Raise e, w) => (Raise e, w)                 (* conn is still None *)
    | (Ok _, w) =>
        match try_block org_id subscriptions test_mode w with
        | (Ok result, w) => (Ok result, conn_close w)
        | (Raise e, w) =>
            match except_rollback w with
            | (Ok _, w) => (Raise e, conn_close w)        (* raise *)
            | (Raise e', w) => (Raise e', conn_close w)   (* the rollback raised *)
            end
        end
    end.

End Processor.

(** ** Ticketing gateway (kayako_connection.py, lines 62-148) *)

Module Kayako.

Inductive http_method := GET | POST | PUT.

(** What one call of [requests.get], [requests.post] or [requests.put]
    produces: a response with its status code and what [response.json()]
    would give, or an exception. *)
Inductive attempt :=
| Response (status_code : Z) (json : outcome pyval)
| Raises (e : exn).

(** What the caller can observe of a call besides its result. *)
Inductive io_event :=
| HttpRequest (m : http_method) (url : string)
| Sleep (seconds : Z).

Record KayakoConnect := {
  base_url : string;
  shim_url : string
}.

(** The status codes on which the method returns [response.json()]. *)
Definition success_codes (m : http_method) : list Z :=
  match m with
  | GET => [200]
  | POST => [201]
  | PUT => [200; 202]
  end.

Definition is_success (m : http_method) (status_code : Z) : bool :=
  existsb (Z.eqb status_code) (success_codes m).

(** The two [except] clauses of the loop body: both [break]. *)
Definition breaks_loop (e : exn) : bool :=
  isinstance_exn e [ConnectionError; RequestException].

(** [while attempts < 3: ...] of [get], [post] and [put]; the three differ
    in the requests function they call, in [success_codes] and in what they
    print.  [server n] is what the [n]-th request of this call meets.
    Falling out of the loop, by [break] or by exhaustion, returns [None]. *)
Equations? request_loop (m : http_method) (url : string) (server : nat -> attempt)
    (attempts : nat) (trace : list io_event) : outcome pyval * list io_event
    by wf (3 - attempts)%nat lt :=
request_loop m url server attempts trace with lt_dec attempts 3 := {
  | right _ => (Ok PNone, trace)
  | left Hlt =>
      let trace := trace ++ [HttpRequest m url] in
      match server attempts with
      | Response status_code json =>
          if is_success m status_code then
            match json with
            | Ok v => (Ok v, trace)
            | Raise e => if breaks_loop e then (Ok PNone, trace) else (Raise e, trace)
            end
          else if status_code =? 429 then
            request_loop m url server (S attempts) (trace ++ [Sleep 15])
          else (Ok PNone, trace)
      | Raises e => if breaks_loop e then (Ok PNone, trace) else (Raise e, trace)
      end }.
Proof. lia. Qed.

Definition request (self : KayakoConnect) (m : http_method) (endpoint : string)
    (is_shim : bool) (server : nat -> attempt) : outcome pyval * list io_event :=
  let url_base := if is_shim then shim_url self else base_url self in
  request_loop m (url_base +:+ endpoint) server 0 [].

Definition get (self : KayakoConnect) := request self GET.
Definition post (self : KayakoConnect) := request self POST.
Definition put (self : KayakoConnect) := request self PUT.

(** [write_internal_note]: one PUT through the shim; its result is dropped. *)
Definition write_internal_note (self : KayakoConnect) (server : nat -> attempt)
  : outcome unit * list io_event :=
  match put self "tickets/update_many" true server with
  | (Ok _, trace) => (Ok tt, trace)
  | (Raise e, trace) => (Raise e, trace)
  end.

Definition is_request (ev : io_event) : bool :=
  match ev with HttpRequest _ _ => true | Sleep _ => false end.


(** An attempt that met the rate limit. *)
Definition rate_limited (a : attempt) : Prop := exists json, a = Response 429 json.

(** [k] requests, each followed by the 15 second sleep. *)
Definition retries (m : http_method) (url : string) (k : nat) : list io_event :=
  concat (repeat [HttpRequest m url; Sleep 15] k).

End Kayako.

(** ** Result formatter (app.py, lines 429-481) *)

Section Formatter.
Context `{PyRuntime}.

(** What an f-string field shows for a fetched column value. *)
Definition sql_str (v : sqlval) : string :=
  match v with
  | VNull => "None"
  | VInt z => pretty z
  | VText s => s
  end.

Definition format_results (result : result) (org_id : pyval) (subscriptions : list pyval)
    (test_mode : bool) : string :=
  let lines :=
    [ if test_mode then "🧪 TEST MODE - Changes were NOT committed (rolled back)"
      else "✅ PRODUCTION MODE - Changes were committed" ] in
  let lines := lines ++
    [ ""; "MACD Request Cancellation Summary"; "==================================";
      "Org ID: " +:+ py_str org_id;
      "Subscriptions queried: " +:+ pretty (length subscriptions);
      "";
      "Results:";
      "  - Total MACD requests found: " +:+ pretty (total_found result);
      "  - Eligible for update (status='posted'): " +:+ pretty (eligible_count result);
      "  - Skipped (wrong status): " +:+ pretty (skipped_wrong_status result);
      "";
      "Updates Performed:";
      "  - order_request records updated to 'Error': "
        +:+ pretty (order_requests_updated result);
      "  - macd_request records updated to 'posted1': "
        +:+ pretty (macd_requests_updated result);
      "" ] in
  let lines :=
    match skipped_records result with
    | [] => lines
    | skipped =>
        lines ++ ["Skipped Records (wrong status):"]
              ++ map (fun record => "  - ID: " +:+ sql_str (r_id record)
                                    +:+ ", Status: " +:+ sql_str (r_status record)) skipped
              ++ [""]
    end in
  let lines :=
    match updated_basket_ids result with
    | [] => lines
    | ids => lines ++ ["Basket IDs affected:"]
                   ++ map (fun basket_id => "  - " +:+ sql_str basket_id) ids ++ [""]
    end in
  let lines :=
    match updated_macd_ids result with
    | [] => lines
    | ids => lines ++ ["MACD Request IDs updated:"]
                   ++ map (fun macd_id => "  - " +:+ sql_str macd_id) ids ++ [""]
    end in
  let lines := lines ++
    [ if test_mode
      then "⚠️ NOTE: This was a TEST run. No actual changes were made to the database."
      else "✅ All changes have been committed to the database." ] in
  join newline lines.

End Formatter.

(** ** Request handler (app.py, lines 13-144 and 484-489) *)

Record response := {
  statusCode : Z;
  body : string
}.

(** The state of one Lambda process and of what it talks to.  [PARAMETERS]
    is the module-level variable, [None] when the process starts;
    [ssm_calls] counts the [get_parameter] calls made to the parameter
    store; [notes] are the internal notes handed to the help-center agent,
    which absorbs every failure of its own
    ([help_center_connection._execute_with_fallback]). *)
Record process := {
  PARAMETERS : pyval;
  environ : gmap string string;
  ssm_calls : nat;
  db : world;
  notes : list (pyval * string)
}.

Definition set_PARAMETERS (v : pyval) (p : process) : process :=
  {| PARAMETERS := v; environ := environ p; ssm_calls := ssm_calls p;
     db := db p; notes := notes p |}.
Definition set_environ (e : gmap string string) (p : process) : process :=
  {| PARAMETERS := PARAMETERS p; environ := e; ssm_calls := ssm_calls p;
     db := db p; notes := notes p |}.
Definition count_ssm_call (p : process) : process :=
  {| PARAMETERS := PARAMETERS p; environ := environ p; ssm_calls := S (ssm_calls p);
     db := db p; notes := notes p |}.
Definition set_db (w : world) (p : process) : process :=
  {| PARAMETERS := PARAMETERS p; environ := environ p; ssm_calls := ssm_calls p;
     db := w; notes := notes p |}.
Definition add_note (case_id : pyval) (text : string) (p : process) : process :=
  {| PARAMETERS := PARAMETERS p; environ := environ p; ssm_calls := ssm_calls p;
     db := db p; notes := notes p ++ [(case_id, text)] |}.

Section Handler.
Context `{PyRuntime}.

(** [ssm n] is what the parameter store answers to the [n]-th
    [get_parameter] call of the process: the parameter value or an error. *)
Variable ssm : nat -> outcome string.

(** What the database server answers during this invocation. *)
Variable faults : step -> option exn.

Definition message_body (msg : string) : string :=
  json_dumps (PDict [("message", PStr msg)]).

Definition load_parameters (p : process) : outcome pyval * process :=
  let response := ssm (ssm_calls p) in
  let p := count_ssm_call p in
  match response with
  | Ok value => (json_loads value, p)
  | Raise e => (Raise e, p)
  end.

(** [PARAMETERS = PARAMETERS or load_parameters(PARAMETER_NAME)] *)
Definition ensure_parameters (p : process) : outcome unit * process :=
  if truthy (PARAMETERS p) then (Ok tt, p)
  else match load_parameters p with
       | (Ok v, p) => (Ok tt, set_PARAMETERS v p)
       | (Raise e, p) => (Raise e, p)
       end.

(** The value an entry of the configuration gets in [os.environ]. *)
Definition environ_value (value : pyval) : string :=
  match value with
  | PDict _ => json_dumps value
  | _ => py_str value
  end.

(** [for key, value in PARAMETERS.items(): os.environ[key] = ...], for
    entries that [os.environ] accepts.  The assignment raises for an empty
    name, for a name that holds [=] and for a NUL character in the name or
    in the value; the loop then stops and the outer handler answers 500.
    A theorem whose point is the copy is therefore stated for
    configurations whose entries are all accepted. *)
Definition update_environ (items : list (string * pyval)) (env : gmap string string)
  : gmap string string :=
  fold_left (fun env kv => <[fst kv := environ_value (snd kv)]> env) items env.

(** [body.get('test') or query_params.get('test_mode') or False]: the
    query parameters are consulted only when the body value is falsy. *)
Definition raw_test_flag (body : list (string * pyval)) (query_params : pyval)
  : outcome pyval :=
  let body_test := dict_get body "test" in
  if truthy body_test then Ok body_test
  else match query_params with
       | PDict q => Ok (py_or (dict_get q "test_mode") (PBool false))
       | _ => Raise (attribute_error query_params "get")
       end.

Definition success_body (result : result) (case_id : pyval) (test_mode : bool) : string :=
  json_dumps
    (PDict [("message", PStr "MACD request cancellation completed");
            ("macd_requests_found", PInt (Z.of_nat (total_found result)));
            ("eligible_for_update", PInt (Z.of_nat (eligible_count result)));
            ("skipped_wrong_status", PInt (Z.of_nat (skipped_wrong_status result)));
            ("order_requests_updated", PInt (Z.of_nat (order_requests_updated result)));
            ("macd_requests_updated", PInt (Z.of_nat (macd_requests_updated result)));
            ("case_id", case_id);
            ("test_mode", PBool test_mode);
            ("committed", PBool (committed result))]).

(** From the validated fields on: resolve the profile, process, notify. *)
Definition handle_request (org_id : pyval) (subscriptions : list pyval)
    (region case_id : pyval) (test_mode : bool) (p : process)
  : outcome response * process :=
  match get_database_config (environ p) region with
  | Raise e =>
      if isinstance_exn e [ValueError] then
        (Ok {| statusCode := 500; body := message_body (exn_msg e) |}, p)
      else (Raise e, p)
  | Ok db_config =>
      match process_macd_cancellation faults db_config org_id subscriptions test_mode (db p)
      with
      | (Ok result, w) =>
          let result_text := format_results result org_id subscriptions test_mode in
          let p := add_note case_id result_text (set_db w p) in
          (Ok {| statusCode := 200; body := success_body result case_id test_mode |}, p)
      | (Raise e, w) =>
          let error_msg := "Operation failed: " +:+ exn_msg e in
          let p := add_note case_id
                     ("MACD Request Cancellation Failed:" +:+ newline +:+ error_msg)
                     (set_db w p) in
          (Ok {| statusCode := 500; body := message_body error_msg |}, p)
      end
  end.

(** From the parsed body on: extract, normalize and validate the fields. *)
Definition handle_body (event : list (string * pyval)) (body : pyval) (p : process)
  : outcome response * process :=
  let query_params := py_or (dict_get event "queryStringParameters") (PDict []) in
  match body with
  | PDict body =>
      let org_id := dict_get body "org_id" in
      match parse_list_parameter (dict_get_default body "subscriptions" (PList [])) with
      | Raise e => (Raise e, p)
      | Ok subscriptions =>
          let region := dict_get body "region" in
          let case_id := dict_get body "case_id" in
          match raw_test_flag body query_params with
          | Raise e => (Raise e, p)
          | Ok raw =>
              let test_mode := parse_bool_parameter raw in
              match validate_inputs org_id (PList subscriptions) region case_id with
              | [] => handle_request org_id subscriptions region case_id test_mode p
              | validation_errors =>
                  let error_msg := "Validation errors: " +:+ join "; " validation_errors in
                  (Ok {| statusCode := 400; body := message_body error_msg |}, p)
              end
          end
      end
  | _ => (Raise (attribute_error body "get"), p)
  end.

(** The body of the outer [try] block. *)
Definition handler_try (event : pyval) (p : process) : outcome response * process :=
  match ensure_parameters p with
  | (Raise e, p) => (Raise e, p)
  | (Ok _, p) =>
      match PARAMETERS p with
      | PDict items =>
          let p := set_environ (update_environ items (environ p)) p in
          match event with
          | PDict ev =>
              let body := dict_get ev "body" in
              let body := match body with PNone => event | _ => body end in
              match body with
              | PDict _ => handle_body ev body p
              | _ =>
                  match json_loads (py_str body) with
                  | Ok body => handle_body ev body p
                  | Raise e =>
                      if isinstance_exn e [JSONDecodeError] then
                        (Ok {| statusCode := 400;
                               body := message_body ("Invalid JSON: " +:+ exn_msg e) |}, p)
                      else (Raise e, p)
                  end
              end
          | _ => (Raise (attribute_error event "get"), p)
          end
      | other => (Raise (attribute_error other "items"), p)
      end
  end.

Definition lambda_handler (event : pyval) (p : process) : response * process :=
  match handler_try event p with
  | (Ok r, p) => (r, p)
  | (Raise e, p) =>
      ({| statusCode := 500;
          body := message_body ("Lambda execution error: " +:+ exn_msg e) |}, p)
  end.

End Handler.

(** ** A reference runtime

    An executable reading of [json.loads], [json.dumps] and
    [ast.literal_eval] on a fragment of their input languages, used to run
    the program on concrete requests.

    - JSON: [null], [true], [false], decimal integers, strings with the
      escapes backslash-quote, backslash-backslash, backslash-slash and
      backslash-b/f/n/r/t, arrays and objects.
    - Python literals: [None], [True], [False], bare names, decimal
      integers, strings in single or double quotes with the escapes
      backslash-quote, backslash-backslash and backslash-n/r/t, lists and
      dicts, with an optional trailing comma.  A dict with a key that is
      not a string is kept as an opaque object.
    - A minus sign stands directly before the digits.  Text outside the
      fragment (floats, unicode escapes, tuples, sets, ...) is reported as a
      decode or syntax error, a decode error carries a fixed message, and a
      float is rendered by a fixed word. *)

Module Reference.

Inductive token :=
| TLBrack | TRBrack | TLBrace | TRBrace | TComma | TColon
| TStr (s : string) | TInt (z : Z) | TName (s : string).

Inductive dialect := Json | Python.

Definition is_digit (c : ascii) : bool :=
  let n := nat_of_ascii c in (Nat.leb 48 n && Nat.leb n 57)%bool.
Definition is_name_start (c : ascii) : bool :=
  (is_upper c || is_lower c || Ascii.eqb c "_")%bool.
Definition is_blank (c : ascii) : bool :=
  let n := nat_of_ascii c in
  (Nat.eqb n 32 || Nat.eqb n 9 || Nat.eqb n 10 || Nat.eqb n 13)%bool.

(** The character an escape letter stands for. *)
Definition unescape (d : dialect) (c : ascii) : option ascii :=
  if (Ascii.eqb c "\" || Ascii.eqb c dquote)%bool then Some c
  else if Ascii.eqb c "n" then Some (ascii_of_nat 10)
  else if Ascii.eqb c "r" then Some (ascii_of_nat 13)
  else if Ascii.eqb c "t" then Some (ascii_of_nat 9)
  else match d with
       | Json =>
           if Ascii.eqb c "/" then Some c
           else if Ascii.eqb c "b" then Some (ascii_of_nat 8)
           else if Ascii.eqb c "f" then Some (ascii_of_nat 12)
           else None
       | Python => if Ascii.eqb c squote then Some c else None
       end.

(** The rest of a string literal opened by the quote [q]: its content and
    what follows the closing quote. *)
Fixpoint lex_string (d : dialect) (q : ascii) (s : string) : option (string * string) :=
  match s with
  | EmptyString => None
  | String c s' =>
      if Ascii.eqb c q then Some (EmptyString, s')
      else if Ascii.eqb c "\" then
        match s' with
        | EmptyString => None
        | String e s'' =>
            match unescape d e, lex_string d q s'' with
            | Some c', Some (body, rest) => Some (String c' body, rest)
            | _, _ => None
            end
        end
      else if Nat.ltb (nat_of_ascii c) 32 then None
      else match lex_string d q s' with
           | Some (body, rest) => Some (String c body, rest)
           | None => None
           end
  end.

Fixpoint span (p : ascii -> bool) (s : string) : string * string :=
  match s with
  | EmptyString => (EmptyString, EmptyString)
  | String c s' =>
      if p c then let '(a, b) := span p s' in (String c a, b)
      else (EmptyString, s)
  end.

Definition digits_value (ds : string) : Z :=
  fold_left (fun acc c => 10 * acc + Z.of_nat (nat_of_ascii c - 48))
            (list_ascii_of_string ds) 0.

(** A run of digits is a number when it has no leading zero and no letter,
    dot or underscore follows it. *)
Definition lex_number (s : string) : option (Z * string) :=
  let '(ds, rest) := span is_digit s in
  let ok_head :=
    match ds with
    | EmptyString => false
    | String c EmptyString => true
    | String c _ => negb (Ascii.eqb c "0")
    end in
  let ok_tail :=
    match rest with
    | EmptyString => true
    | String c _ => negb (is_name_start c || Ascii.eqb c "." || is_digit c)%bool
    end in
  if (ok_head && ok_tail)%bool then Some (digits_value ds, rest) else None.

Fixpoint lex (fuel : nat) (d : dialect) (s : string) : option (list token) :=
  match fuel with
  | O => None
  | S fuel =>
      match s with
      | EmptyString => Some []
      | String c s' =>
          let punct (t : token) :=
            match lex fuel d s' with Some ts => Some (t :: ts) | None => None end in
          let quoted (q : ascii) :=
            match lex_string d q s' with
            | Some (body, rest) =>
                match lex fuel d rest with
                | Some ts => Some (TStr body :: ts)
                | None => None
                end
            | None => None
            end in
          if is_blank c then lex fuel d s'
          else if Ascii.eqb c "[" then punct TLBrack
          else if Ascii.eqb c "]" then punct TRBrack
          else if Ascii.eqb c "{" then punct TLBrace
          else if Ascii.eqb c "}" then punct TRBrace
          else if Ascii.eqb c "," then punct TComma
          else if Ascii.eqb c ":" then punct TColon
          else if Ascii.eqb c dquote then quoted dquote
          else if Ascii.eqb c squote then
            match d with Python => quoted squote | Json => None end
          else if Ascii.eqb c "-" then
            match lex_number s' with
            | Some (z, rest) =>
                match lex fuel d rest with
                | Some ts => Some (TInt (- z) :: ts)
                | None => None
                end
            | None => None
            end
          else if is_digit c then
            match lex_number s with
            | Some (z, rest) =>
                match lex fuel d rest with
                | Some ts => Some (TInt z :: ts)
                | None => None
                end
            | None => None
            end
          else if is_name_start c then
            let '(name, rest) := span (fun c => is_name_start c || is_digit c)%bool s in
            match lex fuel d rest with
            | Some ts => Some (TName name :: ts)
            | None => None
            end
          else None
      end
  end.

(** Syntax trees of the fragment. *)
#[warnings="-register-all"]
Inductive lit :=
| LName (s : string)
| LInt (z : Z)
| LStr (s : string)
| LList (l : list lit)
| LDict (l : list (lit * lit)).

(** [parse_value] reads one value; [parse_items] and [parse_pairs] read the
    inside of brackets and braces up to the closing token.  [first] tells
    whether an item may be absent (right after the opening token, or after a
    comma in Python). *)
Fixpoint parse_value (fuel : nat) (d : dialect) (ts : list token) : option (lit * list token) :=
  match fuel with
  | O => None
  | S fuel =>
      match ts with
      | TName s :: ts => Some (LName s, ts)
      | TInt z :: ts => Some (LInt z, ts)
      | TStr s :: ts => Some (LStr s, ts)
      | TLBrack :: ts =>
          match parse_items fuel d true ts with
          | Some (l, ts) => Some (LList l, ts)
          | None => None
          end
      | TLBrace :: ts =>
          match parse_pairs fuel d true ts with
          | Some (l, ts) => Some (LDict l, ts)
          | None => None
          end
      | _ => None
      end
  end
with parse_items (fuel : nat) (d : dialect) (may_close : bool) (ts : list token)
  : option (list lit * list token) :=
  match fuel with
  | O => None
  | S fuel =>
      match ts with
      | TRBrack :: ts => if may_close then Some ([], ts) else None
      | _ =>
          match parse_value fuel d ts with
          | Some (v, TComma :: ts) =>
              match parse_items fuel d (match d with Python => true | Json => false end) ts with
              | Some (l, ts) => Some (v :: l, ts)
              | None => None
              end
          | Some (v, TRBrack :: ts) => Some ([v], ts)
          | _ => None
          end
      end
  end
with parse_pairs (fuel : nat) (d : dialect) (may_close : bool) (ts : list token)
  : option (list (lit * lit) * list token) :=
  match fuel with
  | O => None
  | S fuel =>
      match ts with
      | TRBrace :: ts => if may_close then Some ([], ts) else None
      | _ =>
          match parse_value fuel d ts with
          | Some (k, TColon :: ts) =>
              match parse_value fuel d ts with
              | Some (v, TComma :: ts) =>
                  match parse_pairs fuel d (match d with Python => true | Json => false end) ts
                  with
                  | Some (l, ts) => Some ((k, v) :: l, ts)
                  | None => None
                  end
              | Some (v, TRBrace :: ts) => Some ([(k, v)], ts)
              | _ => None
              end
          | _ => None
          end
      end
  end.

Definition parse (d : dialect) (s : string) : option lit :=
  match lex (S (String.length s)) d s with
  | Some ts =>
      match parse_value (2 * length ts + 2) d ts with
      | Some (v, []) => Some v
      | _ => None
      end
  | None => None
  end.


(** [d[k] = v] on a dict kept in insertion order. *)
Fixpoint dict_set (d : list (string * pyval)) (k : string) (v : pyval)
  : list (string * pyval) :=
  match d with
  | [] => [(k, v)]
  | (k', v') :: d' => if String.eqb k' k then (k, v) :: d' else (k', v') :: dict_set d' k v
  end.

Definition decode_error : exn := Exn JSONDecodeError "Expecting value".

(** The value of a JSON syntax tree. *)
Fixpoint json_value (t : lit) : option pyval :=
  match t with
  | LName s =>
      if String.eqb s "null" then Some PNone
      else if String.eqb s "true" then Some (PBool true)
      else if String.eqb s "false" then Some (PBool false)
      else None
  | LInt z => Some (PInt z)
  | LStr s => Some (PStr s)
  | LList l =>
      option_map PList
        (fold_right (fun t acc => match json_value t, acc with
                                  | Some v, Some vs => Some (v :: vs)
                                  | _, _ => None
                                  end) (Some []) l)
  | LDict l =>
      option_map PDict
        (fold_left (fun acc kv => match acc, fst kv, json_value (snd kv) with
                                  | Some d, LStr k, Some v => Some (dict_set d k v)
                                  | _, _, _ => None
                                  end) l (Some []))
  end.

Definition ref_json_loads (s : string) : outcome pyval :=
  match parse Json s with
  | Some t => match json_value t with Some v => Ok v | None => Raise decode_error end
  | None => Raise decode_error
  end.

(** Lists and dicts are the unhashable values of the fragment. *)
Definition hashable (v : pyval) : bool :=
  match v with
  | PList _ | PDict _ => false
  | POpaque _ _ => false
  | _ => true
  end.

Section Convert.
Context (float_repr : float -> string).

(** [ast.literal_eval]'s conversion of a syntax tree, left to right: a
    name other than [None], [True], [False] is a malformed node, a dict
    key that cannot be hashed is a type error.  A dict whose keys are not all
    strings is kept as an opaque object. *)
Fixpoint convert (t : lit) : outcome pyval :=
  match t with
  | LName s =>
      if String.eqb s "None" then Ok PNone
      else if String.eqb s "True" then Ok (PBool true)
      else if String.eqb s "False" then Ok (PBool false)
      else Raise (Exn ValueError "malformed node or string")
  | LInt z => Ok (PInt z)
  | LStr s => Ok (PStr s)
  | LList l =>
      match fold_left (fun acc t => match acc with
                                    | Ok vs => match convert t with
                                               | Ok v => Ok (vs ++ [v])
                                               | Raise e => Raise e
                                               end
                                    | Raise e => Raise e
                                    end) l (Ok [])
      with
      | Ok vs => Ok (PList vs)
      | Raise e => Raise e
      end
  | LDict l =>
      match fold_left
              (fun acc kv =>
                 match acc with
                 | Ok d =>
                     match convert (fst kv) with
                     | Ok k =>
                         match convert (snd kv) with
                         | Ok v =>
                             if hashable k then Ok (d ++ [(k, v)])
                             else Raise (Exn TypeError
                                           ("unhashable type: " +:+ String squote (type_name k)
                                            +:+ String squote ""))
                         | Raise e => Raise e
                         end
                     | Raise e => Raise e
                     end
                 | Raise e => Raise e
                 end) l (Ok [])
      with
      | Ok d =>
          if forallb (fun kv => match fst kv with PStr _ => true | _ => false end) d then
            Ok (PDict (fold_left
                         (fun acc kv => match fst kv with
                                        | PStr k => dict_set acc k (snd kv)
                                        | _ => acc
                                        end) d []))
          else Ok (POpaque true "dict")
      | Raise e => Raise e
      end
  end.

End Convert.

Definition ref_float_repr (f : float) : string := "float".

Definition ref_literal_eval (s : string) : outcome pyval :=
  match parse Python s with
  | Some t => convert t
  | None => Raise (Exn SyntaxError "invalid syntax")
  end.

(** One character of a JSON string. *)
Definition json_escape_char (c : ascii) : string :=
  let n := nat_of_ascii c in
  if (Ascii.eqb c dquote || Ascii.eqb c "\")%bool then String "\" (String c "")
  else if Nat.eqb n 10 then "\n"
  else if Nat.eqb n 13 then "\r"
  else if Nat.eqb n 9 then "\t"
  else if Nat.eqb n 8 then "\b"
  else if Nat.eqb n 12 then "\f"
  else if (Nat.ltb n 32 || Nat.eqb n 127)%bool then
    "\u00" +:+ String (hex_digit (n / 16)) (String (hex_digit (n mod 16)) "")
  else String c "".

Definition json_string (s : string) : string :=
  String dquote (concat_map_string json_escape_char s) +:+ String dquote "".

(** [json.dumps] with its default separators. *)
Fixpoint ref_json_dumps (v : pyval) : string :=
  match v with
  | PNone => "null"
  | PBool b => if b then "true" else "false"
  | PInt z => pretty z
  | PFloat f => ref_float_repr f
  | PStr s => json_string s
  | PList l => "[" +:+ join ", " (map ref_json_dumps l) +:+ "]"
  | PDict d =>
      "{" +:+ join ", " (map (fun kv => json_string (fst kv) +:+ ": "
                                        +:+ ref_json_dumps (snd kv)) d) +:+ "}"
  | POpaque _ r => r
  end.

Definition runtime : PyRuntime :=
  {| json_loads := ref_json_loads;
     json_dumps := ref_json_dumps;
     literal_eval := ref_literal_eval;
     float_repr := ref_float_repr |}.

End Reference.

(** ** Ticketing client: set-up, connection test and tags
    (kayako_connection.py, lines 8-60 and 136-165)

    The client object in full: the two URLs of [Kayako.KayakoConnect] and
    the credentials read from the environment.  An endpoint that is sent a
    document answers the n-th request according to that document. *)

Module KayakoClient.
Import Kayako.

Record Agent := {
  urls : KayakoConnect;
  email : option string;
  password : option string
}.

(** [bool(s)] of a string that may be [None]. *)
Definition given (s : option string) : bool :=
  match s with
  | Some s => negb (String.eqb s "")
  | None => false
  end.

(** [v.get(key)]: only a dict has the method. *)
Definition get_method (v : pyval) (key : string) : outcome pyval :=
  match v with
  | PDict d => Ok (dict_get d key)
  | _ => Raise (attribute_error v "get")
  end.

(** The items [for one in v] runs over: the elements of a list, the
    characters of a string, the keys of a dict; no other value of a JSON
    document is iterable. *)
Definition iterate (v : pyval) : outcome (list pyval) :=
  match v with
  | PList l => Ok l
  | PStr s => Ok (map (fun c => PStr (String c "")) (list_ascii_of_string s))
  | PDict d => Ok (map PStr (dict_keys d))
  | _ => Raise (Exn TypeError
                  (String squote (type_name v) +:+ String squote " object is not iterable"))
  end.

(** The strings of [sep.join(l)], or the complaint about the first item
    that is not a string; [i] is the index of the head of [l]. *)
Fixpoint join_items (i : nat) (l : list pyval) : outcome (list string) :=
  match l with
  | [] => Ok []
  | PStr s :: l' =>
      match join_items (S i) l' with
      | Ok ss => Ok (s :: ss)
      | Raise e => Raise e
      end
  | v :: _ =>
      Raise (Exn TypeError ("sequence item " +:+ pretty i +:+ ": expected str instance, "
                            +:+ type_name v +:+ " found"))
  end.

(** [sep.join(l)] *)
Definition str_join (sep : string) (l : list pyval) : outcome string :=
  match join_items 0 l with
  | Ok ss => Ok (join sep ss)
  | Raise e => Raise e
  end.

(** [tags if isinstance(tags, list) else [tags]] *)
Definition as_list (tags : pyval) : list pyval :=
  match tags with
  | PList l => l
  | _ => [tags]
  end.

Section Client.
Context `{PyRuntime}.

(** [base64.b64decode(raw).decode('utf-8')] and the comparison [a == b]
    are library code. *)
Variable b64decode_utf8 : string -> outcome string.
Variable py_eq : pyval -> pyval -> bool.

(** [KayakoConnect()]: the password is decoded only when the variable is
    set and not empty, and is [None] when decoding fails. *)
Definition init (environ : gmap string string) : Agent :=
  let raw_password := environ !! "kayako_password" in
  {| urls :=
       {| base_url := "https://central-supportdesk.kayako.com/api/v1/";
          shim_url :=
            "https://nzm4zzomsptqgmle2tzhmxd27i0bednl.lambda-url.us-east-1.on.aws/api/v2/" |};
     email := environ !! "kayako_email";
     password :=
       match raw_password with
       | Some raw =>
           if String.eqb raw "" then None
           else match b64decode_utf8 raw with
                | Ok decoded => Some decoded
                | Raise _ => None
                end
       | None => None
       end |}.

(** [test_connection]: one GET, answered by [server], when both
    credentials are there. *)
Definition test_connection (self : Agent) (server : attempt) : bool * list io_event :=
  if (negb (given (email self)) || negb (given (password self)))%bool then (false, [])
  else
    let trace := [HttpRequest GET (base_url (urls self) +:+ "departments.json")] in
    match server with
    | Response status_code _ => (status_code =? 200, trace)
    | Raises _ => (false, trace)
    end.

(** The document [write_internal_note] sends. *)
Definition note_data (ticket_id text : pyval) : pyval :=
  PDict [("tickets",
          PList [PDict [("id", ticket_id);
                        ("comment", PDict [("body", text); ("public", PBool false)])]])].

Definition write_internal_note (self : Agent) (ticket_id text : pyval)
    (server : pyval -> nat -> attempt) : outcome unit * list io_event :=
  Kayako.write_internal_note (urls self) (server (note_data ticket_id text)).

(** [x in tags] *)
Definition contains (tags : list pyval) (x : pyval) : bool := existsb (py_eq x) tags.

(** [[one.get("name") for one in all_tags if one.get("name") not in tags]] *)
Fixpoint new_tag_list (tags : list pyval) (all_tags : list pyval) : outcome (list pyval) :=
  match all_tags with
  | [] => Ok []
  | one :: rest =>
      match get_method one "name" with
      | Raise e => Raise e
      | Ok name =>
          match new_tag_list tags rest with
          | Raise e => Raise e
          | Ok names => Ok (if contains tags name then names else name :: names)
          end
      end
  end.

(** [f"cases/{ticket_id}/tags.json"] *)
Definition tags_endpoint (ticket_id : pyval) : string :=
  "cases/" +:+ py_str ticket_id +:+ "/tags.json".

(** The tail of [delete_tags] and [add_tags]: send [data], drop the
    answer. *)
Definition send (call : outcome pyval * list io_event) (before : list io_event)
  : outcome unit * list io_event :=
  match call with
  | (Ok _, trace) => (Ok tt, before ++ trace)
  | (Raise e, trace) => (Raise e, before ++ trace)
  end.

Definition delete_tags (self : Agent) (ticket_id tags : pyval)
    (server_get : nat -> attempt) (server_put : pyval -> nat -> attempt)
  : outcome unit * list io_event :=
  let tags := as_list tags in
  let endpoint := tags_endpoint ticket_id in
  match get (urls self) endpoint false server_get with
  | (Raise e, trace) => (Raise e, trace)
  | (Ok document, trace) =>
      let kept :=
        match get_method document "data" with
        | Raise e => Raise e
        | Ok all_tags =>
            match iterate all_tags with
            | Raise e => Raise e
            | Ok all_tags =>
                match new_tag_list tags all_tags with
                | Raise e => Raise e
                | Ok new_tag_list => str_join "," new_tag_list
                end
            end
        end in
      match kept with
      | Raise e => (Raise e, trace)
      | Ok joined =>
          let data := PDict [("tags", PStr joined)] in
          send (put (urls self) endpoint false (server_put data)) trace
      end
  end.

Definition add_tags (self : Agent) (ticket_id tags : pyval)
    (server_post : pyval -> nat -> attempt) : outcome unit * list io_event :=
  let tags := as_list tags in
  match str_join ", " tags with
  | Raise e => (Raise e, [])
  | Ok joined =>
      let data := PDict [("tags", PStr joined)] in
      send (post (urls self) (tags_endpoint ticket_id) false (server_post data)) []
  end.

End Client.
End KayakoClient.

(** ** Help-center gateway (help_center_connection.py) *)

Module HelpCenter.
Import Kayako.

Record HelpCenterConnect := {
  is_kayako : bool;
  kayako_agent : option KayakoClient.Agent
}.

Section Gateway.
Context `{PyRuntime}.
Variable b64decode_utf8 : string -> outcome string.
Variable py_eq : pyval -> pyval -> bool.

(** [HelpCenterConnect(is_kayako)]: the client is built and its connection
    tested; the outcome of the test is only printed.  Neither step raises
    (each catches what its library calls raise), so the [except] clause that
    would drop the agent is never entered. *)
Definition init (is_kayako : bool) (environ : gmap string string) (server : attempt)
  : HelpCenterConnect * list io_event :=
  if is_kayako then
    let agent := KayakoClient.init b64decode_utf8 environ in
    let '(connection_ok, trace) := KayakoClient.test_connection agent server in
    ({| is_kayako := true; kayako_agent := Some agent |}, trace)
  else ({| is_kayako := false; kayako_agent := None |}, []).

(** [_execute_with_fallback]: [method] is the bound method [getattr] finds,
    applied to its arguments; its result, [None] for the three methods of
    the class, is handed on, and every exception becomes [None]. *)
Definition _execute_with_fallback (self : HelpCenterConnect)
    (method : KayakoClient.Agent -> outcome unit * list io_event) : pyval * list io_event :=
  match is_kayako self, kayako_agent self with
  | true, Some agent =>
      match method agent with
      | (Ok _, trace) => (PNone, trace)
      | (Raise _, trace) => (PNone, trace)
      end
  | _, _ => (PNone, [])
  end.

Definition delete_tags (self : HelpCenterConnect) (ticket_id tags : pyval)
    (server_get : nat -> attempt) (server_put : pyval -> nat -> attempt)
  : pyval * list io_event :=
  _execute_with_fallback self
    (fun agent => KayakoClient.delete_tags py_eq agent ticket_id tags server_get server_put).

Definition add_tags (self : HelpCenterConnect) (ticket_id tags : pyval)
    (server_post : pyval -> nat -> attempt) : pyval * list io_event :=
  _execute_with_fallback self
    (fun agent => KayakoClient.add_tags agent ticket_id tags server_post).

Definition write_internal_note (self : HelpCenterConnect) (ticket_id note : pyval)
    (server : pyval -> nat -> attempt) : pyval * list io_event :=
  _execute_with_fallback self
    (fun agent => KayakoClient.write_internal_note agent ticket_id note server).

End Gateway.
End HelpCenter.

(** ** Vocabulary of the statements *)

(** A fetched row is eligible when its status is exactly [posted]. *)
Definition posted (r : record) : bool := bool_decide (r_status r = VText "posted").

Definition eligible_of (rows : list record) : list record := List.filter posted rows.
Definition skipped_of (rows : list record) : list record :=
  List.filter (fun r => negb (posted r)) rows.

(** The tenant schema of an org id, and the LIKE patterns of a subscription
    list. *)
Definition schema_of (org_id : string) : string :=
  "org_" +:+ lower (strip_chars (String dquote "") org_id).

Definition patterns_of `{PyRuntime} (subscriptions : list pyval) : list string :=
  map (fun sub_id => py_str sub_id +:+ "%") subscriptions.

(** A name that the server reads as one plain identifier, as it stands: it
    starts with a lower-case letter or an underscore, holds only lower-case
    letters, digits and underscores, and is no longer than the 63 bytes the
    server keeps of a name.  An org id is safe when its schema name is such
    a name; an org id that is not a string names no schema at all. *)
Definition identifier_start (c : ascii) : bool :=
  (is_lower c || Ascii.eqb c "_")%bool.

Definition identifier_char (c : ascii) : bool :=
  let n := nat_of_ascii c in
  (is_lower c || (Nat.leb 48 n && Nat.leb n 57) || Ascii.eqb c "_")%bool.

Definition sql_identifier (name : string) : bool :=
  match name with
  | EmptyString => false
  | String c _ =>
      (identifier_start c && forallb identifier_char (list_ascii_of_string name)
       && Nat.leb (String.length name) 63)%bool
  end.

Definition safe_org_id (org_id : pyval) : Prop :=
  forall o, org_id = PStr o -> sql_identifier (schema_of o) = true.

(** [needle] occurs in [text]. *)
Fixpoint occurs (needle text : string) : bool :=
  (String.prefix needle text
   || match text with
      | EmptyString => false
      | String _ text' => occurs needle text'
      end)%bool.

(** The ids the two UPDATE statements are issued with. *)
Definition basket_ids_of (rows : list record) : list sqlval :=
  dict_fromkeys (List.filter sql_truthy (map r_basket_id (eligible_of rows))).
Definition macd_ids_of (rows : list record) : list sqlval :=
  dict_fromkeys (List.filter sql_truthy (map r_id (eligible_of rows))).

(** The world right after [psycopg2.connect] has returned. *)
Definition opened (w : world) : world :=
  set_session (Some (stored w)) (record_call (Step Connect) w).

(** Why a run can end in an exception: the server failed a driver call, the
    org id is not a string, there is no subscription, or the tenant schema
    does not exist. *)
Definition raise_cause (faults : step -> option exn) (org_id : pyval)
    (subscriptions : list pyval) (db : database) (e : exn) : Prop :=
  (exists s, faults s = Some e) \/
  (forall o, org_id <> PStr o) \/
  subscriptions = [] \/
  (exists o, org_id = PStr o /\ db !! schema_of o = None).

(** Weakest preconditions for the session monad: [Q] on a result, [E] on an
    exception. *)
Definition wp {A} (m : M A) (Q : A -> world -> Prop) (E : exn -> world -> Prop)
    (w : world) : Prop :=
  match m w with
  | (Ok a, w') => Q a w'
  | (Raise e, w') => E e w'
  end.

(** The worlds after the two UPDATE statements, each skipped when its id
    list is empty. *)
Definition after_order (sch : string) (B : list sqlval) (t : tenant) (db : database)
    (w : world) : world :=
  match B with
  | [] => w
  | _ => set_session (Some (<[sch := update_order B t]> db))
                     (record_call (Step ExecuteUpdateOrder) w)
  end.

Definition after_macd (sch : string) (I : list sqlval) (t : tenant) (db : database)
    (w : world) : world :=
  match I with
  | [] => w
  | _ => set_session (Some (<[sch := update_macd I t]> db))
                     (record_call (Step ExecuteUpdateMacd) w)
  end.

(** What holds when the [try] block, entered in world [w], returns [r] in
    world [w']. *)
Definition good_exit `{PyRuntime} (org : pyval) (subs : list pyval) (tm : bool) (w : world)
    (r : result) (w' : world) : Prop :=
  exists o t,
    org = PStr o /\ subs <> [] /\ stored w !! schema_of o = Some t /\
    let rows := select_macd t (patterns_of subs) in
    total_found r = length rows /\
    eligible_count r = length (eligible_of rows) /\
    skipped_wrong_status r = length (skipped_of rows) /\
    macd_records r = eligible_of rows /\
    skipped_records r = skipped_of rows /\
    is_Some (session w') /\
    match eligible_of rows with
    | [] =>
        order_requests_updated r = 0%nat /\ macd_requests_updated r = 0%nat /\
        committed r = false /\ updated_basket_ids r = [] /\ updated_macd_ids r = [] /\
        stored w' = stored w /\
        calls w' = calls w ++ [Step Cursor; Step ExecuteSelect; Step Fetchall; CursorClose]
    | _ =>
        let B := basket_ids_of rows in
        let I := macd_ids_of rows in
        updated_basket_ids r = B /\ updated_macd_ids r = I /\
        order_requests_updated r = update_order_rowcount B t /\
        macd_requests_updated r = update_macd_rowcount I t /\
        committed r = negb tm /\
        stored w' =
          (if tm then stored w
           else <[schema_of o := update_macd I (update_order B t)]> (stored w)) /\
        calls w' = calls w ++ [Step Cursor; Step ExecuteSelect; Step Fetchall]
                     ++ match B with [] => [] | _ => [Step ExecuteUpdateOrder] end
                     ++ match I with [] => [] | _ => [Step ExecuteUpdateMacd] end
                     ++ [Step (if tm then Rollback else Commit); CursorClose]
    end.

(** What holds when the [try] block, entered in world [w], raises [e] in
    world [w']. *)
Definition bad_exit (faults : step -> option exn) (org : pyval) (subs : list pyval)
    (w : world) (e : exn) (w' : world) : Prop :=
  stored w' = stored w /\ is_Some (session w') /\ raise_cause faults org subs (stored w) e.

(** A basket id, or a MACD id, that an UPDATE statement is issued with: a
    truthy value carried by a fetched row whose status is [posted]. *)
Definition eligible_basket (rows : list record) (x : sqlval) : Prop :=
  sql_truthy x = true /\
  exists row, row ∈ rows /\ r_status row = VText "posted" /\ r_basket_id row = x.

Definition eligible_id (rows : list record) (x : sqlval) : Prop :=
  sql_truthy x = true /\
  exists row, row ∈ rows /\ r_status row = VText "posted" /\ r_id row = x.

(** The basket ids as the specification words them: an eligible row's
    basket id that is not NULL. *)
Definition claimed_basket (rows : list record) (x : sqlval) : Prop :=
  x <> VNull /\
  exists row, row ∈ rows /\ r_status row = VText "posted" /\ r_basket_id row = x.


(** An [order_request] row whose status was set to [Error], and a
    [macd_request] row whose status was set to [posted1]: the other columns
    are as before. *)
Definition set_to_error (old new : order_row) : Prop :=
  order_status new = VText "Error" /\
  order_id new = order_id old /\ order_basket_id new = order_basket_id old.

Definition set_to_posted1 (old new : macd_row) : Prop :=
  macd_status new = VText "posted1" /\
  macd_id new = macd_id old /\ macd_subscription_id new = macd_subscription_id old /\
  macd_basket_id new = macd_basket_id old.

(** A row before and after an UPDATE that changes, as [change] says,
    exactly the rows whose key satisfies [hit]. *)
Definition changed_exactly {R} (hit : sqlval -> Prop) (key : R -> sqlval)
    (change : R -> R -> Prop) (old new : R) : Prop :=
  (hit (key old) /\ change old new) \/ (~ hit (key old) /\ new = old).

(** The statuses on which [get], [post] and [put] return the document; an
    error of the transport, which the [requests] library raises as
    [ConnectionError] or, more generally, as [RequestException]; and an
    attempt on which the call is to give up at once: a status that is
    neither a success nor 429, or an error of the transport. *)
Definition success_status (m : Kayako.http_method) (status_code : Z) : Prop :=
  match m with
  | Kayako.GET => status_code = 200
  | Kayako.POST => status_code = 201
  | Kayako.PUT => status_code = 200 \/ status_code = 202
  end.

Definition transport_error (e : exn) : Prop :=
  exn_cls e = ConnectionError \/ exn_cls e = RequestException.

Definition fails_at_once (m : Kayako.http_method) (a : Kayako.attempt) : Prop :=
  (exists status_code json,
     a = Kayako.Response status_code json /\ ~ success_status m status_code /\
     status_code <> 429) \/
  (exists e, a = Kayako.Raises e /\ transport_error e).

(** An entry of the configuration that [os.environ] accepts: its name is
    not empty and holds no [=], and neither the name nor the value holds a
    NUL character. *)
Definition legal_entry `{PyRuntime} (kv : string * pyval) : bool :=
  let nul := ascii_of_nat 0 in
  (negb (String.eqb (fst kv) "") && negb (string_mem "=" (fst kv))
   && negb (string_mem nul (fst kv)) && negb (string_mem nul (environ_value (snd kv))))%bool.

Definition legal_environment `{PyRuntime} (items : list (string * pyval)) : bool :=
  forallb legal_entry items.

(** ** A concrete tenant

    The scenario of the specification: org [00d1], one subscription prefix,
    two matching MACD rows with statuses [posted] and [declined]; a third
    MACD row belongs to a subscription that does not match, and a second
    tenant shares the database. *)

Definition no_faults : step -> option exn := fun _ => None.

Definition scenario_tenant : tenant :=
  {| subscription :=
       [ {| sub_id := VInt 1; sub_sfdc_id := Some "sub1AAA" |};
         {| sub_id := VInt 2; sub_sfdc_id := Some "other" |} ];
     macd_request :=
       [ {| macd_id := VInt 10; macd_subscription_id := VInt 1;
            macd_basket_id := VText "b1"; macd_status := VText "posted" |};
         {| macd_id := VInt 11; macd_subscription_id := VInt 1;
            macd_basket_id := VText "b2"; macd_status := VText "declined" |};
         {| macd_id := VInt 12; macd_subscription_id := VInt 2;
            macd_basket_id := VText "b3"; macd_status := VText "posted" |} ];
     order_request :=
       [ {| order_id := VInt 100; order_basket_id := VText "b1";
            order_status := VText "New" |};
         {| order_id := VInt 101; order_basket_id := VText "b2";
            order_status := VText "New" |} ] |}.

Definition other_tenant : tenant :=
  {| subscription := [ {| sub_id := VInt 1; sub_sfdc_id := Some "sub1BBB" |} ];
     macd_request :=
       [ {| macd_id := VInt 10; macd_subscription_id := VInt 1;
            macd_basket_id := VText "b1"; macd_status := VText "posted" |} ];
     order_request :=
       [ {| order_id := VInt 100; order_basket_id := VText "b1";
            order_status := VText "New" |} ] |}.

Definition scenario_db : database :=
  <["org_00d1" := scenario_tenant]> (<["org_00d2" := other_tenant]> ∅).

Definition scenario_world : world :=
  {| stored := scenario_db; session := None; calls := [] |}.

(** A tenant in which the eligible row carries the empty string as its
    basket id, and so does an order request. *)
Definition empty_basket_tenant : tenant :=
  {| subscription := [ {| sub_id := VInt 1; sub_sfdc_id := Some "sub1AAA" |} ];
     macd_request :=
       [ {| macd_id := VInt 10; macd_subscription_id := VInt 1;
            macd_basket_id := VText ""; macd_status := VText "posted" |} ];
     order_request :=
       [ {| order_id := VInt 100; order_basket_id := VText "";
            order_status := VText "New" |} ] |}.

Definition empty_basket_world : world :=
  {| stored := <["org_00d1" := empty_basket_tenant]> ∅; session := None; calls := [] |}.

(** The server fails the second UPDATE. *)
Definition server_gone : exn := Exn DatabaseError "server closed the connection unexpectedly".

Definition fail_update_macd : step -> option exn :=
  fun s => match s with ExecuteUpdateMacd => Some server_gone | _ => None end.

(** The handler's last step: an exception that escapes the outer [try]
    becomes a 500 response. *)
Definition finish `{PyRuntime} (r : outcome response * process) : response * process :=
  match r with
  | (Ok r, p) => (r, p)
  | (Raise e, p) =>
      ({| statusCode := 500;
          body := message_body ("Lambda execution error: " +:+ exn_msg e) |}, p)
  end.

(** The value the test flag is normalized from. *)
Definition chosen_test_flag (body_test query_test : pyval) : pyval :=
  if truthy body_test then body_test
  else if truthy query_test then query_test
  else PBool false.

(** [normalize_list] as the specification words it: a JSON array parse,
    then a Python-literal list parse, then the whole string as the only
    element. *)
Definition claimed_normalize_list `{PyRuntime} (value : pyval) : list pyval :=
  match value with
  | PNone => []
  | PList l => l
  | PStr s =>
      match json_loads s with
      | Ok (PList parsed) => parsed
      | _ => match literal_eval s with
             | Ok (PList parsed) => parsed
             | _ => [PStr s]
             end
      end
  | _ => [value]
  end.

(** What [parse_list_parameter] returns on a stripped, non-empty string
    when each parser either returns or raises an exception the function
    catches. *)
Definition parsed_or_single `{PyRuntime} (stripped : string) : list pyval :=
  match json_loads stripped with
  | Ok (PList parsed) => parsed
  | _ => match literal_eval stripped with
         | Ok (PList parsed) => parsed
         | _ => [PStr stripped]
         end
  end.

(** The four credential fields of a region's configuration, under the
    names the profile gives them. *)
Definition credentials (region_config : list (string * pyval)) : list (string * pyval) :=
  [("dbname", dict_get region_config "sm_db_name");
   ("user", dict_get region_config "sm_db_user");
   ("password", dict_get region_config "sm_db_password");
   ("host", dict_get region_config "sm_db_host")].

Definition missing_credentials (region_config : list (string * pyval)) : list string :=
  map fst (List.filter (fun kv => negb (truthy (snd kv))) (credentials region_config)).

(** ** A concrete deployment *)

Definition eu_config : pyval :=
  PDict [("sm_db_name", PStr "sm"); ("sm_db_user", PStr "svc");
         ("sm_db_password", PStr "secret"); ("sm_db_host", PStr "db.eu.internal")].

Definition us_config : pyval :=
  PDict [("sm_db_name", PStr "sm"); ("sm_db_user", PStr "svc");
         ("sm_db_password", PStr ""); ("sm_db_port", PInt 6432)].

Definition deployment_items : list (string * pyval) :=
  [("databases", PDict [("EU", eu_config); ("US", us_config)]);
   ("kayako_email", PStr "bot@example.com");
   ("retries", PInt 3)].

Definition deployment : pyval := PDict deployment_items.

(** The process after its first invocation under [scenario_ssm]. *)
Definition configured (p : process) : process :=
  set_environ (update_environ (H:=Reference.runtime) deployment_items (environ p))
              (set_PARAMETERS deployment (count_ssm_call p)).

(** The parameter store of the deployment, and one that holds an empty
    configuration object. *)
Definition scenario_ssm : nat -> outcome string :=
  fun _ => Ok (Reference.ref_json_dumps deployment).

Definition empty_ssm : nat -> outcome string := fun _ => Ok "{}".

(** A process that has just started. *)
Definition fresh_process : process :=
  {| PARAMETERS := PNone; environ := ∅; ssm_calls := 0; db := scenario_world; notes := [] |}.

Definition request_fields (region : string) (extra : list (string * pyval))
  : list (string * pyval) :=
  [("org_id", PStr "00D1"); ("subscriptions", PList [PStr "sub1"]);
   ("region", PStr region); ("case_id", PStr "999")] ++ extra.

Definition request_event (region : string) (extra : list (string * pyval)) : pyval :=
  PDict (request_fields region extra).

(** The ticketing client as [KayakoConnect.__init__] sets it up, and an
    endpoint that answers every request with HTTP 429. *)
Definition kayako_agent : Kayako.KayakoConnect :=
  {| Kayako.base_url := "https://central-supportdesk.kayako.com/api/v1/";
     Kayako.shim_url :=
       "https://nzm4zzomsptqgmle2tzhmxd27i0bednl.lambda-url.us-east-1.on.aws/api/v2/" |}.

Definition always_429 : nat -> Kayako.attempt := fun _ => Kayako.Response 429 (Ok PNone).

(** An endpoint that refuses the connection after a first 429, and one that
    answers every request with HTTP 500. *)
Definition connection_refused : exn := Exn ConnectionError "Connection refused".

Definition busy_then_refused : nat -> Kayako.attempt :=
  fun n => match n with
           | O => Kayako.Response 429 (Ok PNone)
           | _ => Kayako.Raises connection_refused
           end.

Definition always_500 : nat -> Kayako.attempt := fun _ => Kayako.Response 500 (Ok PNone).

(** An org id that carries statements of its own, and an org id that opens
    a comment together with a subscription id that closes it. *)
Definition injected_org_id : string :=
  "00d1.macd_request; update org_00d2.order_request set status = $$x$$; commit; "
  +:+ "select 1, 2, 3 where 0 in (select length($q$) from org_00d1".

Definition comment_org_id : string := "x.macd_request /*".

Definition comment_closing_id : string := "*/ */ where (0 < length($q$) -- ".

(** The tenant of [empty_basket_world] after the committed run. *)
Definition final_empty_basket_tenant : tenant :=
  {| subscription := subscription empty_basket_tenant;
     macd_request :=
       [ {| macd_id := VInt 10; macd_subscription_id := VInt 1;
            macd_basket_id := VText ""; macd_status := VText "posted1" |} ];
     order_request := order_request empty_basket_tenant |}.

(** A list written with single quotes and surrounded by blanks. *)
Definition quoted_list : string :=
  " [" +:+ String squote "a" +:+ String squote ", "
  +:+ String squote "b" +:+ String squote "] ".

(** Two process states with the same configuration: past the environment
    update the handler writes only to the database and the ticket. *)
Definition same_configuration (p p' : process) : Prop :=
  PARAMETERS p' = PARAMETERS p /\ environ p' = environ p /\ ssm_calls p' = ssm_calls p.

(** A request that asks for test mode in the query string only, a request
    whose body is not JSON, and a dict literal with a list as a key. *)
Definition query_event : list (string * pyval) :=
  request_fields "eu" [("queryStringParameters", PDict [("test_mode", PStr "TRUE")])].

Definition malformed_event : pyval := PDict [("body", PStr "{oops")].

Definition unhashable_key : string := "{[1]: 2}".

(** The tenant of [scenario_world] after a committed run. *)
Definition final_scenario_tenant : tenant :=
  {| subscription := subscription scenario_tenant;
     macd_request :=
       [ {| macd_id := VInt 10; macd_subscription_id := VInt 1;
            macd_basket_id := VText "b1"; macd_status := VText "posted1" |};
         {| macd_id := VInt 11; macd_subscription_id := VInt 1;
            macd_basket_id := VText "b2"; macd_status := VText "declined" |};
         {| macd_id := VInt 12; macd_subscription_id := VInt 2;
            macd_basket_id := VText "b3"; macd_status := VText "posted" |} ];
     order_request :=
       [ {| order_id := VInt 100; order_basket_id := VText "b1";
            order_status := VText "Error" |};
         {| order_id := VInt 101; order_basket_id := VText "b2";
            order_status := VText "New" |} ] |}.

(** The server drops the connection during the SELECT: that call fails, and
    so does the rollback of the [except] clause, which finds the connection
    closed. *)
Definition connection_lost : step -> option exn :=
  fun s => match s with
           | ExecuteSelect => Some server_gone
           | ExceptRollback => Some connection_closed
           | _ => None
           end.

(** ** Vocabulary of the further properties *)

(** The characters left when the leading ones that satisfy [p] are
    dropped, and a list that does not start with such a character. *)
Fixpoint drop_leading (p : ascii -> bool) (l : list ascii) : list ascii :=
  match l with
  | [] => []
  | c :: l' => if p c then drop_leading p l' else l
  end.

Definition head_kept (p : ascii -> bool) (l : list ascii) : Prop :=
  match l with [] => True | c :: _ => p c = false end.

(** A string of whitespace only, and a run of double quotes. *)
Definition blank (s : string) : bool := forallb is_py_space (list_ascii_of_string s).

Definition quotes (s : string) : bool :=
  forallb (fun c => Ascii.eqb c dquote) (list_ascii_of_string s).

(** A list with at least one element, and the number of request fields
    that fail validation. *)
Definition non_empty_list (v : pyval) : bool :=
  match v with PList (_ :: _) => true | _ => false end.

Definition field_errors (org_id subscriptions region case_id : pyval) : nat :=
  ((if truthy org_id then 0 else 1) + (if non_empty_list subscriptions then 0 else 1)
   + (if truthy region then 0 else 1) + (if truthy case_id then 0 else 1))%nat.

(** The fetched row of a MACD request. *)
Definition record_of (m : macd_row) : record :=
  {| r_id := macd_id m; r_basket_id := macd_basket_id m; r_status := macd_status m |}.

(** A fetched row after the second UPDATE was issued with the ids [I]. *)
Definition mark_posted1 (I : list sqlval) (r : record) : record :=
  if sql_in (r_id r) I
  then {| r_id := r_id r; r_basket_id := r_basket_id r; r_status := VText "posted1" |}
  else r.

(** A subscription id without a character that LIKE reads as a wildcard or
    as an escape. *)
Definition plain_id (s : string) : bool :=
  forallb (fun c => negb (Ascii.eqb c "%" || Ascii.eqb c "_" || Ascii.eqb c "\")%bool)
          (list_ascii_of_string s).

(** The request body the handler works on: the [body] entry of the event
    when it is an object, the event itself when there is no [body] entry,
    and otherwise what [json.loads] makes of the entry's text. *)
Definition request_body `{PyRuntime} (ev b : list (string * pyval)) : Prop :=
  dict_get ev "body" = PDict b \/
  (dict_get ev "body" = PNone /\ b = ev) \/
  ((forall d, dict_get ev "body" <> PDict d) /\ dict_get ev "body" <> PNone /\
   json_loads (py_str (dict_get ev "body")) = Ok (PDict b)).

(** What an invocation that started in state [p] may answer and leave
    behind: 200 with one note added; 400 with database and ticket
    untouched; 500 with the committed database as before and at most one
    note added.  An exception on its way to the outer handler leaves
    database and ticket untouched. *)
Definition answer_of (p : process) (r : outcome response * process) : Prop :=
  match r with
  | (Ok resp, p') =>
      (statusCode resp = 200 /\ exists c t, notes p' = notes p ++ [(c, t)]) \/
      (statusCode resp = 400 /\ db p' = db p /\ notes p' = notes p) \/
      (statusCode resp = 500 /\ stored (db p') = stored (db p) /\
       (notes p' = notes p \/ exists c t, notes p' = notes p ++ [(c, t)]))
  | (Raise e, p') => db p' = db p /\ notes p' = notes p
  end.

(** The first and the last line of the report. *)
Definition mode_banner (test_mode : bool) : string :=
  if test_mode then "🧪 TEST MODE - Changes were NOT committed (rolled back)"
  else "✅ PRODUCTION MODE - Changes were committed".

Definition mode_footer (test_mode : bool) : string :=
  if test_mode
  then "⚠️ NOTE: This was a TEST run. No actual changes were made to the database."
  else "✅ All changes have been committed to the database.".

(** The line of a skipped record and the line of an updated id. *)
Definition skipped_line (record : record) : string :=
  "  - ID: " +:+ sql_str (r_id record) +:+ ", Status: " +:+ sql_str (r_status record).

Definition id_line (id : sqlval) : string := "  - " +:+ sql_str id.

(** A titled block of the report: absent when it has no line, otherwise
    the title, the lines and an empty line. *)
Definition report_section (title : string) (lines : list string) : list string :=
  match lines with
  | [] => []
  | _ => title :: lines ++ [""]
  end.

Definition section_length {A} (l : list A) : nat :=
  match l with [] => 0 | _ => length l + 2 end.

(** The lines of the report. *)
Definition report_lines `{PyRuntime} (result : result) (org_id : pyval)
    (subscriptions : list pyval) (test_mode : bool) : list string :=
  [ mode_banner test_mode;
    ""; "MACD Request Cancellation Summary"; "==================================";
    "Org ID: " +:+ py_str org_id;
    "Subscriptions queried: " +:+ pretty (length subscriptions);
    "";
    "Results:";
    "  - Total MACD requests found: " +:+ pretty (total_found result);
    "  - Eligible for update (status='posted'): " +:+ pretty (eligible_count result);
    "  - Skipped (wrong status): " +:+ pretty (skipped_wrong_status result);
    "";
    "Updates Performed:";
    "  - order_request records updated to 'Error': "
      +:+ pretty (order_requests_updated result);
    "  - macd_request records updated to 'posted1': "
      +:+ pretty (macd_requests_updated result);
    "" ]
  ++ report_section "Skipped Records (wrong status):"
       (map skipped_line (skipped_records result))
  ++ report_section "Basket IDs affected:" (map id_line (updated_basket_ids result))
  ++ report_section "MACD Request IDs updated:" (map id_line (updated_macd_ids result))
  ++ [ mode_footer test_mode ].

(** The seconds a call has slept, and an event of a call made with the
    method [m]. *)
Definition slept (trace : list Kayako.io_event) : Z :=
  fold_right (fun ev acc => match ev with
                            | Kayako.Sleep seconds => seconds + acc
                            | Kayako.HttpRequest _ _ => acc
                            end) 0 trace.

Definition made_with (m : Kayako.http_method) (ev : Kayako.io_event) : Prop :=
  match ev with
  | Kayako.HttpRequest m' _ => m' = m
  | Kayako.Sleep _ => True
  end.

(** A tag object of the ticketing API that carries the name [n], and the
    URL of the connection test. *)
Definition named (tag : pyval) (n : string) : Prop :=
  exists d, tag = PDict d /\ dict_get d "name" = PStr n.

Definition departments_url : string :=
  "https://central-supportdesk.kayako.com/api/v1/departments.json".

(** ** Further concrete inputs *)

(** The scenario after its eligible request was cancelled. *)
Definition cancelled_world : world :=
  {| stored := <["org_00d1" := final_scenario_tenant]> ∅; session := None; calls := [] |}.

(** A parameter store that cannot be reached. *)
Definition store_down : nat -> outcome string :=
  fun _ => Raise (Exn ClientError "ParameterNotFound").

(** A request without a case id whose subscriptions are a blank string, a
    request that asks for test mode in its body, and the scenario request
    as the text of a [body] entry. *)
Definition incomplete_event : list (string * pyval) :=
  [("org_id", PStr "00D1"); ("subscriptions", PStr "  "); ("region", PStr "eu")].

Definition test_event : list (string * pyval) :=
  request_fields "eu" [("test", PStr "Yes")].

Definition wrapped_event : list (string * pyval) :=
  [("body", PStr (Reference.ref_json_dumps (PDict (request_fields "eu" []))))].

(** A process whose configuration is a JSON array. *)
Definition misconfigured_process : process :=
  {| PARAMETERS := PList [PInt 1]; environ := ∅; ssm_calls := 1; db := scenario_world;
     notes := [] |}.

(** The comparison [a == b] on strings, a client with credentials, and
    endpoints: one that lists three tags after a first 429, one that
    accepts every document, one that knows no such ticket. *)
Definition string_eq (a b : pyval) : bool :=
  match a, b with
  | PStr x, PStr y => String.eqb x y
  | _, _ => false
  end.

Definition support_agent : KayakoClient.Agent :=
  {| KayakoClient.urls := kayako_agent;
     KayakoClient.email := Some "bot@example.com";
     KayakoClient.password := Some "secret" |}.

Definition tags_document : list (string * pyval) :=
  [("data", PList [PDict [("name", PStr "vip")];
                   PDict [("id", PInt 7); ("name", PStr "spam")];
                   PDict [("name", PStr "billing")]])].

Definition busy_then_tags : nat -> Kayako.attempt :=
  fun n => match n with
           | O => Kayako.Response 429 (Ok PNone)
           | _ => Kayako.Response 200 (Ok (PDict tags_document))
           end.

Definition accepts_all : pyval -> nat -> Kayako.attempt :=
  fun _ _ => Kayako.Response 200 (Ok PNone).

Definition not_found : nat -> Kayako.attempt := fun _ => Kayako.Response 404 (Ok PNone).

(** Endpoints that accept an update with HTTP 202, create with HTTP 201,
    and answer 200 with a body that is not JSON, the decoder raising a
    request error or a plain [ValueError]. *)
Definition accepted : nat -> Kayako.attempt :=
  fun _ => Kayako.Response 202 (Ok (PDict [("status", PStr "accepted")])).

Definition created : nat -> Kayako.attempt :=
  fun _ => Kayako.Response 201 (Ok (PDict [("id", PInt 7)])).

Definition garbled (c : exn_class) : nat -> Kayako.attempt :=
  fun _ => Kayako.Response 200 (Raise (Exn c "Expecting value")).

(** * Verification *)

(** ** Rules of the session monad *)

Lemma wp_ret {A} (a : A) Q E w : Q a w -> wp (ret a) Q E w.
Proof. done. Qed.

Lemma wp_raise {A} e (Q : A -> world -> Prop) E w : E e w -> wp (raise e) Q E w.
Proof. done. Qed.

Lemma wp_bind {A B} (m : M A) (k : A -> M B) Q E w :
  wp m (fun a w' => wp (k a) Q E w') E w -> wp (bind m k) Q E w.
Proof. unfold wp, bind. destruct (m w) as [[a|e] w']; done. Qed.

Lemma wp_driver faults {A} s (m : M A) Q E w :
  (forall e, faults s = Some e -> E e (record_call (Step s) w)) ->
  (faults s = None -> wp m Q E (record_call (Step s) w)) ->
  wp (driver faults s m) Q E w.
Proof.
  unfold wp, driver. intros He Hm.
  destruct (faults s) as [e|]; [by apply He | by apply Hm].
Qed.

Lemma wp_in_session {A} (f : database -> M A) Q E w db :
  session w = Some db -> wp (f db) Q E w -> wp (in_session f) Q E w.
Proof. unfold wp, in_session. intros ->. done. Qed.

Lemma wp_in_schema {A} sch (f : database -> tenant -> M A) Q E w db :
  session w = Some db ->
  (db !! sch = None -> E (undefined_table sch) w) ->
  (forall t, db !! sch = Some t -> wp (f db t) Q E w) ->
  wp (in_schema sch f) Q E w.
Proof.
  intros Hs Hn Ht. unfold in_schema. eapply wp_in_session; [done|].
  destruct (db !! sch); [by apply Ht | by apply wp_raise, Hn].
Qed.

(** ** The two UPDATE statements *)

Lemma sql_in_nil x : sql_in x [] = false.
Proof. destruct x; cbn; try done; apply bool_decide_eq_false; by intros ?%elem_of_nil. Qed.

Lemma update_order_nil t : update_order [] t = t.
Proof.
  destruct t as [s m o]. unfold update_order. cbn. f_equal.
  induction o as [|x o IH]; cbn; [done|].
  unfold order_hit at 1. rewrite sql_in_nil. by rewrite IH.
Qed.

Lemma update_macd_nil t : update_macd [] t = t.
Proof.
  destruct t as [s m o]. unfold update_macd. cbn. f_equal.
  induction m as [|x m IH]; cbn; [done|].
  unfold macd_hit at 1. rewrite sql_in_nil. by rewrite IH.
Qed.

Lemma update_order_rowcount_nil t : update_order_rowcount [] t = 0%nat.
Proof.
  unfold update_order_rowcount. induction (order_request t) as [|x o IH]; cbn; [done|].
  unfold order_hit at 1. by rewrite sql_in_nil.
Qed.

Lemma update_macd_rowcount_nil t : update_macd_rowcount [] t = 0%nat.
Proof.
  unfold update_macd_rowcount. induction (macd_request t) as [|x o IH]; cbn; [done|].
  unfold macd_hit at 1. by rewrite sql_in_nil.
Qed.

Lemma after_order_facts sch B t db w :
  session w = Some db -> db !! sch = Some t ->
  session (after_order sch B t db w) = Some (<[sch := update_order B t]> db) /\
  stored (after_order sch B t db w) = stored w /\
  calls (after_order sch B t db w) =
    calls w ++ match B with [] => [] | _ => [Step ExecuteUpdateOrder] end.
Proof.
  intros Hs Ht. destruct B; cbn.
  - rewrite update_order_nil, insert_id, app_nil_r; done.
  - done.
Qed.

Lemma after_macd_facts sch I t db w :
  session w = Some db -> db !! sch = Some t ->
  session (after_macd sch I t db w) = Some (<[sch := update_macd I t]> db) /\
  stored (after_macd sch I t db w) = stored w /\
  calls (after_macd sch I t db w) =
    calls w ++ match I with [] => [] | _ => [Step ExecuteUpdateMacd] end.
Proof.
  intros Hs Ht. destruct I; cbn.
  - rewrite update_macd_nil, insert_id, app_nil_r; done.
  - done.
Qed.

(** ** The classification loop *)

Lemma classify_rows rows : forall el r,
  let out := fold_left classify_row rows (el, r) in
  fst out = el ++ eligible_of rows /\
  total_found (snd out) = total_found r /\
  eligible_count (snd out) = eligible_count r /\
  skipped_wrong_status (snd out) = (skipped_wrong_status r + length (skipped_of rows))%nat /\
  order_requests_updated (snd out) = order_requests_updated r /\
  macd_requests_updated (snd out) = macd_requests_updated r /\
  committed (snd out) = committed r /\
  macd_records (snd out) = macd_records r ++ eligible_of rows /\
  skipped_records (snd out) = skipped_records r ++ skipped_of rows /\
  updated_basket_ids (snd out) = updated_basket_ids r /\
  updated_macd_ids (snd out) = updated_macd_ids r.
Proof.
  induction rows as [|row rows IH]; intros el r; cbn zeta.
  - cbn. rewrite !app_nil_r. repeat split; lia.
  - cbn [fold_left].
    assert (Hc : classify_row (el, r) row =
                 if posted row then (el ++ [row], append_macd_record row r)
                 else (el, append_skipped_record row r)) by reflexivity.
    rewrite Hc.
    assert (He : eligible_of (row :: rows) =
                 if posted row then row :: eligible_of rows else eligible_of rows)
      by reflexivity.
    assert (Hk : skipped_of (row :: rows) =
                 if posted row then skipped_of rows else row :: skipped_of rows).
    { unfold skipped_of. cbn [List.filter]. by destruct (posted row). }
    rewrite He, Hk. clear He Hk Hc.
    destruct (posted row).
    + specialize (IH (el ++ [row]) (append_macd_record row r)). cbn zeta in IH.
      destruct IH as (?&?&?&?&?&?&?&?&?&?&?).
      cbn [append_macd_record total_found eligible_count skipped_wrong_status
           order_requests_updated macd_requests_updated committed macd_records
           skipped_records updated_basket_ids updated_macd_ids] in *.
      rewrite <- !app_assoc in *. cbn [app] in *. repeat split; congruence.
    + specialize (IH el (append_skipped_record row r)). cbn zeta in IH.
      destruct IH as (?&?&?&?&?&?&?&?&?&?&?).
      cbn [append_skipped_record total_found eligible_count skipped_wrong_status
           order_requests_updated macd_requests_updated committed macd_records
           skipped_records updated_basket_ids updated_macd_ids] in *.
      rewrite <- !app_assoc in *. cbn [app length] in *. repeat split; try congruence. lia.
Qed.

(** ** The [try] block *)

Section TryBlock.
Context `{PyRuntime}.
Variable faults : step -> option exn.

Ltac bad_exit_tac :=
  unfold bad_exit, raise_cause; split; [cbn; try done | split; [cbn; eauto | eauto 8]].

Ltac wp_driver_tac :=
  apply wp_driver; [intros ? ?; bad_exit_tac | intros _].

Lemma wp_order_phase sch B t db (r0 : result) (k : nat -> result) Q E w :
  session w = Some db -> db !! sch = Some t ->
  k 0%nat = r0 ->
  (forall e, faults ExecuteUpdateOrder = Some e ->
             E e (record_call (Step ExecuteUpdateOrder) w)) ->
  Q (k (update_order_rowcount B t)) (after_order sch B t db w) ->
  wp match B with
     | [] => ret r0
     | _ => bind (execute_update_order faults sch B) (fun n => ret (k n))
     end Q E w.
Proof.
  intros Hs Ht Hk HE HQ. destruct B as [|b B].
  - apply wp_ret. by rewrite update_order_rowcount_nil, Hk in HQ.
  - apply wp_bind. apply wp_driver; [done | intros _].
    eapply wp_in_schema; [cbn; done | cbn; congruence | intros t' Ht'].
    assert (t' = t) as -> by congruence. apply HQ.
Qed.

Lemma wp_macd_phase sch I t db (r0 : result) (k : nat -> result) Q E w :
  session w = Some db -> db !! sch = Some t ->
  k 0%nat = r0 ->
  (forall e, faults ExecuteUpdateMacd = Some e ->
             E e (record_call (Step ExecuteUpdateMacd) w)) ->
  Q (k (update_macd_rowcount I t)) (after_macd sch I t db w) ->
  wp match I with
     | [] => ret r0
     | _ => bind (execute_update_macd faults sch I) (fun n => ret (k n))
     end Q E w.
Proof.
  intros Hs Ht Hk HE HQ. destruct I as [|b I].
  - apply wp_ret. by rewrite update_macd_rowcount_nil, Hk in HQ.
  - apply wp_bind. apply wp_driver; [done | intros _].
    eapply wp_in_schema; [cbn; done | cbn; congruence | intros t' Ht'].
    assert (t' = t) as -> by congruence. apply HQ.
Qed.

(** The [try] block, entered with a fresh transaction, either returns a
    result described by [good_exit] or raises with the committed state
    untouched. *)
Lemma try_block_spec org subs tm w :
  session w = Some (stored w) ->
  wp (try_block faults org subs tm) (good_exit org subs tm w) (bad_exit faults org subs w) w.
Proof.
  intros Hs. unfold try_block.
  apply wp_bind. wp_driver_tac.
  eapply wp_in_session; [done|]. apply wp_ret.
  apply wp_bind.
  destruct org as [| | | |o| | |];
    try (apply wp_raise; bad_exit_tac; right; left; congruence).
  apply wp_ret. apply wp_bind. unfold execute_select. wp_driver_tac.
  fold (patterns_of subs). fold (schema_of o).
  destruct (patterns_of subs) as [|p ps] eqn:Hpats.
  { eapply wp_in_session; [cbn; done|]. apply wp_raise. bad_exit_tac.
    right; right; left. by destruct subs. }
  rewrite <- Hpats.
  assert (Hsubs : subs <> []) by (intros ->; discriminate).
  eapply wp_in_schema; [cbn; done | intros Hn; bad_exit_tac | intros t Ht].
  apply wp_ret. apply wp_bind. wp_driver_tac.
  eapply wp_in_session; [cbn; done|]. apply wp_ret.
  set (rows := select_macd t (patterns_of subs)).
  pose proof (classify_rows rows [] (set_total_found (length rows) initial_result)) as Hc.
  cbn zeta in Hc.
  destruct (fold_left classify_row rows _) as [el res].
  cbn [fst snd app set_total_found initial_result total_found eligible_count
       skipped_wrong_status order_requests_updated macd_requests_updated committed
       macd_records skipped_records updated_basket_ids updated_macd_ids] in Hc.
  destruct Hc as (-> & Htot & Hel & Hsk & Hou & Hmu & Hco & Hmr & Hsr & Hub & Hum).
  fold (basket_ids_of rows). fold (macd_ids_of rows).
  assert (Hsk' : skipped_wrong_status res = length (skipped_of rows)) by lia.
  destruct (eligible_of rows) as [|e0 el'] eqn:Hel0.
  { (* no eligible row: the early return *)
    apply wp_bind. unfold cursor_close, wp at 1. apply wp_ret.
    exists o, t. cbn zeta. fold rows. rewrite Hel0.
    cbn [set_eligible_count total_found eligible_count
       skipped_wrong_status order_requests_updated macd_requests_updated committed
       macd_records skipped_records updated_basket_ids updated_macd_ids
       record_call stored session calls length].
    rewrite <- !app_assoc. cbn [app].
    repeat split; try done. }
  rewrite <- Hel0.
  apply wp_bind.
  set (r0 := set_updated_ids _ _ _).
  eapply (wp_order_phase (schema_of o) (basket_ids_of rows) t (stored w) r0
            (fun n => set_order_requests_updated n r0)).
  { cbn; done. } { done. }
  { subst r0. unfold set_order_requests_updated, set_updated_ids, set_eligible_count.
    simpl. by rewrite Hou. }
  { intros e He. bad_exit_tac. }
  destruct (after_order_facts (schema_of o) (basket_ids_of rows) t (stored w)
              (record_call (Step Fetchall)
                 (record_call (Step ExecuteSelect) (record_call (Step Cursor) w))))
    as (Hs1 & Hst1 & Hc1); [by cbn | done |].
  set (w1 := after_order _ _ _ _ _) in *.
  set (r1 := set_order_requests_updated _ r0).
  apply wp_bind.
  eapply (wp_macd_phase (schema_of o) (macd_ids_of rows) (update_order (basket_ids_of rows) t)
            _ r1 (fun n => set_macd_requests_updated n r1)).
  { exact Hs1. } { apply lookup_insert_eq. }
  { subst r1 r0.
    unfold set_macd_requests_updated, set_order_requests_updated, set_updated_ids,
      set_eligible_count.
    simpl. by rewrite Hmu. }
  { intros e He. bad_exit_tac. }
  destruct (after_macd_facts (schema_of o) (macd_ids_of rows)
              (update_order (basket_ids_of rows) t) _ w1 Hs1 (lookup_insert_eq _ _ _))
    as (Hs2 & Hst2 & Hc2).
  set (w2 := after_macd _ _ _ _ _) in *.
  rewrite insert_insert_eq in Hs2.
  cbn [record_call stored calls] in Hst1, Hc1.
  clearbody w1 w2.
  assert (Hfields : forall b,
    let r := set_committed b
               (set_macd_requests_updated
                  (update_macd_rowcount (macd_ids_of rows)
                     (update_order (basket_ids_of rows) t)) r1) in
    total_found r = length rows /\
    eligible_count r = length (eligible_of rows) /\
    skipped_wrong_status r = length (skipped_of rows) /\
    macd_records r = eligible_of rows /\
    skipped_records r = skipped_of rows /\
    updated_basket_ids r = basket_ids_of rows /\
    updated_macd_ids r = macd_ids_of rows /\
    order_requests_updated r = update_order_rowcount (basket_ids_of rows) t /\
    macd_requests_updated r = update_macd_rowcount (macd_ids_of rows) t /\
    committed r = b).
  { intros b. subst r1 r0. cbn. rewrite Hel0. repeat split; done. }
  assert (Hcalls : forall c,
    (calls w2 ++ [Step c]) ++ [CursorClose] =
    calls w ++ [Step Cursor; Step ExecuteSelect; Step Fetchall]
      ++ match basket_ids_of rows with [] => [] | _ => [Step ExecuteUpdateOrder] end
      ++ match macd_ids_of rows with [] => [] | _ => [Step ExecuteUpdateMacd] end
      ++ [Step c; CursorClose]).
  { intros c. rewrite Hc2, Hc1. by rewrite <- !app_assoc. }
  apply wp_bind. destruct tm.
  - apply wp_bind. wp_driver_tac; [congruence|].
    eapply wp_in_session; [cbn; exact Hs2|]. unfold wp at 1. apply wp_ret.
    apply wp_bind. unfold cursor_close, wp at 1. apply wp_ret.
    exists o, t. cbn zeta. fold rows. rewrite Hel0. rewrite <- Hel0.
    specialize (Hfields false). cbn zeta in Hfields.
    destruct Hfields as (?&?&?&?&?&?&?&?&?&?).
    cbn [record_call set_session stored session calls negb].
    rewrite Hcalls.
    repeat split; try done. congruence.
  - apply wp_bind. wp_driver_tac; [congruence|].
    eapply wp_in_session; [cbn; exact Hs2|]. unfold wp at 1. apply wp_ret.
    apply wp_bind. unfold cursor_close, wp at 1. apply wp_ret.
    exists o, t. cbn zeta. fold rows. rewrite Hel0. rewrite <- Hel0.
    specialize (Hfields true). cbn zeta in Hfields.
    destruct Hfields as (?&?&?&?&?&?&?&?&?&?).
    cbn [record_call set_session stored session calls negb].
    rewrite Hcalls.
    repeat split; done.
Qed.

End TryBlock.

(** ** The cancellation processor *)

Section ProcessorFacts.
Context `{PyRuntime}.
Variable faults : step -> option exn.

Lemma opened_session w : session (opened w) = Some (stored (opened w)).
Proof. reflexivity. Qed.

(** The rollback of the [except] clause on an open session. *)
Lemma except_rollback_spec w :
  is_Some (session w) ->
  match except_rollback faults w with
  | (out, w1) =>
      stored w1 = stored w /\ calls w1 = calls w ++ [Step ExceptRollback] /\
      match faults ExceptRollback with
      | Some e' => out = Raise e'
      | None => out = Ok tt
      end
  end.
Proof.
  intros [db Hs]. unfold except_rollback, driver, in_session.
  destruct (faults ExceptRollback); cbn [record_call session]; [done|].
  by rewrite Hs.
Qed.

(** Every run is a failed connect, a [try] block that returned followed by
    [conn.close()], or a [try] block that raised followed by
    [conn.rollback()] and [conn.close()]. *)
Lemma process_spec db_config org subs tm w :
  match process_macd_cancellation faults db_config org subs tm w with
  | (Ok r, w') =>
      faults Connect = None /\
      exists w2, try_block faults org subs tm (opened w) = (Ok r, w2) /\
                 good_exit org subs tm (opened w) r w2 /\ w' = conn_close w2
  | (Raise e, w') =>
      (faults Connect = Some e /\ w' = record_call (Step Connect) w) \/
      (faults Connect = None /\
       exists e0 w2, try_block faults org subs tm (opened w) = (Raise e0, w2) /\
                     bad_exit faults org subs (opened w) e0 w2 /\
                     e = default e0 (faults ExceptRollback) /\
                     stored w' = stored w /\ session w' = None /\
                     calls w' = calls w2 ++ [Step ExceptRollback; ConnClose])
  end.
Proof.
  unfold process_macd_cancellation, connect, driver.
  destruct (faults Connect) as [e|] eqn:Hc; [by left|].
  change (set_session (Some (stored (record_call (Step Connect) w)))
            (record_call (Step Connect) w)) with (opened w).
  pose proof (try_block_spec faults org subs tm (opened w) (opened_session w)) as Hwp.
  unfold wp in Hwp.
  destruct (try_block faults org subs tm (opened w)) as [[r|e] w2].
  - split; [done|]. by exists w2.
  - pose proof (except_rollback_spec w2 (proj1 (proj2 Hwp))) as Hr.
    destruct (except_rollback faults w2) as [out w3].
    destruct Hr as (Hst & Hcalls & Hout).
    assert (Hrest : stored (conn_close w3) = stored w /\ session (conn_close w3) = None /\
                    calls (conn_close w3) = calls w2 ++ [Step ExceptRollback; ConnClose]).
    { cbn [conn_close record_call set_session stored session calls].
      rewrite Hst, Hcalls, <- app_assoc. split; [apply Hwp | done]. }
    destruct Hrest as (Hst' & Hse' & Hcalls').
    destruct (faults ExceptRollback) as [e'|]; subst out;
      right; (split; [done|]); exists e, w2; repeat split; done || apply Hwp.
Qed.

Lemma raise_cause_default org subs db e0 :
  raise_cause faults org subs db e0 ->
  raise_cause faults org subs db (default e0 (faults ExceptRollback)).
Proof.
  intros Hc. destruct (faults ExceptRollback) as [e'|] eqn:Hx; [|exact Hc].
  left. by exists ExceptRollback.
Qed.

Lemma length_skipped_of rows :
  length (skipped_of rows) = (length rows - length (eligible_of rows))%nat /\
  (length (eligible_of rows) <= length rows)%nat.
Proof.
  unfold skipped_of, eligible_of.
  induction rows as [|row rows [IH1 IH2]]; cbn; [done|].
  destruct (posted row); cbn; lia.
Qed.

(** With [test_mode = true] and a safe org id nothing is persisted,
    whatever the database, the rest of the request and the server's
    failures: the committed state after the run is the one before it.  A
    returned result has [committed = false], and its two counters are the
    row counts of the two UPDATE statements on the state the transaction
    saw: the rows of [order_request] whose basket id is among the ids the
    UPDATE was issued with, and likewise for [macd_request].  When rows were
    eligible the last driver calls are the rollback, the cursor close and
    the connection close; when none was, no statement but the SELECT was
    issued.  A run raises only for one of the causes of [raise_cause]. *)
Lemma test_mode_persists_nothing db_config org_id subscriptions w :
  safe_org_id org_id ->
  match process_macd_cancellation faults db_config org_id subscriptions true w with
  | (Ok result, w') =>
      stored w' = stored w /\ session w' = None /\ committed result = false /\
      exists o t,
        org_id = PStr o /\ stored w !! schema_of o = Some t /\
        let rows := select_macd t (patterns_of subscriptions) in
        order_requests_updated result = update_order_rowcount (basket_ids_of rows) t /\
        macd_requests_updated result = update_macd_rowcount (macd_ids_of rows) t /\
        match eligible_of rows with
        | [] =>
            calls w' = calls w ++ [Step Connect; Step Cursor; Step ExecuteSelect;
                                   Step Fetchall; CursorClose; ConnClose]
        | _ => exists l, calls w' = l ++ [Step Rollback; CursorClose; ConnClose]
        end
  | (Raise e, w') =>
      stored w' = stored w /\ raise_cause faults org_id subscriptions (stored w) e
  end.
Proof.
  intros _.
  pose proof (process_spec db_config org_id subscriptions true w) as Hp.
  destruct (process_macd_cancellation faults db_config org_id subscriptions true w)
    as [[r|e] w'].
  - destruct Hp as (_ & w2 & _ & (o & t & -> & _ & Ht & Hg) & ->).
    cbn zeta in Hg. cbn [opened set_session record_call stored calls] in Ht, Hg.
    destruct Hg as (_ & _ & _ & _ & _ & _ & Hg).
    destruct (eligible_of (select_macd t (patterns_of subscriptions))) eqn:Hel.
    + destruct Hg as (Ho & Hm & Hco & _ & _ & Hst & Hcalls).
      repeat split; try done.
      exists o, t. repeat split; try done.
      * unfold basket_ids_of. rewrite Hel. cbn. by rewrite update_order_rowcount_nil.
      * unfold macd_ids_of. rewrite Hel. cbn. by rewrite update_macd_rowcount_nil.
      * rewrite Hel. cbn [conn_close record_call set_session calls]. rewrite Hcalls.
        by rewrite <- !app_assoc.
    + cbn zeta in Hg. destruct Hg as (_ & _ & Ho & Hm & Hco & Hst & Hcalls).
      repeat split; try done.
      exists o, t. repeat split; try done.
      rewrite Hel. cbn [conn_close record_call set_session calls]. rewrite Hcalls.
      set (m1 := match basket_ids_of _ with [] => [] | _ => _ end).
      set (m2 := match macd_ids_of _ with [] => [] | _ => _ end).
      exists ((calls w ++ [Step Connect])
                ++ [Step Cursor; Step ExecuteSelect; Step Fetchall] ++ m1 ++ m2).
      by rewrite <- !app_assoc.
  - destruct Hp as [[He ->] | (_ & e0 & w2 & _ & (_ & _ & Hc) & -> & Hst & _)].
    + split; [done|]. left. eauto.
    + split; [exact Hst|]. by apply raise_cause_default.
Qed.

(** C4.  A returned result counts the fetched rows: with [N] rows fetched
    by the SELECT of which [K] have status exactly [posted],
    [total_found = N], [eligible_count = K] and
    [skipped_wrong_status = N - K], and [skipped_records] holds, in order,
    the fetched rows whose status is not [posted], each with its id and
    status.  A run raises only for one of the causes of [raise_cause]. *)
Theorem partition_counts db_config org_id subscriptions test_mode w :
  match process_macd_cancellation faults db_config org_id subscriptions test_mode w with
  | (Ok result, _) =>
      exists o t,
        org_id = PStr o /\ stored w !! schema_of o = Some t /\
        let rows := select_macd t (patterns_of subscriptions) in
        let N := length rows in
        let K := length (List.filter (fun r => bool_decide (r_status r = VText "posted")) rows) in
        total_found result = N /\
        eligible_count result = K /\
        skipped_wrong_status result = (N - K)%nat /\
        (K <= N)%nat /\
        skipped_records result =
          List.filter (fun r => negb (bool_decide (r_status r = VText "posted"))) rows
  | (Raise e, _) => raise_cause faults org_id subscriptions (stored w) e
  end.
Proof.
  pose proof (process_spec db_config org_id subscriptions test_mode w) as Hp.
  destruct (process_macd_cancellation faults db_config org_id subscriptions test_mode w)
    as [[r|e] w'].
  - destruct Hp as (_ & w2 & _ & (o & t & -> & _ & Ht & Hg) & ->).
    cbn zeta in Hg. destruct Hg as (Htot & Hel & Hsk & _ & Hsr & _).
    exists o, t. cbn zeta.
    destruct (length_skipped_of (select_macd t (patterns_of subscriptions))) as [Hl Hle].
    repeat split; try done.
    rewrite Hsk. exact Hl.
  - destruct Hp as [[He ->] | (_ & e0 & w2 & _ & (_ & _ & Hc) & -> & _)];
      [left; eauto | by apply raise_cause_default].
Qed.

End ProcessorFacts.

Section ExitPaths.
Context `{PyRuntime}.
Variable faults : step -> option exn.

(** C3, as amended.  Once the connection is open, every exit path
    releases it: the run ends with [conn.close()] and no session is left,
    whether the [try] block returned (after the updates or by the early
    return) or raised.  When the [try] block raises [e], the [except] clause
    calls [conn.rollback()], the committed state is the one before the run
    when the org id is safe, and the caller receives [e], unless that
    rollback raises itself, in which case the caller receives the
    rollback's exception. *)
Theorem exception_rolls_back_and_releases db_config org_id subscriptions test_mode w :
  faults Connect = None ->
  match try_block faults org_id subscriptions test_mode (opened w),
        process_macd_cancellation faults db_config org_id subscriptions test_mode w with
  | (body, w2), (out, w') =>
      session w' = None /\
      match body with
      | Ok result => out = Ok result /\ calls w' = calls w2 ++ [ConnClose]
      | Raise e =>
          calls w' = calls w2 ++ [Step ExceptRollback; ConnClose] /\
          (safe_org_id org_id -> stored w' = stored w) /\
          (faults ExceptRollback = None -> out = Raise e) /\
          (forall e', faults ExceptRollback = Some e' -> out = Raise e')
      end
  end.
Proof.
  intros Hc.
  pose proof (process_spec faults db_config org_id subscriptions test_mode w) as Hp.
  destruct (try_block faults org_id subscriptions test_mode (opened w)) as [body w2].
  destruct (process_macd_cancellation faults db_config org_id subscriptions test_mode w)
    as [[r|e] w'].
  - destruct Hp as (_ & w2' & Heq & _ & ->). injection Heq as -> <-.
    repeat split; done.
  - destruct Hp as [[He _] | (_ & e0 & w2' & Heq & _ & -> & Hst & Hse & Hcalls)];
      [congruence|].
    injection Heq as -> <-. split; [done|]. split; [done|]. split; [by intros _|].
    split; [by intros -> | by intros e' ->].
Qed.

End ExitPaths.

Section Duplicates.
Context `{PyRuntime}.
Variable faults : step -> option exn.

Lemma like_conditions_dup pats p s :
  p ∈ pats -> like_conditions (pats ++ [p]) s = like_conditions pats s.
Proof.
  intros Hp. unfold like_conditions. destruct (sub_sfdc_id s) as [sfdc|]; [|done].
  rewrite existsb_app. cbn. rewrite orb_false_r.
  destruct (sql_like p sfdc) eqn:Hl; [|by rewrite orb_false_r].
  rewrite orb_true_r. symmetry. apply existsb_exists.
  exists p. split; [by apply list_elem_of_In | done].
Qed.

Lemma select_macd_dup t pats p :
  p ∈ pats -> select_macd t (pats ++ [p]) = select_macd t pats.
Proof.
  intros Hp. unfold select_macd.
  rewrite (List.filter_ext (like_conditions (pats ++ [p])) (like_conditions pats)); [done|].
  intros s. by apply like_conditions_dup.
Qed.

Lemma execute_select_dup sch pats p w :
  p ∈ pats ->
  execute_select faults sch (pats ++ [p]) w = execute_select faults sch pats w.
Proof.
  intros Hp. unfold execute_select, driver.
  destruct (faults ExecuteSelect); [done|].
  destruct pats as [|q pats]; [by apply elem_of_nil in Hp|].
  cbn [app]. unfold in_schema, in_session.
  destruct (session (record_call (Step ExecuteSelect) w)); [|done].
  destruct (_ !! sch); [|done].
  unfold ret. f_equal. f_equal. change (q :: pats ++ [p]) with ((q :: pats) ++ [p]).
  by apply select_macd_dup.
Qed.

(** With a safe org id, repeating a subscription id changes nothing: with
    [x] already in the list, the run on the list extended by [x] returns
    the same result, or raises the same exception, and leaves the same
    world.  The repeated id only repeats a disjunct of the LIKE predicate. *)
Lemma duplicate_subscription_invariant db_config org_id subscriptions x test_mode w :
  safe_org_id org_id ->
  x ∈ subscriptions ->
  process_macd_cancellation faults db_config org_id (subscriptions ++ [x]) test_mode w =
  process_macd_cancellation faults db_config org_id subscriptions test_mode w.
Proof.
  intros _ Hx.
  assert (Hp : py_str x +:+ "%" ∈ patterns_of subscriptions).
  { unfold patterns_of. apply list_elem_of_fmap. by exists x. }
  unfold process_macd_cancellation.
  destruct (connect faults db_config w) as [[[]|e] w1]; [|done].
  assert (Ht : try_block faults org_id (subscriptions ++ [x]) test_mode w1 =
               try_block faults org_id subscriptions test_mode w1); [|by rewrite Ht].
  unfold try_block, bind.
  destruct (cursor faults w1) as [[[]|e] w2]; [|done].
  destruct org_id; try done.
  unfold ret at 1 3.
  rewrite map_app. cbn [map app].
  fold (patterns_of subscriptions).
  by rewrite (execute_select_dup _ _ _ _ Hp).
Qed.

End Duplicates.

(** ** The committed update *)

Lemma elem_of_dict_fromkeys x l : x ∈ dict_fromkeys l <-> x ∈ l.
Proof.
  unfold dict_fromkeys.
  assert (Hgen : forall acc, x ∈ fold_left
                   (fun acc y => if bool_decide (y ∈ acc) then acc else acc ++ [y]) l acc
                 <-> x ∈ acc \/ x ∈ l).
  { induction l as [|y l IH]; intros acc; cbn [fold_left].
    - split; [by left | intros [?|?%elem_of_nil]; done].
    - rewrite IH. rewrite elem_of_cons. case_bool_decide.
      + split; [intros [?|?]; auto | intros [?|[->|?]]; auto].
      + rewrite elem_of_app, list_elem_of_singleton. tauto. }
  rewrite Hgen. split; [intros [?%elem_of_nil|?]; done | by right].
Qed.

Lemma elem_of_filter_truthy x (l : list sqlval) :
  x ∈ List.filter sql_truthy l <-> sql_truthy x = true /\ x ∈ l.
Proof. rewrite !list_elem_of_In, filter_In. tauto. Qed.

Lemma elem_of_eligible_of row rows :
  row ∈ eligible_of rows <-> row ∈ rows /\ r_status row = VText "posted".
Proof.
  unfold eligible_of, posted. rewrite !list_elem_of_In, filter_In.
  by rewrite bool_decide_eq_true.
Qed.

Lemma sql_in_true x vs : sql_in x vs = true <-> x <> VNull /\ x ∈ vs.
Proof.
  destruct x; cbn; rewrite ?bool_decide_eq_true.
  - split; [done | by intros [? _]].
  - split; [by split | by intros [_ ?]].
  - split; [by split | by intros [_ ?]].
Qed.

Lemma truthy_not_null x : sql_truthy x = true -> x <> VNull.
Proof. by destruct x. Qed.

Lemma order_hit_eligible rows o :
  order_hit (basket_ids_of rows) o = true <-> eligible_basket rows (order_basket_id o).
Proof.
  unfold order_hit, basket_ids_of, eligible_basket.
  rewrite sql_in_true, elem_of_dict_fromkeys, elem_of_filter_truthy, list_elem_of_fmap.
  split.
  - intros (_ & Ht & row & Hb & Hr%elem_of_eligible_of). split; [done|].
    exists row. destruct Hr. by repeat split.
  - intros (Ht & row & Hr & Hp & Hb). split; [by apply truthy_not_null|]. split; [done|].
    exists row. split; [done|]. by apply elem_of_eligible_of.
Qed.

Lemma macd_hit_eligible rows m :
  macd_hit (macd_ids_of rows) m = true <-> eligible_id rows (macd_id m).
Proof.
  unfold macd_hit, macd_ids_of, eligible_id.
  rewrite sql_in_true, elem_of_dict_fromkeys, elem_of_filter_truthy, list_elem_of_fmap.
  split.
  - intros (_ & Ht & row & Hb & Hr%elem_of_eligible_of). split; [done|].
    exists row. destruct Hr. by repeat split.
  - intros (Ht & row & Hr & Hp & Hb). split; [by apply truthy_not_null|]. split; [done|].
    exists row. split; [done|]. by apply elem_of_eligible_of.
Qed.

Lemma changed_exactly_map {R} (P : sqlval -> Prop) (key : R -> sqlval)
    (change : R -> R -> Prop) (set : R -> R) (hit : R -> bool) (l : list R) :
  (forall x, hit x = true <-> P (key x)) ->
  (forall x, change x (set x)) ->
  Forall2 (changed_exactly P key change) l (map (fun x => if hit x then set x else x) l).
Proof.
  intros Hhit Hset. induction l as [|x l IH]; cbn; constructor; [|done].
  destruct (hit x) eqn:Hx.
  - left. split; [by apply Hhit | apply Hset].
  - right. split; [|done]. intros HP%Hhit. congruence.
Qed.

Lemma set_order_error_spec o : set_to_error o (set_order_error o).
Proof. repeat split. Qed.

Lemma set_macd_posted1_spec m : set_to_posted1 m (set_macd_posted1 m).
Proof. repeat split. Qed.

Lemma select_macd_no_pattern t : select_macd t [] = [].
Proof.
  unfold select_macd.
  assert (Hs : List.filter (like_conditions []) (subscription t) = []).
  { induction (subscription t) as [|s l IH]; cbn; [done|].
    unfold like_conditions at 1. by destruct (sub_sfdc_id s). }
  rewrite Hs. cbn.
  induction (macd_request t) as [|m l IH]; cbn; [done|].
  by rewrite sql_in_nil.
Qed.

Section Commit.
Context `{PyRuntime}.
Variable faults : step -> option exn.

(** C2, as amended.  When the org id is safe, the server fails no call,
    [test_mode] is false and a fetched row has status [posted], the run
    commits, and the committed state differs from the one before only in
    the tenant schema: there an [order_request] row has its status set to
    [Error], its other columns kept, exactly when its basket id is a truthy
    basket id (not NULL, not zero, not the empty string) of an eligible row;
    a [macd_request] row has its status set to [posted1], its other columns
    kept, exactly when its id is a truthy id of an eligible row; every
    other row and the [subscription] table are as before, and so is every
    other schema. *)
Theorem commit_updates_exactly db_config o subscriptions w t :
  sql_identifier (schema_of o) = true ->
  (forall s, faults s = None) ->
  stored w !! schema_of o = Some t ->
  (exists row, row ∈ select_macd t (patterns_of subscriptions) /\
               r_status row = VText "posted") ->
  exists result w' t',
    process_macd_cancellation faults db_config (PStr o) subscriptions false w
      = (Ok result, w') /\
    committed result = true /\
    stored w' !! schema_of o = Some t' /\
    (forall s, s <> schema_of o -> stored w' !! s = stored w !! s) /\
    subscription t' = subscription t /\
    let rows := select_macd t (patterns_of subscriptions) in
    Forall2 (changed_exactly (eligible_basket rows) order_basket_id set_to_error)
            (order_request t) (order_request t') /\
    Forall2 (changed_exactly (eligible_id rows) macd_id set_to_posted1)
            (macd_request t) (macd_request t').
Proof.
  intros _ Hf Ht (row & Hrow & Hposted).
  pose proof (process_spec faults db_config (PStr o) subscriptions false w) as Hp.
  destruct (process_macd_cancellation faults db_config (PStr o) subscriptions false w)
    as [[r|e] w'].
  - destruct Hp as (_ & w2 & _ & (o' & t1 & Ho & _ & Ht1 & Hg) & ->).
    injection Ho as <-. cbn [opened set_session record_call stored] in Ht1.
    assert (t1 = t) as -> by congruence.
    cbn zeta in Hg. destruct Hg as (_ & _ & _ & _ & _ & _ & Hg).
    destruct (eligible_of (select_macd t (patterns_of subscriptions))) as [|e0 el] eqn:Hel.
    { assert (Hin : row ∈ eligible_of (select_macd t (patterns_of subscriptions)))
        by by apply elem_of_eligible_of.
      rewrite Hel in Hin. by apply elem_of_nil in Hin. }
    cbn zeta in Hg. destruct Hg as (_ & _ & _ & _ & Hco & Hst & _).
    cbn [opened set_session record_call stored] in Hst.
    eexists r, _, _. split; [reflexivity|].
    cbn [conn_close set_session record_call stored]. rewrite Hst.
    split; [done|]. split; [apply lookup_insert_eq|].
    split; [intros s Hs; by apply lookup_insert_ne|].
    split; [done|]. cbn zeta. split.
    + cbn [update_macd update_order order_request].
      apply changed_exactly_map;
        [intros x; apply order_hit_eligible | apply set_order_error_spec].
    + cbn [update_macd update_order macd_request].
      apply changed_exactly_map;
        [intros x; apply macd_hit_eligible | apply set_macd_posted1_spec].
  - exfalso. destruct Hp as [[He _] | (_ & e0 & w2 & _ & (_ & _ & Hc) & _)].
    + by rewrite Hf in He.
    + destruct Hc as [[s Hs] | [Hn | [-> | (o' & Ho & Hn)]]].
      * by rewrite Hf in Hs.
      * by apply (Hn o).
      * unfold patterns_of in Hrow. cbn in Hrow. rewrite select_macd_no_pattern in Hrow.
        by apply elem_of_nil in Hrow.
      * injection Ho as <-. cbn in Hn. congruence.
Qed.

End Commit.

(** ** The ticketing gateway *)

Section RetryPolicy.
Import Kayako.

Lemma request_loop_eq m url server attempts trace :
  request_loop m url server attempts trace =
  if lt_dec attempts 3 then
    let trace := trace ++ [HttpRequest m url] in
    match server attempts with
    | Response status_code json =>
        if is_success m status_code then
          match json with
          | Ok v => (Ok v, trace)
          | Raise e => if breaks_loop e then (Ok PNone, trace) else (Raise e, trace)
          end
        else if status_code =? 429 then
          request_loop m url server (S attempts) (trace ++ [Sleep 15])
        else (Ok PNone, trace)
    | Raises e => if breaks_loop e then (Ok PNone, trace) else (Raise e, trace)
    end
  else (Ok PNone, trace).
Proof.
  simp request_loop. destruct (lt_dec attempts 3); reflexivity.
Qed.
Lemma not_success_429 m : is_success m 429 = false.
Proof. by destruct m. Qed.

(** The code's table of success statuses and its two [except] clauses
    against the wording of the statements. *)
Lemma is_success_spec m status_code :
  is_success m status_code = true <-> success_status m status_code.
Proof.
  unfold is_success, success_status.
  destruct m; cbn [success_codes existsb]; rewrite ?orb_false_r, ?orb_true_iff, ?Z.eqb_eq;
    done.
Qed.

Lemma breaks_loop_spec e : breaks_loop e = true <-> transport_error e.
Proof.
  unfold breaks_loop, transport_error, isinstance_exn.
  destruct e as [[] msg]; cbn; split; (done || tauto || (intros [?|?]; done)).
Qed.

(** One turn of the loop on an attempt that is not rate limited. *)
Lemma request_loop_stop m url server attempts trace :
  (attempts < 3)%nat -> ~ rate_limited (server attempts) ->
  snd (request_loop m url server attempts trace) = trace ++ [HttpRequest m url] /\
  (fails_at_once m (server attempts) ->
   fst (request_loop m url server attempts trace) = Ok PNone).
Proof.
  intros Hlt Hnr. rewrite request_loop_eq.
  destruct (lt_dec attempts 3); [|lia]. cbn zeta.
  destruct (server attempts) as [code json|e] eqn:Hs.
  - destruct (is_success m code) eqn:Hok.
    + apply is_success_spec in Hok.
      destruct json as [v|e]; [|destruct (breaks_loop e)]; (split; [done|]);
        intros [(c & j & Heq & Hno & _) | (e' & Heq & _)]; try done;
        injection Heq as <- _; done.
    + destruct (Z.eqb_spec code 429) as [->|Hne].
      * exfalso. apply Hnr. by eexists.
      * split; done.
  - destruct (breaks_loop e) eqn:Hb; (split; [done|]); [done|].
    intros [(c & j & Heq & _) | (e' & Heq & Hb')]; [done|].
    injection Heq as <-. apply breaks_loop_spec in Hb'. congruence.
Qed.

Lemma request_loop_retry m url server attempts trace :
  (attempts < 3)%nat -> rate_limited (server attempts) ->
  request_loop m url server attempts trace =
  request_loop m url server (S attempts) (trace ++ [HttpRequest m url; Sleep 15]).
Proof.
  intros Hlt [json Hs]. rewrite request_loop_eq.
  destruct (lt_dec attempts 3); [|lia]. cbn zeta. rewrite Hs, not_success_429.
  cbn. by rewrite <- app_assoc.
Qed.

Lemma request_loop_exhausted m url server trace :
  request_loop m url server 3 trace = (Ok PNone, trace).
Proof. rewrite request_loop_eq. by destruct (lt_dec 3 3); [lia|]. Qed.

Lemma request_loop_shape m url server :
  exists k, (k <= 3)%nat /\ (forall j, (j < k)%nat -> rate_limited (server j)) /\
    ((k = 3%nat /\ request_loop m url server 0 [] = (Ok PNone, retries m url 3)) \/
     ((k < 3)%nat /\ ~ rate_limited (server k) /\
      snd (request_loop m url server 0 []) = retries m url k ++ [HttpRequest m url] /\
      (fails_at_once m (server k) -> fst (request_loop m url server 0 []) = Ok PNone))).
Proof.
  assert (Hdec : forall a, rate_limited a \/ ~ rate_limited a).
  { intros [code json|e]; [|right; by intros [? ?]].
    destruct (Z.eq_dec code 429) as [->|Hne]; [left; by eexists|].
    right. intros [? ?]. congruence. }
  destruct (Hdec (server 0%nat)) as [H0|H0].
  2:{ exists 0%nat. split; [lia|]. split; [intros; lia|]. right.
      split; [lia|]. split; [done|]. by apply request_loop_stop; [lia|]. }
  rewrite (request_loop_retry _ _ _ 0%nat) by (done || lia).
  destruct (Hdec (server 1%nat)) as [H1|H1].
  2:{ exists 1%nat. split; [lia|]. split; [intros j ?; by replace j with 0%nat by lia|].
      right. split; [lia|]. split; [done|]. by apply request_loop_stop; [lia|]. }
  rewrite (request_loop_retry _ _ _ 1%nat) by (done || lia).
  destruct (Hdec (server 2%nat)) as [H2|H2].
  2:{ exists 2%nat. split; [lia|].
      split; [intros j ?; destruct j as [|[|]]; (done || lia)|].
      right. split; [lia|]. split; [done|]. by apply request_loop_stop; [lia|]. }
  rewrite (request_loop_retry _ _ _ 2%nat) by (done || lia).
  exists 3%nat. split; [lia|].
  split; [intros j ?; destruct j as [|[|[|]]]; (done || lia)|].
  left. split; [done|]. apply request_loop_exhausted.
Qed.

Lemma fails_at_once_not_rate_limited m a : fails_at_once m a -> ~ rate_limited a.
Proof.
  intros [(c & j & -> & _ & Hne) | (e & -> & _)] [json Heq]; [|done].
  injection Heq as ? ?. done.
Qed.

(** C8.  A call of [get], [post] or [put] makes at most three requests.
    When every attempt meets HTTP 429 the call sleeps 15 seconds after each
    of the three and returns [None] without raising.  When the first [k]
    attempts meet 429 and the next one meets another status that is not a
    success of the method (200 for [get], 201 for [post], 200 or 202 for
    [put]), or raises [ConnectionError] or [RequestException], the call has
    slept 15 seconds after each 429, returns [None] right after that
    request, and makes no further one. *)
Theorem retry_policy (self : KayakoConnect) (m : http_method) (endpoint : string)
    (is_shim : bool) (server : nat -> attempt) :
  let url := (if is_shim then shim_url self else base_url self) +:+ endpoint in
  match request self m endpoint is_shim server with
  | (res, trace) =>
      (length (List.filter is_request trace) <= 3)%nat /\
      ((forall n, (n < 3)%nat -> rate_limited (server n)) ->
       res = Ok PNone /\ trace = retries m url 3) /\
      (forall k, (k < 3)%nat ->
         (forall j, (j < k)%nat -> rate_limited (server j)) ->
         fails_at_once m (server k) ->
         res = Ok PNone /\ trace = retries m url k ++ [HttpRequest m url])
  end.
Proof.
  cbn zeta. unfold request.
  set (url := (if is_shim then shim_url self else base_url self) +:+ endpoint).
  destruct (request_loop_shape m url server) as (k0 & Hk0 & Hall & Hcase).
  destruct (request_loop m url server 0 []) as [res trace].
  destruct Hcase as [[-> Heq] | (Hlt & Hnr & Htr & Hres)].
  - injection Heq as -> ->. split; [cbn; lia|]. split; [done|].
    intros k Hk _ Hg. exfalso.
    apply (fails_at_once_not_rate_limited _ _ Hg). apply Hall. lia.
  - cbn [fst snd] in *. subst trace. split.
    { destruct k0 as [|[|[|]]]; cbn; lia. }
    split.
    + intros Hrl. exfalso. apply Hnr, Hrl, Hlt.
    + intros k Hk Hpre Hg.
      assert (k = k0) as ->.
      { destruct (Nat.lt_trichotomy k k0) as [Hl|[->|Hl]]; [|done|].
        - exfalso. apply (fails_at_once_not_rate_limited _ _ Hg). by apply Hall.
        - exfalso. apply Hnr. by apply Hpre. }
      split; [by apply Hres | done].
Qed.

End RetryPolicy.

(** ** The request handler *)

Section HandlerFacts.
Context `{PyRuntime}.
Variable ssm : nat -> outcome string.
Variable faults : step -> option exn.

Lemma lambda_handler_finish event p :
  lambda_handler ssm faults event p = finish (handler_try ssm faults event p).
Proof. reflexivity. Qed.

Lemma handle_request_frame org subs region case_id tm p :
  same_configuration p (snd (handle_request faults org subs region case_id tm p)).
Proof.
  unfold handle_request, same_configuration.
  destruct (get_database_config (environ p) region) as [cfg|e].
  - by destruct (process_macd_cancellation faults cfg org subs tm (db p)) as [[r|e] w].
  - by destruct (isinstance_exn e [ValueError]).
Qed.

Lemma handle_body_frame ev body p :
  same_configuration p (snd (handle_body faults ev body p)).
Proof.
  unfold handle_body.
  destruct body; try done.
  destruct (parse_list_parameter _); [|done].
  destruct (raw_test_flag _ _); [|done].
  destruct (validate_inputs _ _ _ _); [|done].
  apply handle_request_frame.
Qed.

Lemma ensure_parameters_frame p :
  match ensure_parameters ssm p with
  | (out, p1) =>
      environ p1 = environ p /\ db p1 = db p /\ notes p1 = notes p /\
      (truthy (PARAMETERS p) = true -> out = Ok tt /\ p1 = p) /\
      (truthy (PARAMETERS p) = false -> ssm_calls p1 = S (ssm_calls p))
  end.
Proof.
  unfold ensure_parameters, load_parameters.
  destruct (truthy (PARAMETERS p)) eqn:Ht.
  - by repeat split.
  - destruct (ssm (ssm_calls p)) as [value|e]; [destruct (json_loads value)|];
      by repeat split.
Qed.

(** Whatever the event, once [PARAMETERS] holds a dict the handler leaves
    the process with that dict copied into the environment. *)
Lemma handler_try_configuration event p p1 items :
  ensure_parameters ssm p = (Ok tt, p1) ->
  PARAMETERS p1 = PDict items ->
  same_configuration (set_environ (update_environ items (environ p1)) p1)
                     (snd (handler_try ssm faults event p)).
Proof.
  intros He Hp. unfold handler_try. rewrite He, Hp.
  set (p2 := set_environ _ p1).
  destruct event as [| | | | | |ev|]; try done.
  destruct (match dict_get ev "body" with PNone => PDict ev | _ => dict_get ev "body" end)
    as [| | | | | |b|] eqn:Hb;
    try (destruct (json_loads _) as [b'|e];
         [apply handle_body_frame | by destruct (isinstance_exn e [JSONDecodeError])]).
  apply handle_body_frame.
Qed.

(** A request whose body is a JSON object, given inline or as the event
    itself, and whose fields pass validation reaches the processing stage
    with the normalized fields. *)
Lemma handler_reaches_request ev b p p1 items subs raw :
  ensure_parameters ssm p = (Ok tt, p1) ->
  PARAMETERS p1 = PDict items ->
  (dict_get ev "body" = PDict b \/ (dict_get ev "body" = PNone /\ b = ev)) ->
  parse_list_parameter (dict_get_default b "subscriptions" (PList [])) = Ok subs ->
  raw_test_flag b (py_or (dict_get ev "queryStringParameters") (PDict [])) = Ok raw ->
  validate_inputs (dict_get b "org_id") (PList subs) (dict_get b "region")
                  (dict_get b "case_id") = [] ->
  handler_try ssm faults (PDict ev) p =
  handle_request faults (dict_get b "org_id") subs (dict_get b "region")
                 (dict_get b "case_id") (parse_bool_parameter raw)
                 (set_environ (update_environ items (environ p1)) p1).
Proof.
  intros He Hp Hb Hl Hr Hv. unfold handler_try. rewrite He, Hp.
  assert (Hbody : match dict_get ev "body" with PNone => PDict ev | _ => dict_get ev "body" end
                  = PDict b).
  { destruct Hb as [-> | [-> ->]]; done. }
  rewrite Hbody. unfold handle_body. by rewrite Hl, Hr, Hv.
Qed.

End HandlerFacts.

Section Configuration.
Context `{PyRuntime}.
Variable ssm : nat -> outcome string.
Variable faults : step -> option exn.

Lemma missing_params_credentials region_config :
  map fst
      (List.filter
         (fun kv => (negb (truthy (snd kv)) && negb (String.eqb (fst kv) "port"))%bool)
         (credentials region_config
            ++ [("port", dict_get_default region_config "sm_db_port" (PInt 5432))]))
  = missing_credentials region_config.
Proof.
  unfold missing_credentials, credentials. cbn [app List.filter fst snd].
  destruct (truthy (dict_get region_config "sm_db_name"));
    destruct (truthy (dict_get region_config "sm_db_user"));
    destruct (truthy (dict_get region_config "sm_db_password"));
    destruct (truthy (dict_get region_config "sm_db_host"));
    destruct (truthy (dict_get_default region_config "sm_db_port" (PInt 5432)));
    reflexivity.
Qed.

(** C5.  [get_database_config] looks the region up under its upper-cased
    name.  It raises [ValueError] when the [databases] entry of the
    environment is absent or empty; when the decoded blob has no entry for
    the region, with a message that lists the keys of the blob; and when one
    of the four credential fields is empty, with a message that lists the
    empty fields.  Otherwise it returns the profile, all four credentials
    non-empty, with the configured port, or 5432 when there is none.  In
    the handler, a request that passed validation and whose region fails to
    resolve this way is answered with status 500 and the resolver's
    message. *)
Theorem database_config_resolution (env : gmap string string) (r : string) :
  let region := upper r in
  ((env !! "databases" = None \/ env !! "databases" = Some "") ->
   get_database_config env (PStr r) =
   Raise (Exn ValueError "No databases configuration found in SSM parameters")) /\
  (forall cfg databases,
     env !! "databases" = Some cfg -> cfg <> "" ->
     json_loads cfg = Ok (PDict databases) ->
     (dict_lookup databases region = None ->
      get_database_config env (PStr r) =
      Raise (Exn ValueError
               ("Unsupported database region: " +:+ region +:+ ". Supported regions: "
                +:+ py_repr (PList (map PStr (dict_keys databases)))))) /\
     (forall region_config,
        dict_lookup databases region = Some (PDict region_config) ->
        (missing_credentials region_config <> [] ->
         get_database_config env (PStr r) =
         Raise (Exn ValueError
                  ("Missing database configuration parameters for " +:+ region +:+ ": "
                   +:+ join ", " (missing_credentials region_config)))) /\
        (missing_credentials region_config = [] ->
         get_database_config env (PStr r) =
         Ok (credentials region_config
               ++ [("port", dict_get_default region_config "sm_db_port" (PInt 5432))]) /\
         Forall (fun kv => truthy (snd kv) = true) (credentials region_config) /\
         (dict_lookup region_config "sm_db_port" = None ->
          dict_get_default region_config "sm_db_port" (PInt 5432) = PInt 5432)))) /\
  (forall ev b p p1 items subs raw msg,
     ensure_parameters ssm p = (Ok tt, p1) ->
     PARAMETERS p1 = PDict items ->
     (dict_get ev "body" = PDict b \/ (dict_get ev "body" = PNone /\ b = ev)) ->
     parse_list_parameter (dict_get_default b "subscriptions" (PList [])) = Ok subs ->
     raw_test_flag b (py_or (dict_get ev "queryStringParameters") (PDict [])) = Ok raw ->
     validate_inputs (dict_get b "org_id") (PList subs) (dict_get b "region")
                     (dict_get b "case_id") = [] ->
     get_database_config (update_environ items (environ p1)) (dict_get b "region") =
       Raise (Exn ValueError msg) ->
     lambda_handler ssm faults (PDict ev) p =
     ({| statusCode := 500; body := message_body msg |},
      set_environ (update_environ items (environ p1)) p1)).
Proof.
  cbn zeta. split; [|split].
  - unfold get_database_config. intros [-> | ->]; done.
  - intros cfg databases Hcfg Hne Hload. unfold get_database_config.
    rewrite Hcfg, Hload.
    assert (Hnb : String.eqb cfg "" = false) by by apply String.eqb_neq.
    rewrite Hnb. split.
    + by intros ->.
    + intros region_config ->.
      change [("dbname", dict_get region_config "sm_db_name");
              ("user", dict_get region_config "sm_db_user");
              ("password", dict_get region_config "sm_db_password");
              ("host", dict_get region_config "sm_db_host");
              ("port", dict_get_default region_config "sm_db_port" (PInt 5432))]
        with (credentials region_config
                ++ [("port", dict_get_default region_config "sm_db_port" (PInt 5432))]).
      rewrite missing_params_credentials.
      split.
      * intros Hm. by destruct (missing_credentials region_config).
      * intros Hm. rewrite Hm. split; [done|]. split.
        -- unfold missing_credentials in Hm. apply Forall_forall. intros kv Hin.
           destruct (truthy (snd kv)) eqn:Ht; [done|]. exfalso.
           assert (Hf : In kv (List.filter (fun kv => negb (truthy (snd kv)))
                                           (credentials region_config))).
           { apply filter_In. split; [by apply list_elem_of_In | by rewrite Ht]. }
           destruct (List.filter _ _); [done | discriminate Hm].
        -- unfold dict_get_default. by intros ->.
  - intros ev b p p1 items subs raw msg He Hp Hb Hl Hr Hv Hcfg.
    rewrite lambda_handler_finish.
    rewrite (handler_reaches_request ssm faults ev b p p1 items subs raw He Hp Hb Hl Hr Hv).
    unfold handle_request. cbn [environ set_environ]. by rewrite Hcfg.
Qed.

End Configuration.

Section TestFlag.
Context `{PyRuntime}.
Variable ssm : nat -> outcome string.
Variable faults : step -> option exn.

(** C7.  The raw test flag is the body field [test] when that value is
    truthy, whatever the query string holds; otherwise the query-string
    field [test_mode] when that one is truthy; otherwise [False], in
    particular when both are absent.  The handler normalizes the chosen
    value with [parse_bool_parameter] and processes the request with the
    result. *)
Theorem test_flag_source (b q : list (string * pyval)) :
  let body_test := dict_get b "test" in
  let query_test := dict_get q "test_mode" in
  raw_test_flag b (PDict q) = Ok (chosen_test_flag body_test query_test) /\
  (truthy body_test = true -> forall query_params, raw_test_flag b query_params = Ok body_test) /\
  (truthy body_test = false -> truthy query_test = true ->
   chosen_test_flag body_test query_test = query_test) /\
  (truthy body_test = false -> truthy query_test = false ->
   parse_bool_parameter (chosen_test_flag body_test query_test) = false) /\
  (dict_lookup b "test" = None -> dict_lookup q "test_mode" = None ->
   parse_bool_parameter (chosen_test_flag body_test query_test) = false) /\
  (forall ev p p1 items subs,
     ensure_parameters ssm p = (Ok tt, p1) ->
     PARAMETERS p1 = PDict items ->
     (dict_get ev "body" = PDict b \/ (dict_get ev "body" = PNone /\ b = ev)) ->
     py_or (dict_get ev "queryStringParameters") (PDict []) = PDict q ->
     parse_list_parameter (dict_get_default b "subscriptions" (PList [])) = Ok subs ->
     validate_inputs (dict_get b "org_id") (PList subs) (dict_get b "region")
                     (dict_get b "case_id") = [] ->
     lambda_handler ssm faults (PDict ev) p =
     finish (handle_request faults (dict_get b "org_id") subs (dict_get b "region")
               (dict_get b "case_id")
               (parse_bool_parameter (chosen_test_flag body_test query_test))
               (set_environ (update_environ items (environ p1)) p1))).
Proof.
  cbn zeta.
  assert (Hraw : raw_test_flag b (PDict q) =
                 Ok (chosen_test_flag (dict_get b "test") (dict_get q "test_mode"))).
  { unfold raw_test_flag, chosen_test_flag, py_or.
    destruct (truthy (dict_get b "test")); [done|].
    by destruct (truthy (dict_get q "test_mode")). }
  split; [exact Hraw|]. split; [|split; [|split; [|split]]].
  - intros Ht qp. unfold raw_test_flag. by rewrite Ht.
  - intros Hb Hq. unfold chosen_test_flag. by rewrite Hb, Hq.
  - intros Hb Hq. unfold chosen_test_flag. by rewrite Hb, Hq.
  - intros Hb Hq. unfold chosen_test_flag, dict_get, dict_get_default. by rewrite Hb, Hq.
  - intros ev p p1 items subs He Hp Hb Hq Hl Hv.
    rewrite lambda_handler_finish. f_equal.
    apply (handler_reaches_request ssm faults ev b p p1 items subs); try done.
    by rewrite Hq.
Qed.

End TestFlag.

Section Memoization.
Context `{PyRuntime}.
Variable ssm : nat -> outcome string.
Variable faults : step -> option exn.

Lemma update_environ_lookup items : forall env,
  NoDup (dict_keys items) ->
  (forall k v, (k, v) ∈ items -> update_environ items env !! k = Some (environ_value v)) /\
  (forall k, k ∉ dict_keys items -> update_environ items env !! k = env !! k).
Proof.
  unfold update_environ, dict_keys.
  induction items as [|[k0 v0] items IH]; intros env Hnd; cbn [fold_left map fst snd].
  - split; [by intros k v ?%elem_of_nil | done].
  - apply NoDup_cons in Hnd as [Hk0 Hnd].
    destruct (IH (<[k0 := environ_value v0]> env) Hnd) as [IH1 IH2].
    split.
    + intros k v [Heq | Hin]%elem_of_cons.
      * injection Heq as -> ->. rewrite IH2 by done. apply lookup_insert_eq.
      * by apply IH1.
    + intros k Hk. apply not_elem_of_cons in Hk as [Hne Hk].
      rewrite IH2 by done. by apply lookup_insert_ne.
Qed.

Lemma handler_try_frame event p :
  match ensure_parameters ssm p with
  | (Ok _, p1) =>
      match PARAMETERS p1 with
      | PDict items =>
          same_configuration (set_environ (update_environ items (environ p1)) p1)
                             (snd (handler_try ssm faults event p))
      | _ => snd (handler_try ssm faults event p) = p1
      end
  | (Raise e, p1) => snd (handler_try ssm faults event p) = p1
  end.
Proof.
  destruct (ensure_parameters ssm p) as [[[]|e] p1] eqn:He.
  - destruct (PARAMETERS p1) eqn:Hp;
      try (unfold handler_try; by rewrite He, Hp).
    by apply handler_try_configuration.
  - unfold handler_try. by rewrite He.
Qed.

(** C10, as amended.  On every invocation, whatever the event, the handler
    first makes sure [PARAMETERS] is set and, when it holds a dict whose
    entries the environment accepts, copies each of them into the
    environment before it looks at the request: a dict value JSON-encoded,
    any other value as [str] renders it, entries of other names untouched;
    a request that is then rejected has changed the environment all the
    same.  An invocation that finds
    [PARAMETERS] truthy does not call the parameter store and leaves
    [PARAMETERS] as it is; an invocation that finds it [None] or empty
    calls the store once. *)
Theorem configuration_copied_and_memoized event p :
  match ensure_parameters ssm p, lambda_handler ssm faults event p with
  | (loaded, p1), (_, p') =>
      (forall items,
         loaded = Ok tt -> PARAMETERS p1 = PDict items ->
         legal_environment items = true ->
         PARAMETERS p' = PDict items /\
         environ p' = update_environ items (environ p) /\
         (NoDup (dict_keys items) ->
          (forall k v, (k, v) ∈ items ->
             environ p' !! k = Some (match v with
                                      | PDict _ => json_dumps v
                                      | _ => py_str v
                                      end)) /\
          (forall k, k ∉ dict_keys items -> environ p' !! k = environ p !! k))) /\
      (truthy (PARAMETERS p) = true ->
       ssm_calls p' = ssm_calls p /\ PARAMETERS p' = PARAMETERS p) /\
      (truthy (PARAMETERS p) = false -> ssm_calls p' = S (ssm_calls p))
  end.
Proof.
  pose proof (handler_try_frame event p) as Hf.
  pose proof (ensure_parameters_frame ssm p) as He.
  rewrite lambda_handler_finish.
  destruct (ensure_parameters ssm p) as [loaded p1].
  destruct He as (Henv & _ & _ & Htrue & Hfalse).
  assert (Hsnd : forall r, snd (finish r) = snd r) by (by intros [[?|?] ?]).
  destruct (finish (handler_try ssm faults event p)) as [resp p'] eqn:Hfin.
  assert (Hp' : p' = snd (handler_try ssm faults event p)).
  { rewrite <- Hsnd, Hfin. done. }
  assert (Hcfg : PARAMETERS p' = PARAMETERS p1 /\ ssm_calls p' = ssm_calls p1 /\
                 forall items, loaded = Ok tt -> PARAMETERS p1 = PDict items ->
                               environ p' = update_environ items (environ p)).
  { rewrite Hp'. destruct loaded as [[]|e].
    - destruct (PARAMETERS p1) eqn:Hp1;
        try (rewrite Hf; repeat split; try done; by intros ? _ ?).
      destruct Hf as (Hpar & Hen & Hcalls). cbn in Hpar, Hen, Hcalls.
      repeat split; [congruence | done |].
      intros items _ Hi. injection Hi as ->. by rewrite Hen, Henv.
    - rewrite Hf. repeat split; done. }
  destruct Hcfg as (Hpar & Hcalls & Hcopy).
  split; [|split].
  - intros items Hl Hi _. split; [congruence|]. split; [by apply Hcopy|].
    intros Hnd. rewrite (Hcopy items Hl Hi).
    apply (update_environ_lookup items (environ p) Hnd).
  - intros Ht. destruct (Htrue Ht) as [_ ->]. done.
  - intros Ht. rewrite Hcalls. by apply Hfalse.
Qed.

End Memoization.

Section ListNormalizer.
Context `{PyRuntime}.

(** C6, as amended.  [None] gives the empty list, a list is returned as it
    is, any value that is neither a string nor a list is wrapped in a list.
    A string is first stripped of surrounding whitespace; when nothing is
    left the result is the empty list; otherwise the result is the list
    that [json.loads] returns, else the list that [ast.literal_eval]
    returns, else the stripped string as the only element, provided that a
    parser that raises does so with an exception the function catches
    ([JSONDecodeError] for the first, [ValueError] or [SyntaxError] for the
    second). *)
Theorem parse_list_parameter_cases value :
  match value with
  | PNone => parse_list_parameter value = Ok []
  | PList l => parse_list_parameter value = Ok l
  | PStr s =>
      let stripped := strip s in
      (stripped = "" -> parse_list_parameter value = Ok []) /\
      (stripped <> "" ->
       (forall e, json_loads stripped = Raise e -> isinstance_exn e [JSONDecodeError] = true) ->
       (forall e, literal_eval stripped = Raise e ->
                  isinstance_exn e [ValueError; SyntaxError] = true) ->
       parse_list_parameter value = Ok (parsed_or_single stripped))
  | _ => parse_list_parameter value = Ok [value]
  end.
Proof.
  destruct value as [| | | |s| | |]; try reflexivity.
  cbn zeta. split.
  - intros Hs. unfold parse_list_parameter. by rewrite Hs.
  - intros Hs Hj Hl. unfold parse_list_parameter.
    assert (Hnb : String.eqb (strip s) "" = false) by by apply String.eqb_neq.
    rewrite Hnb. unfold parse_list_string, parsed_or_single.
    assert (Hlit : match literal_eval (strip s) with
                   | Ok (PList parsed) => Ok parsed
                   | Ok _ => Ok [PStr (strip s)]
                   | Raise e =>
                       if isinstance_exn e [ValueError; SyntaxError]
                       then Ok [PStr (strip s)] else Raise e
                   end
                   = Ok match literal_eval (strip s) with
                        | Ok (PList parsed) => parsed
                        | _ => [PStr (strip s)]
                        end).
    { destruct (literal_eval (strip s)) as [v|e] eqn:He; [by destruct v|].
      by rewrite (Hl e eq_refl). }
    destruct (json_loads (strip s)) as [v|e] eqn:He.
    + destruct v; done.
    + by rewrite (Hj e eq_refl).
Qed.

End ListNormalizer.

(** ** Concrete runs

    The theorems above at the concrete tenant and deployment, under the
    reference runtime. *)

Section Concrete.
#[local] Existing Instance Reference.runtime.

(** C1.  The org id is not checked before it is spliced into the text of
    the SELECT.  For the org id [injected_org_id] the schema name is no
    identifier; the text that the test-mode run hands to [cur.execute]
    starts with the SELECT of the program, closed by a semicolon, and goes
    on with an UPDATE of the schema of another tenant, a COMMIT and a
    SELECT of the org id's own; and the run does execute it. *)
Theorem test_mode_executes_spliced_statements :
  let schema_name := schema_of injected_org_id in
  let query := select_query schema_name (like_conditions_text (patterns_of [PStr "sub1"])) in
  sql_identifier schema_name = false /\
  String.prefix (newline +:+ "            SELECT id, basket_id, status" +:+ newline
                 +:+ "            FROM org_00d1.macd_request; ") query = true /\
  occurs "; update org_00d2.order_request set status = $$x$$; commit; select 1, 2, 3 where "
         query = true /\
  Step ExecuteSelect
    ∈ calls (snd (process_macd_cancellation no_faults [] (PStr injected_org_id)
                    [PStr "sub1"] true scenario_world)).
Proof.
  cbn zeta. split; [vm_compute; reflexivity|]. split; [vm_compute; reflexivity|].
  split; [vm_compute; reflexivity|].
  apply (bool_decide_unpack _). vm_compute. exact I.
Qed.

(** The scenario run in test mode: the counters are those of a real run,
    nothing is committed. *)
Lemma test_mode_persists_nothing_witness :
  exists result w',
    process_macd_cancellation no_faults [] (PStr "00D1") [PStr "sub1"] true scenario_world
      = (Ok result, w') /\
    stored w' = scenario_db /\ committed result = false /\
    order_requests_updated result = 1%nat /\ macd_requests_updated result = 1%nat.
Proof.
  assert (Hsafe : safe_org_id (PStr "00D1")) by (by intros o [= <-]).
  pose proof (test_mode_persists_nothing no_faults [] (PStr "00D1") [PStr "sub1"]
                scenario_world Hsafe) as Hthm.
  destruct (process_macd_cancellation no_faults [] (PStr "00D1") [PStr "sub1"] true
              scenario_world) as [[r|e] w'] eqn:Hrun.
  - destruct Hthm as (Hst & _ & Hco & o & t & Ho & Ht & Hou & Hmu & _).
    injection Ho as <-. vm_compute in Ht. injection Ht as <-.
    exists r, w'. repeat split; [exact Hst | exact Hco | |].
    + rewrite Hou. vm_compute. reflexivity.
    + rewrite Hmu. vm_compute. reflexivity.
  - vm_compute in Hrun. discriminate Hrun.
Defined.

(** The scenario: two rows fetched, one of them [posted]. *)
Lemma partition_counts_witness :
  exists result w',
    process_macd_cancellation no_faults [] (PStr "00D1") [PStr "sub1"] true scenario_world
      = (Ok result, w') /\
    total_found result = 2%nat /\ eligible_count result = 1%nat /\
    skipped_wrong_status result = 1%nat /\
    skipped_records result =
      [{| r_id := VInt 11; r_basket_id := VText "b2"; r_status := VText "declined" |}].
Proof.
  pose proof (partition_counts no_faults [] (PStr "00D1") [PStr "sub1"] true
                scenario_world) as Hthm.
  destruct (process_macd_cancellation no_faults [] (PStr "00D1") [PStr "sub1"] true
              scenario_world) as [[r|e] w'] eqn:Hrun.
  - destruct Hthm as (o & t & Ho & Ht & Htot & Hel & Hsk & _ & Hsr).
    injection Ho as <-. vm_compute in Ht. injection Ht as <-.
    exists r, w'. split; [reflexivity|].
    rewrite Htot, Hel, Hsk, Hsr. vm_compute. repeat split.
  - vm_compute in Hrun. discriminate Hrun.
Defined.

(** The scenario of the specification, run in full. *)
Example scenario_test_run :
  process_macd_cancellation no_faults [] (PStr "00D1") [PStr "sub1"] true scenario_world =
  (Ok {| total_found := 2; eligible_count := 1; skipped_wrong_status := 1;
         order_requests_updated := 1; macd_requests_updated := 1; committed := false;
         macd_records :=
           [{| r_id := VInt 10; r_basket_id := VText "b1"; r_status := VText "posted" |}];
         skipped_records :=
           [{| r_id := VInt 11; r_basket_id := VText "b2"; r_status := VText "declined" |}];
         updated_basket_ids := [VText "b1"];
         updated_macd_ids := [VInt 10] |},
   {| stored := scenario_db; session := None;
      calls := [Step Connect; Step Cursor; Step ExecuteSelect; Step Fetchall;
                Step ExecuteUpdateOrder; Step ExecuteUpdateMacd; Step Rollback;
                CursorClose; ConnClose] |}).
Proof. vm_compute. reflexivity. Qed.

(** The scenario committed: one order request and one MACD request of the
    tenant change, the other tenant of the database does not. *)
Example scenario_commit_run :
  let w' := snd (process_macd_cancellation no_faults [] (PStr "00D1") [PStr "sub1"] false
                   scenario_world) in
  stored w' !! "org_00d1" = Some final_scenario_tenant /\
  stored w' !! "org_00d2" = Some other_tenant /\
  calls w' = [Step Connect; Step Cursor; Step ExecuteSelect; Step Fetchall;
              Step ExecuteUpdateOrder; Step ExecuteUpdateMacd; Step Commit;
              CursorClose; ConnClose].
Proof. vm_compute. repeat split. Qed.

(** C2 as the specification states it fails on a tenant whose eligible
    row carries the empty string as basket id: the id is not NULL, the run
    commits, and the order request with that basket id keeps its status. *)
Lemma empty_basket_id_left_alone :
  exists result w',
    process_macd_cancellation no_faults [] (PStr "00d1")
      [PStr "sub1"] false empty_basket_world = (Ok result, w') /\
    committed result = true /\
    stored w' !! "org_00d1" = Some final_empty_basket_tenant /\
    ~ Forall2 (changed_exactly
                 (claimed_basket (select_macd empty_basket_tenant ["sub1%"]))
                 order_basket_id set_to_error)
              (order_request empty_basket_tenant)
              (order_request final_empty_basket_tenant).
Proof.
  eexists _, _. split; [vm_compute; reflexivity|].
  split; [reflexivity|]. split; [vm_compute; reflexivity|].
  intros HF. apply Forall2_cons_1 in HF as [[[_ [Hnew _]] | [Hno _]] _].
  - discriminate Hnew.
  - apply Hno. split; [done|].
    exists {| r_id := VInt 10; r_basket_id := VText ""; r_status := VText "posted" |}.
    split; [vm_compute; apply list_elem_of_here | split; reflexivity].
Qed.

(** The scenario run for real: the hypotheses of the committed update hold
    there, and its conclusion fixes the tenant after the run: the order
    request of basket [b1] has status [Error], the MACD request 10 has
    status [posted1], and nothing else has changed. *)
Lemma commit_updates_exactly_witness :
  (sql_identifier (schema_of "00D1") = true /\
   (forall s, no_faults s = None) /\
   stored scenario_world !! schema_of "00D1" = Some scenario_tenant /\
   (exists row, row ∈ select_macd scenario_tenant
                        (patterns_of [PStr "sub1"]) /\
                r_status row = VText "posted")) /\
  exists result w',
    process_macd_cancellation no_faults [] (PStr "00D1")
      [PStr "sub1"] false scenario_world = (Ok result, w') /\
    committed result = true /\
    stored w' !! "org_00d1" = Some final_scenario_tenant /\
    stored w' !! "org_00d2" = Some other_tenant.
Proof.
  assert (H0 : sql_identifier (schema_of "00D1") = true) by reflexivity.
  assert (H1 : forall s, no_faults s = None) by reflexivity.
  assert (H2 : stored scenario_world !! schema_of "00D1" = Some scenario_tenant)
    by (vm_compute; reflexivity).
  assert (H3 : exists row, row ∈ select_macd scenario_tenant
                        (patterns_of [PStr "sub1"]) /\
                r_status row = VText "posted").
  { exists {| r_id := VInt 10; r_basket_id := VText "b1"; r_status := VText "posted" |}.
    split; [vm_compute; apply list_elem_of_here | reflexivity]. }
  split; [by repeat split|].
  destruct (commit_updates_exactly no_faults [] "00D1" [PStr "sub1"] scenario_world
              scenario_tenant H0 H1 H2 H3)
    as (result & w' & t' & Hrun & Hco & Ht' & Hother & Hsub & Horder & Hmacd).
  exists result, w'. split; [exact Hrun|]. split; [exact Hco|].
  split; [|rewrite Hother; [vm_compute; reflexivity | vm_compute; discriminate]].
  change (schema_of "00D1") with "org_00d1" in Ht'. rewrite Ht'. f_equal.
  change (select_macd scenario_tenant (patterns_of [PStr "sub1"]))
    with [ {| r_id := VInt 10; r_basket_id := VText "b1"; r_status := VText "posted" |};
           {| r_id := VInt 11; r_basket_id := VText "b2"; r_status := VText "declined" |} ]
    in Horder, Hmacd.
  set (rows := [ {| r_id := VInt 10; r_basket_id := VText "b1"; r_status := VText "posted" |};
                 {| r_id := VInt 11; r_basket_id := VText "b2";
                    r_status := VText "declined" |} ]) in *.
  assert (Hb1 : eligible_basket rows (VText "b1")).
  { split; [reflexivity|]. eexists. split; [apply list_elem_of_here | by split]. }
  assert (Hb2 : ~ eligible_basket rows (VText "b2")).
  { intros (_ & row & Hin & Hp & Hb). subst rows.
    apply elem_of_cons in Hin as [-> | Hin]; [discriminate Hb|].
    apply list_elem_of_singleton in Hin as ->. discriminate Hp. }
  assert (Hi10 : eligible_id rows (VInt 10)).
  { split; [reflexivity|]. eexists. split; [apply list_elem_of_here | by split]. }
  assert (Hi : forall z, z <> 10 -> ~ eligible_id rows (VInt z)).
  { intros z Hz (_ & row & Hin & Hp & Hid). subst rows.
    apply elem_of_cons in Hin as [-> | Hin]; [injection Hid as <-; done|].
    apply list_elem_of_singleton in Hin as ->. discriminate Hp. }
  destruct t' as [subs' macds' orders']. cbn [subscription macd_request order_request] in *.
  subst subs'. unfold final_scenario_tenant, scenario_tenant. cbn [subscription]. f_equal.
  - (* the MACD requests *)
    cbn [macd_request] in Hmacd.
    apply Forall2_cons_inv_l in Hmacd as (m1 & l1 & Hm1 & Hmacd & ->).
    apply Forall2_cons_inv_l in Hmacd as (m2 & l2 & Hm2 & Hmacd & ->).
    apply Forall2_cons_inv_l in Hmacd as (m3 & l3 & Hm3 & Hmacd & ->).
    apply Forall2_nil_inv_l in Hmacd as ->.
    destruct Hm1 as [[_ Hm1] | [Hno _]]; [|by destruct Hno].
    destruct Hm2 as [[Hyes _] | [_ ->]]; [by destruct (Hi 11 ltac:(lia))|].
    destruct Hm3 as [[Hyes _] | [_ ->]]; [by destruct (Hi 12 ltac:(lia))|].
    destruct m1 as [i su b st]. destruct Hm1 as (Hst & Hid & Hsu & Hb). cbn in *.
    by subst.
  - (* the order requests *)
    cbn [order_request] in Horder.
    apply Forall2_cons_inv_l in Horder as (o1 & l1 & Ho1 & Horder & ->).
    apply Forall2_cons_inv_l in Horder as (o2 & l2 & Ho2 & Horder & ->).
    apply Forall2_nil_inv_l in Horder as ->.
    destruct Ho1 as [[_ Ho1] | [Hno _]]; [|by destruct Hno].
    destruct Ho2 as [[Hyes _] | [_ ->]]; [by destruct Hb2|].
    destruct o1 as [i b st]. destruct Ho1 as (Hst & Hid & Hb). cbn in *.
    by subst.
Defined.


(** C3 as the specification states it fails when the connection is lost:
    the SELECT raises, the rollback of the [except] clause raises in turn,
    and the caller receives the second exception, not the first. *)
Lemma failed_rollback_replaces_exception :
  fst (try_block connection_lost (PStr "00D1") [PStr "sub1"] false (opened scenario_world))
    = Raise server_gone /\
  process_macd_cancellation connection_lost [] (PStr "00D1") [PStr "sub1"] false
    scenario_world
  = (Raise connection_closed,
     {| stored := scenario_db; session := None;
        calls := [Step Connect; Step Cursor; Step ExecuteSelect;
                  Step ExceptRollback; ConnClose] |}) /\
  connection_closed <> server_gone.
Proof. split; [|split]; [vm_compute; reflexivity | vm_compute; reflexivity | discriminate]. Qed.

(** The server fails the second UPDATE after the first one ran: the
    exception reaches the caller, the first update is rolled back, the
    connection is closed. *)
Lemma exception_rolls_back_and_releases_witness :
  (fail_update_macd Connect = None /\ fail_update_macd ExceptRollback = None /\
   safe_org_id (PStr "00D1")) /\
  process_macd_cancellation fail_update_macd [] (PStr "00D1") [PStr "sub1"] false
    scenario_world
  = (Raise server_gone,
     {| stored := scenario_db; session := None;
        calls := [Step Connect; Step Cursor; Step ExecuteSelect; Step Fetchall;
                  Step ExecuteUpdateOrder; Step ExecuteUpdateMacd;
                  Step ExceptRollback; ConnClose] |}).
Proof.
  split; [split; [reflexivity | split; [reflexivity | by intros o [= <-]]]|].
  pose proof (exception_rolls_back_and_releases fail_update_macd [] (PStr "00D1")
                [PStr "sub1"] false scenario_world eq_refl) as Hthm.
  destruct (try_block fail_update_macd (PStr "00D1") [PStr "sub1"] false
              (opened scenario_world)) as [body w2] eqn:Hbody.
  destruct (process_macd_cancellation fail_update_macd [] (PStr "00D1") [PStr "sub1"] false
              scenario_world) as [out w'] eqn:Hrun.
  vm_compute in Hbody. injection Hbody as <- <-.
  destruct Hthm as (Hs & Hcalls & Hst & Hout & _).
  rewrite (Hout eq_refl).
  assert (Hsafe : safe_org_id (PStr "00D1")) by (by intros o [= <-]).
  specialize (Hst Hsafe).
  destruct w' as [st se ca]. cbn in Hs, Hcalls, Hst. by subst.
Defined.

(** C9.  The org id is not checked before it is spliced into the text of
    the SELECT, so that the subscription ids need not stay operands of the
    LIKE disjunction.  For the org id [comment_org_id] the schema name is no
    identifier and ends in the opening of a comment; every placeholder of
    the text lies behind it, one for the list that holds
    [comment_closing_id] once and two for the list that holds it twice; and
    both runs do execute their text. *)
Theorem duplicate_id_executes_spliced_statement :
  let schema_name := schema_of comment_org_id in
  let once := [PStr comment_closing_id] in
  let twice := once ++ [PStr comment_closing_id] in
  PStr comment_closing_id ∈ once /\
  sql_identifier schema_name = false /\
  select_query schema_name (like_conditions_text (patterns_of once)) =
    join newline
      [ "";
        "            SELECT id, basket_id, status";
        "            FROM org_x.macd_request /*.macd_request";
        "            WHERE subscription_id IN (";
        "                SELECT id ";
        "                FROM org_x.macd_request /*.subscription ";
        "                WHERE sfdc_id LIKE %s";
        "            )";
        "        " ] /\
  select_query schema_name (like_conditions_text (patterns_of twice)) =
    join newline
      [ "";
        "            SELECT id, basket_id, status";
        "            FROM org_x.macd_request /*.macd_request";
        "            WHERE subscription_id IN (";
        "                SELECT id ";
        "                FROM org_x.macd_request /*.subscription ";
        "                WHERE sfdc_id LIKE %s OR sfdc_id LIKE %s";
        "            )";
        "        " ] /\
  patterns_of twice = [comment_closing_id +:+ "%"; comment_closing_id +:+ "%"] /\
  (forall subscriptions, subscriptions = once \/ subscriptions = twice ->
     Step ExecuteSelect
       ∈ calls (snd (process_macd_cancellation no_faults [] (PStr comment_org_id)
                       subscriptions false scenario_world))).
Proof.
  cbn zeta. split; [apply list_elem_of_here|].
  split; [vm_compute; reflexivity|]. split; [vm_compute; reflexivity|].
  split; [vm_compute; reflexivity|]. split; [vm_compute; reflexivity|].
  intros subscriptions [-> | ->]; apply (bool_decide_unpack _); vm_compute; exact I.
Qed.

(** A subscription list with its first id repeated. *)
Lemma duplicate_subscription_invariant_witness :
  (safe_org_id (PStr "00D1") /\ PStr "sub1" ∈ [PStr "sub1"; PStr "sub2"]) /\
  process_macd_cancellation no_faults [] (PStr "00D1")
    ([PStr "sub1"; PStr "sub2"] ++ [PStr "sub1"]) false scenario_world =
  process_macd_cancellation no_faults [] (PStr "00D1")
    [PStr "sub1"; PStr "sub2"] false scenario_world.
Proof.
  assert (Hsafe : safe_org_id (PStr "00D1")) by (by intros o [= <-]).
  assert (Hin : PStr "sub1" ∈ [PStr "sub1"; PStr "sub2"]) by apply list_elem_of_here.
  split; [by split|].
  exact (duplicate_subscription_invariant no_faults [] (PStr "00D1")
           [PStr "sub1"; PStr "sub2"] (PStr "sub1") false scenario_world Hsafe Hin).
Defined.

(** An internal note against an endpoint that always answers 429; a GET
    that meets a 429 and then a refused connection; a POST that meets
    HTTP 500. *)
Lemma retry_policy_witness :
  ((forall n, (n < 3)%nat -> Kayako.rate_limited (always_429 n)) /\
   fails_at_once Kayako.GET (busy_then_refused 1) /\
   fails_at_once Kayako.POST (always_500 0)) /\
  Kayako.put kayako_agent "tickets/update_many" true always_429 =
  (Ok PNone,
   [Kayako.HttpRequest Kayako.PUT (Kayako.shim_url kayako_agent +:+ "tickets/update_many");
    Kayako.Sleep 15;
    Kayako.HttpRequest Kayako.PUT (Kayako.shim_url kayako_agent +:+ "tickets/update_many");
    Kayako.Sleep 15;
    Kayako.HttpRequest Kayako.PUT (Kayako.shim_url kayako_agent +:+ "tickets/update_many");
    Kayako.Sleep 15]) /\
  Kayako.get kayako_agent "cases/7/tags.json" false busy_then_refused =
  (Ok PNone,
   [Kayako.HttpRequest Kayako.GET (Kayako.base_url kayako_agent +:+ "cases/7/tags.json");
    Kayako.Sleep 15;
    Kayako.HttpRequest Kayako.GET (Kayako.base_url kayako_agent +:+ "cases/7/tags.json")]) /\
  Kayako.post kayako_agent "cases/7/tags.json" false always_500 =
  (Ok PNone,
   [Kayako.HttpRequest Kayako.POST (Kayako.base_url kayako_agent +:+ "cases/7/tags.json")]).
Proof.
  assert (Hall : forall n, (n < 3)%nat -> Kayako.rate_limited (always_429 n))
    by (intros n _; by exists (Ok PNone)).
  assert (Hrefused : fails_at_once Kayako.GET (busy_then_refused 1)).
  { right. exists connection_refused. split; [reflexivity | by left]. }
  assert (Hfailed : fails_at_once Kayako.POST (always_500 0)).
  { left. exists 500, (Ok PNone). split; [reflexivity|]. split; [cbn; lia | lia]. }
  split; [by repeat split|].
  pose proof (retry_policy kayako_agent Kayako.PUT "tickets/update_many" true always_429)
    as Hput.
  pose proof (retry_policy kayako_agent Kayako.GET "cases/7/tags.json" false busy_then_refused)
    as Hget.
  pose proof (retry_policy kayako_agent Kayako.POST "cases/7/tags.json" false always_500)
    as Hpost.
  cbn zeta in Hput, Hget, Hpost. unfold Kayako.put, Kayako.get, Kayako.post.
  destruct (Kayako.request kayako_agent Kayako.PUT "tickets/update_many" true always_429)
    as [res1 trace1].
  destruct (Kayako.request kayako_agent Kayako.GET "cases/7/tags.json" false busy_then_refused)
    as [res2 trace2].
  destruct (Kayako.request kayako_agent Kayako.POST "cases/7/tags.json" false always_500)
    as [res3 trace3].
  destruct Hput as (_ & Hput & _). destruct (Hput Hall) as [-> ->].
  destruct Hget as (_ & _ & Hget).
  destruct (Hget 1%nat ltac:(lia)) as [-> ->]; [|exact Hrefused|].
  { intros j Hj. assert (j = 0%nat) as -> by lia. by exists (Ok PNone). }
  destruct Hpost as (_ & _ & Hpost).
  destruct (Hpost 0%nat ltac:(lia)) as [-> ->]; [|exact Hfailed|].
  { intros j Hj. lia. }
  repeat split.
Defined.

(** C6 as the specification states it fails on the empty string: both
    parsers reject it, yet the result is the empty list and not the string
    as the only element. *)
Lemma empty_string_is_not_wrapped :
  parse_list_parameter (PStr "") = Ok [] /\
  claimed_normalize_list (PStr "") = [PStr ""] /\
  parse_list_parameter (PStr "") <> Ok (claimed_normalize_list (PStr "")).
Proof. repeat split. discriminate. Qed.

(** A list in single quotes with blanks around it: the JSON parse fails,
    the literal parse gives the list. *)
Lemma parse_list_parameter_cases_witness :
  strip quoted_list <> "" /\
  parse_list_parameter (PStr quoted_list) = Ok [PStr "a"; PStr "b"].
Proof.
  assert (Hne : strip quoted_list <> "") by (vm_compute; discriminate).
  split; [exact Hne|].
  pose proof (parse_list_parameter_cases (PStr quoted_list)) as [_ Hthm].
  rewrite Hthm.
  - vm_compute. reflexivity.
  - exact Hne.
  - intros e He. vm_compute in He. injection He as <-. reflexivity.
  - intros e He. vm_compute in He. discriminate He.
Defined.

(** A dict literal with a list as a key: [json.loads] rejects it,
    [ast.literal_eval] raises [TypeError], which [parse_list_parameter] does
    not catch. *)
Example unhashable_key_escapes :
  parse_list_parameter (PStr unhashable_key) =
  Raise (Exn TypeError ("unhashable type: " +:+ String squote "list" +:+ String squote "")).
Proof. vm_compute. reflexivity. Qed.


(** Region [xx] against a deployment that configures [EU] and [US]. *)
Lemma database_config_resolution_witness :
  get_database_config (environ (configured fresh_process)) (PStr "xx") =
    Raise (Exn ValueError
             ("Unsupported database region: XX. Supported regions: ["
              +:+ String squote "EU" +:+ String squote ", "
              +:+ String squote "US" +:+ String squote "]")) /\
  lambda_handler scenario_ssm no_faults (request_event "xx" []) fresh_process =
  ({| statusCode := 500;
      body := message_body
                ("Unsupported database region: XX. Supported regions: ["
                 +:+ String squote "EU" +:+ String squote ", "
                 +:+ String squote "US" +:+ String squote "]") |},
   configured fresh_process).
Proof.
  assert (Hcfg : get_database_config (environ (configured fresh_process)) (PStr "xx") =
    Raise (Exn ValueError
             ("Unsupported database region: XX. Supported regions: ["
              +:+ String squote "EU" +:+ String squote ", "
              +:+ String squote "US" +:+ String squote "]")))
    by (vm_compute; reflexivity).
  split; [exact Hcfg|].
  destruct (database_config_resolution scenario_ssm no_faults ∅ "xx") as (_ & _ & Hh).
  apply (Hh (request_fields "xx" []) (request_fields "xx" []) fresh_process
            (set_PARAMETERS deployment (count_ssm_call fresh_process))
            deployment_items [PStr "sub1"] (PBool false)).
  - vm_compute. reflexivity.
  - reflexivity.
  - right. split; reflexivity.
  - reflexivity.
  - reflexivity.
  - reflexivity.
  - exact Hcfg.
Defined.

(** The test flag taken from the query string: the request is processed
    in test mode and commits nothing. *)
Lemma test_flag_source_witness :
  lambda_handler scenario_ssm no_faults (PDict query_event) fresh_process =
  finish (handle_request no_faults (PStr "00D1") [PStr "sub1"] (PStr "eu") (PStr "999") true
            (configured fresh_process)) /\
  statusCode (fst (lambda_handler scenario_ssm no_faults (PDict query_event) fresh_process))
    = 200 /\
  stored (db (snd (lambda_handler scenario_ssm no_faults (PDict query_event) fresh_process)))
    = scenario_db.
Proof.
  destruct (test_flag_source scenario_ssm no_faults query_event
              [("test_mode", PStr "TRUE")]) as (_ & _ & _ & _ & _ & Hh).
  cbn zeta in Hh.
  rewrite (Hh query_event fresh_process
              (set_PARAMETERS deployment (count_ssm_call fresh_process))
              deployment_items [PStr "sub1"]).
  - split; [reflexivity|]. split; vm_compute; reflexivity.
  - vm_compute. reflexivity.
  - reflexivity.
  - right. split; reflexivity.
  - reflexivity.
  - reflexivity.
  - reflexivity.
Defined.

(** A body that is not JSON is answered with 400 after the configuration
    was fetched and copied; the next invocation does not fetch. *)
Lemma configuration_copied_and_memoized_witness :
  legal_environment deployment_items = true /\
  statusCode (fst (lambda_handler scenario_ssm no_faults malformed_event fresh_process)) = 400 /\
  environ (snd (lambda_handler scenario_ssm no_faults malformed_event fresh_process))
    !! "retries" = Some "3" /\
  environ (snd (lambda_handler scenario_ssm no_faults malformed_event fresh_process))
    !! "databases" = Some (json_dumps (PDict [("EU", eu_config); ("US", us_config)])) /\
  ssm_calls (snd (lambda_handler scenario_ssm no_faults malformed_event fresh_process)) = 1%nat /\
  ssm_calls (snd (lambda_handler scenario_ssm no_faults malformed_event
                    (configured fresh_process))) = 1%nat.
Proof.
  pose proof (configuration_copied_and_memoized scenario_ssm no_faults malformed_event
                fresh_process) as H1.
  pose proof (configuration_copied_and_memoized scenario_ssm no_faults malformed_event
                (configured fresh_process)) as H2.
  destruct (ensure_parameters scenario_ssm fresh_process) as [loaded p1] eqn:He1.
  vm_compute in He1. injection He1 as <- <-.
  destruct (ensure_parameters scenario_ssm (configured fresh_process)) as [loaded2 p2].
  destruct (lambda_handler scenario_ssm no_faults malformed_event fresh_process)
    as [resp p'] eqn:Hrun.
  destruct (lambda_handler scenario_ssm no_faults malformed_event (configured fresh_process))
    as [resp2 p''].
  destruct H1 as (Hcopy & _ & Hfetch). destruct H2 as (_ & Hmemo & _).
  assert (Hlegal : legal_environment deployment_items = true) by (vm_compute; reflexivity).
  destruct (Hcopy deployment_items eq_refl eq_refl Hlegal) as (_ & _ & Hentries).
  destruct Hentries as [Hin _].
  { apply (bool_decide_unpack _). vm_compute. exact I. }
  cbn [fst snd]. split; [exact Hlegal|].
  split; [by (apply (f_equal fst) in Hrun; cbn in Hrun; subst resp; vm_compute)|].
  split; [apply (Hin "retries" (PInt 3)); do 2 apply list_elem_of_further;
          apply list_elem_of_here|].
  split; [apply (Hin "databases" (PDict [("EU", eu_config); ("US", us_config)]));
          apply list_elem_of_here|].
  split; [by apply Hfetch | by apply Hmemo].
Defined.

(** C10 as the specification states it fails when the stored
    configuration is the empty object: the second invocation of the process
    calls the parameter store again. *)
Lemma empty_configuration_is_fetched_again :
  let p1 := snd (lambda_handler empty_ssm no_faults (request_event "eu" []) fresh_process) in
  let p2 := snd (lambda_handler empty_ssm no_faults (request_event "eu" []) p1) in
  PARAMETERS p1 = PDict [] /\ ssm_calls p1 = 1%nat /\ ssm_calls p2 = 2%nat /\
  ~ (ssm_calls p2 <= 1)%nat.
Proof. vm_compute. repeat split. lia. Qed.

End Concrete.

(** * Further properties

    Properties of the code beyond the claims above: the rest of the
    normalizer, the processor, the report, the handler, the ticketing
    client and the help-center gateway. *)

(** ** Strings *)

Lemma chars_rev_app s1 s2 :
  list_ascii_of_string (String.rev_app s1 s2) =
  List.rev (list_ascii_of_string s1) ++ list_ascii_of_string s2.
Proof.
  revert s2. induction s1 as [|c s1 IH]; intros s2; cbn; [done|].
  rewrite IH. cbn. by rewrite <- app_assoc.
Qed.

Lemma chars_rev s : list_ascii_of_string (String.rev s) = List.rev (list_ascii_of_string s).
Proof. unfold String.rev. rewrite chars_rev_app. cbn. by rewrite app_nil_r. Qed.

Lemma chars_app s1 s2 :
  list_ascii_of_string (s1 +:+ s2) = list_ascii_of_string s1 ++ list_ascii_of_string s2.
Proof. induction s1 as [|c s1 IH]; cbn; [done|]. by rewrite <- IH. Qed.

Lemma chars_lstrip_by p s :
  list_ascii_of_string (lstrip_by p s) = drop_leading p (list_ascii_of_string s).
Proof. induction s as [|c s IH]; cbn; [done|]. by destruct (p c). Qed.

Lemma chars_strip_by p s :
  list_ascii_of_string (strip_by p s) =
  List.rev (drop_leading p (List.rev (drop_leading p (list_ascii_of_string s)))).
Proof. unfold strip_by. by rewrite chars_rev, chars_lstrip_by, chars_rev, chars_lstrip_by. Qed.

Lemma chars_inj s1 s2 : list_ascii_of_string s1 = list_ascii_of_string s2 -> s1 = s2.
Proof.
  intros Heq. rewrite <- (string_of_list_ascii_of_string s1), Heq.
  apply string_of_list_ascii_of_string.
Qed.

Lemma chars_map_string f s :
  list_ascii_of_string (map_string f s) = map f (list_ascii_of_string s).
Proof. induction s as [|c s IH]; cbn; [done|]. by rewrite IH. Qed.

Lemma head_kept_drop_leading p l : head_kept p (drop_leading p l).
Proof. induction l as [|c l IH]; cbn; [done|]. destruct (p c) eqn:Hc; [done|]. exact Hc. Qed.

Lemma drop_leading_kept p l : head_kept p l -> drop_leading p l = l.
Proof. destruct l as [|c l]; cbn; [done|]. by intros ->. Qed.

Lemma drop_leading_snoc p l c :
  p c = false -> drop_leading p (l ++ [c]) = drop_leading p l ++ [c].
Proof. intros Hc. induction l as [|d l IH]; cbn; [by rewrite Hc|]. by destruct (p d). Qed.

Lemma drop_leading_app_kept p l k :
  drop_leading p l <> [] -> drop_leading p (l ++ k) = drop_leading p l ++ k.
Proof. induction l as [|d l IH]; cbn; [done|]. by destruct (p d). Qed.

Lemma drop_leading_all p l : forallb p l = true -> forall k, drop_leading p (l ++ k) = drop_leading p k.
Proof.
  induction l as [|d l IH]; cbn; [done|]. intros [-> Hl]%andb_true_iff k. by apply IH.
Qed.

Lemma drop_leading_map p f l :
  (forall c, p (f c) = p c) -> drop_leading p (map f l) = map f (drop_leading p l).
Proof. intros Hp. induction l as [|c l IH]; cbn; [done|]. rewrite Hp. by destruct (p c). Qed.

Lemma head_kept_rev_drop p l :
  head_kept p l -> head_kept p (List.rev (drop_leading p (List.rev l))).
Proof.
  destruct l as [|c l]; cbn; [done|]. intros Hc.
  rewrite drop_leading_snoc by done. rewrite rev_app_distr. exact Hc.
Qed.

Lemma strip_by_idempotent p s : strip_by p (strip_by p s) = strip_by p s.
Proof.
  apply chars_inj. rewrite (chars_strip_by p (strip_by p s)), chars_strip_by.
  set (a := drop_leading p (list_ascii_of_string s)).
  assert (Ha : head_kept p a) by apply head_kept_drop_leading.
  rewrite (drop_leading_kept p (List.rev (drop_leading p (List.rev a))))
    by by apply head_kept_rev_drop.
  rewrite rev_involutive.
  by rewrite (drop_leading_kept p (drop_leading p (List.rev a)))
    by apply head_kept_drop_leading.
Qed.

Lemma forallb_rev {A} (p : A -> bool) l : forallb p (List.rev l) = forallb p l.
Proof.
  induction l as [|x l IH]; cbn; [done|].
  rewrite forallb_app, IH. cbn. by rewrite andb_true_r, andb_comm.
Qed.

Lemma forallb_pointwise {A} (p q : A -> bool) l :
  (forall x, p x = q x) -> forallb p l = forallb q l.
Proof. intros Hpq. induction l as [|x l IH]; cbn; [done|]. by rewrite Hpq, IH. Qed.

Lemma strip_by_padding p pre s post :
  forallb p (list_ascii_of_string pre) = true ->
  forallb p (list_ascii_of_string post) = true ->
  strip_by p (pre +:+ s +:+ post) = strip_by p s.
Proof.
  intros Hpre Hpost. apply chars_inj. rewrite !chars_strip_by, !chars_app.
  rewrite (drop_leading_all p _ Hpre).
  set (l := list_ascii_of_string s). set (k := list_ascii_of_string post).
  assert (Hk : forallb p (List.rev k) = true) by by rewrite forallb_rev.
  destruct (drop_leading p l) as [|c a] eqn:Hl.
  - (* the whole of [s] is stripped *)
    assert (Hall : drop_leading p (l ++ k) = drop_leading p k).
    { clear -Hl. induction l as [|d l IH]; cbn in *; [done|].
      destruct (p d); [by apply IH | done]. }
    rewrite Hall. cbn.
    assert (Hnil : forall k, forallb p k = true -> drop_leading p k = []).
    { clear. induction k as [|d k IH]; cbn; [done|]. by intros [-> ?]%andb_true_iff; apply IH. }
    by rewrite (Hnil k Hpost).
  - rewrite drop_leading_app_kept by (rewrite Hl; done). rewrite Hl.
    rewrite rev_app_distr. by rewrite (drop_leading_all p _ Hk).
Qed.

Lemma strip_by_map_string p f s :
  (forall c, p (f c) = p c) -> strip_by p (map_string f s) = map_string f (strip_by p s).
Proof.
  intros Hp. apply chars_inj.
  rewrite chars_map_string, !chars_strip_by, chars_map_string.
  by rewrite (drop_leading_map p f _ Hp), <- map_rev, (drop_leading_map p f _ Hp), map_rev.
Qed.

Lemma lower_upper_char c : lower_char (upper_char c) = lower_char c.
Proof. destruct c as [[] [] [] [] [] [] [] []]; reflexivity. Qed.

Lemma upper_lower_char c : upper_char (lower_char c) = upper_char c.
Proof. destruct c as [[] [] [] [] [] [] [] []]; reflexivity. Qed.

Lemma lower_lower_char c : lower_char (lower_char c) = lower_char c.
Proof. destruct c as [[] [] [] [] [] [] [] []]; reflexivity. Qed.

Lemma upper_upper_char c : upper_char (upper_char c) = upper_char c.
Proof. destruct c as [[] [] [] [] [] [] [] []]; reflexivity. Qed.

Lemma map_string_compose f g h s :
  (forall c, f (g c) = h c) -> map_string f (map_string g s) = map_string h s.
Proof. intros Hc. induction s as [|c s IH]; cbn; [done|]. by rewrite Hc, IH. Qed.

Lemma lower_upper s : lower (upper s) = lower s.
Proof. apply map_string_compose, lower_upper_char. Qed.

Lemma upper_lower s : upper (lower s) = upper s.
Proof. apply map_string_compose, upper_lower_char. Qed.

Lemma lower_lower s : lower (lower s) = lower s.
Proof. apply map_string_compose, lower_lower_char. Qed.

Lemma upper_upper s : upper (upper s) = upper s.
Proof. apply map_string_compose, upper_upper_char. Qed.

Lemma quote_test_char f c :
  f = lower_char \/ f = upper_char ->
  existsb (Ascii.eqb (f c)) (list_ascii_of_string (String dquote "")) =
  existsb (Ascii.eqb c) (list_ascii_of_string (String dquote "")).
Proof. intros [-> | ->]; destruct c as [[] [] [] [] [] [] [] []]; reflexivity. Qed.

Lemma schema_of_case o : schema_of (upper o) = schema_of o /\ schema_of (lower o) = schema_of o.
Proof.
  unfold schema_of, strip_chars, upper, lower. split; f_equal.
  - rewrite strip_by_map_string by (intros c; apply quote_test_char; by right).
    apply lower_upper.
  - rewrite strip_by_map_string by (intros c; apply quote_test_char; by left).
    apply lower_lower.
Qed.

Lemma schema_of_quotes pre o post :
  quotes pre = true -> quotes post = true -> schema_of (pre +:+ o +:+ post) = schema_of o.
Proof.
  intros Hpre Hpost. unfold schema_of, strip_chars. f_equal. f_equal.
  apply strip_by_padding.
  - rewrite <- Hpre. apply forallb_pointwise. intros c. cbn. apply orb_false_r.
  - rewrite <- Hpost. apply forallb_pointwise. intros c. cbn. apply orb_false_r.
Qed.

Lemma prefix_append a b : String.prefix a (a +:+ b) = true.
Proof.
  induction a as [|c a IH]; [by destruct b|].
  change (String c a +:+ b) with (String c (a +:+ b)). cbn [String.prefix].
  destruct (ascii_dec c c) as [_|Hne]; [exact IH | by destruct Hne].
Qed.

Lemma join_cons2 sep x y l : join sep (x :: y :: l) = x +:+ sep +:+ join sep (y :: l).
Proof. reflexivity. Qed.

(** ** The input normalizer and the configuration resolver *)

Section NormalizerFacts.
Context `{PyRuntime}.

(** X1.  The letter case of a string never matters to
    [parse_bool_parameter]: the upper-cased and the lower-cased string give
    the flag of the string itself. *)
Theorem parse_bool_ignores_case s :
  parse_bool_parameter (PStr (upper s)) = parse_bool_parameter (PStr s) /\
  parse_bool_parameter (PStr (lower s)) = parse_bool_parameter (PStr s).
Proof. cbn [parse_bool_parameter]. by rewrite lower_upper, lower_lower. Qed.

Lemma parse_bool_truthy value : parse_bool_parameter value = true -> truthy value = true.
Proof. destruct value as [|b|z|f|s|l|d|t r]; cbn; try done. by destruct s. Qed.

(** X2.  [parse_bool_parameter] returns [True] only for a truthy bool,
    string or number: never for [None], a list, a dict or another object,
    and never for a falsy value. *)
Theorem parse_bool_only_truthy_scalars value :
  parse_bool_parameter value = true ->
  truthy value = true /\
  match value with
  | PBool _ | PStr _ | PInt _ | PFloat _ => True
  | _ => False
  end.
Proof.
  destruct value as [|b|z|f|s|l|d|t r]; cbn; try done.
  - intros Hs. split; [|done]. destruct s; [done | done].
Qed.

(** X3.  Whitespace around a string never matters to
    [parse_list_parameter]: padding the string with whitespace on either
    side, or stripping it beforehand, gives the same outcome. *)
Theorem parse_list_ignores_surrounding_space pre s post :
  blank pre = true -> blank post = true ->
  parse_list_parameter (PStr (pre +:+ s +:+ post)) = parse_list_parameter (PStr s) /\
  parse_list_parameter (PStr (strip s)) = parse_list_parameter (PStr s).
Proof.
  intros Hpre Hpost. cbn [parse_list_parameter]. unfold strip.
  by rewrite strip_by_padding, strip_by_idempotent.
Qed.

Lemma validate_inputs_eq org_id subscriptions region case_id :
  validate_inputs org_id subscriptions region case_id =
  (if truthy org_id then [] else ["Missing required field: org_id"])
  ++ (if non_empty_list subscriptions then []
      else if truthy subscriptions then ["subscriptions must be a list of Salesforce IDs"]
      else ["Missing required field: subscriptions (must be a non-empty list)"])
  ++ (if truthy region then [] else ["Missing required field: region"])
  ++ (if truthy case_id then [] else ["Missing required field: case_id"]).
Proof.
  unfold validate_inputs.
  destruct (truthy org_id), (truthy region), (truthy case_id);
    (destruct (truthy subscriptions) eqn:Hs;
     [destruct subscriptions as [| | | | |[|x l]| |]; try discriminate Hs; reflexivity
     |destruct subscriptions as [| | | | |[|x l]| |]; try discriminate Hs; reflexivity]).
Qed.

(** X4.  [validate_inputs] returns no error exactly when the org id, the
    region and the case id are truthy and the subscriptions are a list with
    at least one element; it reports one error for each of the four fields
    that fails. *)
Theorem validate_inputs_accepts org_id subscriptions region case_id :
  (validate_inputs org_id subscriptions region case_id = [] <->
   truthy org_id = true /\ (exists x l, subscriptions = PList (x :: l)) /\
   truthy region = true /\ truthy case_id = true) /\
  length (validate_inputs org_id subscriptions region case_id) =
    field_errors org_id subscriptions region case_id.
Proof.
  rewrite validate_inputs_eq. unfold field_errors.
  assert (Hne : non_empty_list subscriptions = true <-> exists x l, subscriptions = PList (x :: l)).
  { destruct subscriptions as [| | | | |[|x l]| |]; cbn;
      (split; [try discriminate; eauto | intros (? & ? & ?); done]). }
  rewrite <- Hne.
  destruct (truthy org_id), (non_empty_list subscriptions), (truthy subscriptions),
    (truthy region), (truthy case_id); cbn; (split; [split|reflexivity]);
    first [ discriminate | tauto | intros (? & ? & ? & ?); discriminate ].
Qed.

(** X5.  [validate_inputs] never reports that the subscriptions list
    cannot be empty (an empty list is already reported as a missing field),
    and never reports that the subscriptions must be a list when they are
    one. *)
Theorem validate_inputs_never_reports org_id subscriptions region case_id :
  ("subscriptions list cannot be empty"
     ∉ validate_inputs org_id subscriptions region case_id) /\
  (forall l, subscriptions = PList l ->
     "subscriptions must be a list of Salesforce IDs"
       ∉ validate_inputs org_id subscriptions region case_id).
Proof.
  rewrite validate_inputs_eq. split.
  - destruct (truthy org_id), (non_empty_list subscriptions), (truthy subscriptions),
      (truthy region), (truthy case_id); cbn;
      rewrite ?elem_of_cons, elem_of_nil; intros Hin;
      repeat (destruct Hin as [Hin|Hin]; [discriminate Hin|]); done.
  - intros l ->.
    assert (Hl : non_empty_list (PList l) = truthy (PList l)) by by destruct l.
    rewrite Hl.
    destruct (truthy org_id), (truthy (PList l)),
      (truthy region), (truthy case_id); cbn;
      rewrite ?elem_of_cons, elem_of_nil; intros Hin;
      repeat (destruct Hin as [Hin|Hin]; [discriminate Hin|]); done.
Qed.

(** X6.  [get_database_config] does not look at the letter case of the
    region: the lower-cased and the upper-cased region give the outcome of
    the region itself. *)
Theorem region_ignores_case env r :
  get_database_config env (PStr (lower r)) = get_database_config env (PStr r) /\
  get_database_config env (PStr (upper r)) = get_database_config env (PStr r).
Proof. unfold get_database_config. by rewrite upper_lower, upper_upper. Qed.

End NormalizerFacts.

(** ** The cancellation processor *)

Lemma dict_fromkeys_acc (l : list sqlval) : forall acc,
  NoDup acc ->
  NoDup (fold_left (fun acc x => if bool_decide (x ∈ acc) then acc else acc ++ [x]) l acc).
Proof.
  induction l as [|x l IH]; intros acc Hnd; cbn [fold_left]; [done|].
  apply IH. case_bool_decide; [done|].
  apply NoDup_app. split; [done|]. split; [|apply NoDup_singleton].
  intros y Hy ->%list_elem_of_singleton. done.
Qed.

Lemma NoDup_dict_fromkeys l : NoDup (dict_fromkeys l).
Proof. apply dict_fromkeys_acc. constructor. Qed.

Lemma select_macd_record_of t pats :
  select_macd t pats =
  map record_of
      (List.filter
         (fun m => sql_in (macd_subscription_id m)
                     (map sub_id (List.filter (like_conditions pats) (subscription t))))
         (macd_request t)).
Proof. reflexivity. Qed.

Lemma filter_map_comm {A B} (p : B -> bool) (f : A -> B) l :
  List.filter p (map f l) = map f (List.filter (fun x => p (f x)) l).
Proof. induction l as [|x l IH]; cbn; [done|]. destruct (p (f x)); cbn; by rewrite IH. Qed.

Lemma select_macd_after_updates t B I pats :
  select_macd (update_macd I (update_order B t)) pats =
  map (mark_posted1 I) (select_macd t pats).
Proof.
  rewrite !select_macd_record_of. cbn [update_macd update_order subscription macd_request].
  rewrite filter_map_comm, !map_map.
  rewrite (List.filter_ext
             (fun x => sql_in (macd_subscription_id
                                 (if macd_hit I x then set_macd_posted1 x else x)) _)
             (fun m => sql_in (macd_subscription_id m)
                         (map sub_id (List.filter (like_conditions pats) (subscription t))))).
  2:{ intros m. by destruct (macd_hit I m). }
  apply map_ext. intros m. unfold mark_posted1, macd_hit, record_of.
  cbn [r_id]. by destruct (sql_in (macd_id m) I).
Qed.

Lemma eligible_id_in_macd_ids rows row :
  row ∈ rows -> r_status row = VText "posted" -> sql_truthy (r_id row) = true ->
  sql_in (r_id row) (macd_ids_of rows) = true.
Proof.
  intros Hin Hp Ht. apply sql_in_true. split; [by apply truthy_not_null|].
  unfold macd_ids_of. apply elem_of_dict_fromkeys, elem_of_filter_truthy. split; [done|].
  apply list_elem_of_fmap. exists row. split; [done|]. by apply elem_of_eligible_of.
Qed.

Lemma no_eligible_after_updates rows :
  (forall row, row ∈ eligible_of rows -> sql_truthy (r_id row) = true) ->
  eligible_of (map (mark_posted1 (macd_ids_of rows)) rows) = [].
Proof.
  intros Hid. set (I := macd_ids_of rows).
  assert (Hall : forall row, row ∈ rows -> posted (mark_posted1 I row) = false).
  { intros row Hin. unfold mark_posted1.
    destruct (sql_in (r_id row) I) eqn:Hi; [done|].
    destruct (posted row) eqn:Hp; [|done]. exfalso.
    apply bool_decide_eq_true in Hp.
    assert (Hel : row ∈ eligible_of rows) by by apply elem_of_eligible_of.
    pose proof (eligible_id_in_macd_ids rows row Hin Hp (Hid row Hel)) as Hi'.
    fold I in Hi'. congruence. }
  clearbody I. clear Hid.
  unfold eligible_of. induction rows as [|row rows' IH]; cbn; [done|].
  rewrite Hall by apply list_elem_of_here.
  apply IH. intros r Hr. apply Hall. by apply list_elem_of_further.
Qed.

Lemma sql_like_percent s : sql_like "%" s = true.
Proof. induction s as [|c s IH]; [reflexivity|]. cbn in *. exact IH. Qed.

Lemma sql_like_prefix id : forall s,
  plain_id id = true -> sql_like (id +:+ "%") s = String.prefix id s.
Proof.
  induction id as [|c id IH]; intros s Hp.
  - rewrite sql_like_percent. by destruct s.
  - unfold plain_id in Hp. cbn [list_ascii_of_string forallb] in Hp.
    apply andb_true_iff in Hp as [Hc Hp].
    apply negb_true_iff, orb_false_iff in Hc as [Hc Hbs].
    apply orb_false_iff in Hc as [Hpc Hus].
    change (String c id +:+ "%") with (String c (id +:+ "%")).
    cbn [sql_like]. rewrite Hpc, Hus, Hbs.
    destruct s as [|d s]; [reflexivity|]. cbn [String.prefix].
    destruct (ascii_dec c d) as [->|Hne].
    + rewrite Ascii.eqb_refl. cbn. by apply IH.
    + assert (Hdc : Ascii.eqb d c = false) by (apply Ascii.eqb_neq; congruence).
      by rewrite Hdc.
Qed.

Lemma elem_of_list_filter {A} (p : A -> bool) l x : x ∈ List.filter p l <-> x ∈ l /\ p x = true.
Proof. rewrite !list_elem_of_In. apply filter_In. Qed.

Section ProcessorExtras.
Context `{PyRuntime}.
Variable faults : step -> option exn.

Lemma process_by_schema db_config o1 o2 subs tm w :
  schema_of o1 = schema_of o2 ->
  process_macd_cancellation faults db_config (PStr o1) subs tm w =
  process_macd_cancellation faults db_config (PStr o2) subs tm w.
Proof.
  intros Hs. unfold schema_of in Hs. apply (String.app_inj "org_") in Hs.
  unfold process_macd_cancellation, try_block. by rewrite Hs.
Qed.

(** X7.  Double quotes around the org id and its letter case never matter
    to [process_macd_cancellation]: the run on the quoted, the upper-cased
    or the lower-cased org id is the run on the org id itself, on the same
    tenant schema. *)
Theorem org_id_ignores_quotes_and_case db_config pre o post subscriptions test_mode w :
  quotes pre = true -> quotes post = true ->
  process_macd_cancellation faults db_config (PStr (pre +:+ o +:+ post))
    subscriptions test_mode w =
  process_macd_cancellation faults db_config (PStr o) subscriptions test_mode w /\
  process_macd_cancellation faults db_config (PStr (upper o)) subscriptions test_mode w =
  process_macd_cancellation faults db_config (PStr o) subscriptions test_mode w /\
  process_macd_cancellation faults db_config (PStr (lower o)) subscriptions test_mode w =
  process_macd_cancellation faults db_config (PStr o) subscriptions test_mode w.
Proof.
  intros Hpre Hpost. split; [|split]; apply process_by_schema.
  - by apply schema_of_quotes.
  - apply schema_of_case.
  - apply schema_of_case.
Qed.

Lemma process_returns db_config o subs tm w t :
  (forall s, faults s = None) -> subs <> [] -> stored w !! schema_of o = Some t ->
  exists r w2,
    process_macd_cancellation faults db_config (PStr o) subs tm w = (Ok r, conn_close w2) /\
    good_exit (PStr o) subs tm (opened w) r w2.
Proof.
  intros Hf Hs Ht.
  pose proof (process_spec faults db_config (PStr o) subs tm w) as Hp.
  destruct (process_macd_cancellation faults db_config (PStr o) subs tm w) as [[r|e] w'].
  - destruct Hp as (_ & w2 & _ & Hg & ->). by exists r, w2.
  - exfalso. destruct Hp as [[He _] | (_ & e0 & w2 & _ & (_ & _ & Hc) & _)].
    + by rewrite Hf in He.
    + destruct Hc as [[s Hs'] | [Hn | [-> | (o' & Ho & Hn)]]].
      * by rewrite Hf in Hs'.
      * by apply (Hn o).
      * done.
      * injection Ho as <-. cbn in Hn. congruence.
Qed.

(** X8.  When the org id is safe and no fetched row has status [posted]
    the run returns early, also in production mode: [committed] is false,
    both counters are zero, no UPDATE, commit or rollback is issued, the
    connection is closed and the database is as before.  Such a run raises
    only when the server fails a call or the subscription list is empty. *)
Theorem no_eligible_row_changes_nothing db_config o subscriptions test_mode w t :
  sql_identifier (schema_of o) = true ->
  stored w !! schema_of o = Some t ->
  eligible_of (select_macd t (patterns_of subscriptions)) = [] ->
  match process_macd_cancellation faults db_config (PStr o) subscriptions test_mode w with
  | (Ok result, w') =>
      stored w' = stored w /\ committed result = false /\
      eligible_count result = 0%nat /\
      order_requests_updated result = 0%nat /\ macd_requests_updated result = 0%nat /\
      updated_basket_ids result = [] /\ updated_macd_ids result = [] /\
      calls w' = calls w ++ [Step Connect; Step Cursor; Step ExecuteSelect; Step Fetchall;
                             CursorClose; ConnClose]
  | (Raise e, w') =>
      stored w' = stored w /\ ((exists s, faults s = Some e) \/ subscriptions = [])
  end.
Proof.
  intros _ Ht Hel.
  pose proof (process_spec faults db_config (PStr o) subscriptions test_mode w) as Hp.
  destruct (process_macd_cancellation faults db_config (PStr o) subscriptions test_mode w)
    as [[r|e] w'].
  - destruct Hp as (_ & w2 & _ & (o' & t' & Ho & _ & Ht' & Hg) & ->).
    injection Ho as <-. cbn [opened set_session record_call stored] in Ht'.
    assert (t' = t) as -> by congruence.
    cbn zeta in Hg. rewrite Hel in Hg.
    destruct Hg as (_ & Hec & _ & _ & _ & _ & Ho & Hm & Hco & Hb & Hi & Hst & Hcalls).
    cbn [conn_close set_session record_call stored calls]. rewrite Hcalls.
    cbn [opened set_session record_call stored calls] in *.
    rewrite <- !app_assoc. repeat split; done.
  - destruct Hp as [[He ->] | (_ & e0 & w2 & _ & (_ & _ & Hc) & -> & Hst & _)].
    + split; [done|]. left. eauto.
    + split; [done|].
      destruct (faults ExceptRollback) as [e'|] eqn:Hx; cbn; [left; eauto|].
      destruct Hc as [Hs | [Hn | [-> | (o' & Ho & Hn)]]]; [by left | | by right |].
      * by destruct (Hn o).
      * injection Ho as <-. cbn in Hn. congruence.
Qed.

(** X9.  In a returned result [committed] is true exactly when
    [conn.commit()] was called.  Commit is called only in production mode
    and rollback only in test mode, never both; each UPDATE is issued
    exactly when its id list is not empty; a run that found no eligible row
    calls neither, and a run that returns never reaches the rollback of the
    [except] clause. *)
Theorem committed_flag_follows_commit db_config org_id subscriptions test_mode w :
  match process_macd_cancellation faults db_config org_id subscriptions test_mode w with
  | (Ok result, w') =>
      exists l, calls w' = calls w ++ l /\
        (committed result = true <-> Step Commit ∈ l) /\
        (Step Commit ∈ l -> test_mode = false /\ (Step Rollback ∉ l)) /\
        (Step Rollback ∈ l -> test_mode = true) /\
        (Step ExecuteUpdateOrder ∈ l <-> updated_basket_ids result <> []) /\
        (Step ExecuteUpdateMacd ∈ l <-> updated_macd_ids result <> []) /\
        (eligible_count result = 0%nat -> (Step Commit ∉ l) /\ (Step Rollback ∉ l)) /\
        (Step ExceptRollback ∉ l)
  | (Raise e, _) => raise_cause faults org_id subscriptions (stored w) e
  end.
Proof.
  pose proof (process_spec faults db_config org_id subscriptions test_mode w) as Hp.
  destruct (process_macd_cancellation faults db_config org_id subscriptions test_mode w)
    as [[r|e] w'].
  - destruct Hp as (_ & w2 & _ & (o & t & -> & _ & Ht & Hg) & ->).
    cbn zeta in Hg. destruct Hg as (_ & Hec & _ & _ & _ & _ & Hg).
    cbn [conn_close set_session record_call calls].
    destruct (eligible_of (select_macd t (patterns_of subscriptions))) as [|e0 el] eqn:Hel.
    + destruct Hg as (_ & _ & Hco & Hb & Hi & _ & Hcalls).
      rewrite Hcalls, Hco, Hb, Hi, Hec. cbn [opened set_session record_call calls length].
      eexists. split; [by rewrite <- !app_assoc|]. cbn [app].
      by apply (bool_decide_unpack _).
    + cbn zeta in Hg. destruct Hg as (Hb & Hi & _ & _ & Hco & _ & Hcalls).
      rewrite Hcalls, Hco, Hb, Hi, Hec. cbn [opened set_session record_call calls length].
      eexists. split; [by rewrite <- !app_assoc|]. cbn [app].
      destruct (basket_ids_of _), (macd_ids_of _), test_mode; cbn [app];
        by apply (bool_decide_unpack _).
  - destruct Hp as [[He ->] | (_ & e0 & w2 & _ & (_ & _ & Hc) & -> & _)];
      [left; eauto | by apply raise_cause_default].
Qed.

(** X10.  The id lists of a returned result hold no duplicates:
    [updated_basket_ids] are exactly the truthy basket ids of the records in
    [macd_records], [updated_macd_ids] exactly their truthy ids, and neither
    list is longer than [eligible_count]. *)
Theorem update_ids_are_distinct_and_truthy db_config org_id subscriptions test_mode w :
  match process_macd_cancellation faults db_config org_id subscriptions test_mode w with
  | (Ok result, _) =>
      NoDup (updated_basket_ids result) /\ NoDup (updated_macd_ids result) /\
      (forall x, x ∈ updated_basket_ids result <->
         sql_truthy x = true /\ exists rec, rec ∈ macd_records result /\ r_basket_id rec = x) /\
      (forall x, x ∈ updated_macd_ids result <->
         sql_truthy x = true /\ exists rec, rec ∈ macd_records result /\ r_id rec = x) /\
      (length (updated_basket_ids result) <= eligible_count result)%nat /\
      (length (updated_macd_ids result) <= eligible_count result)%nat
  | (Raise e, _) => raise_cause faults org_id subscriptions (stored w) e
  end.
Proof.
  pose proof (process_spec faults db_config org_id subscriptions test_mode w) as Hp.
  destruct (process_macd_cancellation faults db_config org_id subscriptions test_mode w)
    as [[r|e] w'].
  - destruct Hp as (_ & w2 & _ & (o & t & -> & _ & Ht & Hg) & ->).
    cbn zeta in Hg. destruct Hg as (_ & Hec & _ & Hmr & _ & _ & Hg).
    set (rows := select_macd t (patterns_of subscriptions)) in *.
    assert (Hids : updated_basket_ids r = basket_ids_of rows /\
                   updated_macd_ids r = macd_ids_of rows).
    { unfold basket_ids_of, macd_ids_of.
      destruct (eligible_of rows) as [|e0 el] eqn:Hel.
      - by destruct Hg as (_ & _ & _ & -> & -> & _).
      - cbn zeta in Hg. destruct Hg as (-> & -> & _).
        unfold basket_ids_of, macd_ids_of. by rewrite Hel. }
    destruct Hids as [-> ->]. rewrite Hmr, Hec. clear Hg.
    unfold basket_ids_of, macd_ids_of.
    assert (Hlen : forall (f : record -> sqlval),
              (length (dict_fromkeys (List.filter sql_truthy (map f (eligible_of rows))))
               <= length (eligible_of rows))%nat).
    { intros f.
      pose proof (List.length_map f (eligible_of rows)) as Hm.
      pose proof (List.filter_length_le sql_truthy (map f (eligible_of rows))) as Hf.
      assert (Hd : (length (dict_fromkeys (List.filter sql_truthy (map f (eligible_of rows))))
                    <= length (List.filter sql_truthy (map f (eligible_of rows))))%nat).
      { apply NoDup_incl_length.
        - apply NoDup_ListNoDup, NoDup_dict_fromkeys.
        - intros x Hx. apply list_elem_of_In. apply list_elem_of_In in Hx.
          by rewrite elem_of_dict_fromkeys in Hx. }
      lia. }
    split; [apply NoDup_dict_fromkeys|]. split; [apply NoDup_dict_fromkeys|].
    split; [|split; [|split; apply Hlen]].
    + intros x. rewrite elem_of_dict_fromkeys, elem_of_filter_truthy, list_elem_of_fmap.
      split; [intros (Hx & rec & -> & Hin) | intros (Hx & rec & Hin & <-)];
        (split; [done|]); by exists rec.
    + intros x. rewrite elem_of_dict_fromkeys, elem_of_filter_truthy, list_elem_of_fmap.
      split; [intros (Hx & rec & -> & Hin) | intros (Hx & rec & Hin & <-)];
        (split; [done|]); by exists rec.
  - destruct Hp as [[He ->] | (_ & e0 & w2 & _ & (_ & _ & Hc) & -> & _)];
      [left; eauto | by apply raise_cause_default].
Qed.

(** X11.  A committed run is idempotent when the org id is safe, every
    eligible row has a truthy id and the server fails no call: a second run
    with the same arguments fetches as many rows, finds none of them
    eligible, updates nothing, commits nothing and leaves the database as
    the first run left it. *)
Theorem committed_run_is_idempotent db_config o subscriptions w t :
  sql_identifier (schema_of o) = true ->
  (forall s, faults s = None) ->
  subscriptions <> [] ->
  stored w !! schema_of o = Some t ->
  (forall row, row ∈ select_macd t (patterns_of subscriptions) ->
     r_status row = VText "posted" -> sql_truthy (r_id row) = true) ->
  exists r1 w1 r2 w2,
    process_macd_cancellation faults db_config (PStr o) subscriptions false w = (Ok r1, w1) /\
    process_macd_cancellation faults db_config (PStr o) subscriptions false w1 = (Ok r2, w2) /\
    stored w2 = stored w1 /\
    total_found r2 = total_found r1 /\ eligible_count r2 = 0%nat /\
    skipped_wrong_status r2 = total_found r1 /\
    order_requests_updated r2 = 0%nat /\ macd_requests_updated r2 = 0%nat /\
    committed r2 = false.
Proof.
  intros _ Hf Hs Ht Hid.
  destruct (process_returns db_config o subscriptions false w t Hf Hs Ht)
    as (r1 & w1 & Hrun1 & (o1 & t1 & Ho1 & _ & Ht1 & Hg1)).
  injection Ho1 as <-. cbn [opened set_session record_call stored] in Ht1.
  assert (t1 = t) as -> by congruence.
  cbn zeta in Hg1. destruct Hg1 as (Htot1 & _ & _ & _ & _ & _ & Hg1).
  set (rows := select_macd t (patterns_of subscriptions)) in *.
  (* the tenant after the first run, and what the SELECT fetches from it *)
  assert (Hafter : exists t', stored (conn_close w1) !! schema_of o = Some t' /\
                     eligible_of (select_macd t' (patterns_of subscriptions)) = [] /\
                     length (select_macd t' (patterns_of subscriptions)) = length rows).
  { cbn [conn_close set_session record_call stored].
    destruct (eligible_of rows) as [|e0 el] eqn:Hel.
    - destruct Hg1 as (_ & _ & _ & _ & _ & Hst & _).
      exists t. rewrite Hst. cbn [opened set_session record_call stored].
      split; [done|]. by split.
    - cbn zeta in Hg1. destruct Hg1 as (_ & _ & _ & _ & _ & Hst & _).
      eexists. rewrite Hst. split; [apply lookup_insert_eq|].
      rewrite select_macd_after_updates. fold rows. split.
      + apply no_eligible_after_updates. intros row [Hin Hp]%elem_of_eligible_of.
        by apply Hid.
      + by rewrite length_map. }
  destruct Hafter as (t' & Ht' & Hel' & Hlen').
  destruct (process_returns db_config o subscriptions false (conn_close w1) t' Hf Hs Ht')
    as (r2 & w2 & Hrun2 & (o2 & t2 & Ho2 & _ & Ht2 & Hg2)).
  injection Ho2 as <-.
  assert (t2 = t') as ->.
  { cbn [opened conn_close set_session record_call stored] in Ht', Ht2. congruence. }
  cbn zeta in Hg2. rewrite Hel' in Hg2.
  destruct Hg2 as (Htot2 & Hec2 & Hsk2 & _ & _ & _ & Ho2 & Hm2 & Hco2 & _ & _ & Hst2 & _).
  exists r1, (conn_close w1), r2, (conn_close w2).
  split; [done|]. split; [done|].
  split; [cbn [conn_close set_session record_call stored opened] in *; congruence|].
  split; [congruence|]. split; [done|].
  split; [|done].
  rewrite Hsk2. destruct (length_skipped_of (select_macd t' (patterns_of subscriptions)))
    as [-> _]. rewrite Hel', Hlen', Htot1. cbn. lia.
Qed.

Lemma patterns_of_strings ids :
  patterns_of (map PStr ids) = map (fun id => id +:+ "%") ids.
Proof. unfold patterns_of. rewrite map_map. reflexivity. Qed.

Lemma like_conditions_prefix ids s :
  forallb plain_id ids = true ->
  like_conditions (patterns_of (map PStr ids)) s = true <->
  exists sfdc id, sub_sfdc_id s = Some sfdc /\ id ∈ ids /\ String.prefix id sfdc = true.
Proof.
  intros Hplain. rewrite patterns_of_strings. unfold like_conditions.
  destruct (sub_sfdc_id s) as [sfdc|]; [|split; [done | by intros (? & ? & ? & _)]].
  rewrite existsb_exists. split.
  - intros (pat & Hin & Hlike). apply in_map_iff in Hin as (id & <- & Hin).
    exists sfdc, id. split; [done|]. split; [by apply list_elem_of_In|].
    rewrite <- sql_like_prefix; [done|].
    rewrite forallb_forall in Hplain. by apply Hplain.
  - intros (sfdc' & id & Heq & Hin & Hpre). injection Heq as <-.
    exists (id +:+ "%"). split.
    + apply in_map_iff. exists id. split; [done | by apply list_elem_of_In].
    + rewrite sql_like_prefix; [done|].
      rewrite forallb_forall in Hplain. by apply Hplain, list_elem_of_In.
Qed.

(** X12.  For subscription ids without the characters percent, underscore
    and backslash, the SELECT fetches exactly the MACD requests whose
    subscription id is the non-NULL id of a subscription whose [sfdc_id]
    starts with one of the requested ids. *)
Theorem select_matches_by_prefix t ids rec :
  forallb plain_id ids = true ->
  rec ∈ select_macd t (patterns_of (map PStr ids)) <->
  exists m s sfdc id,
    m ∈ macd_request t /\ rec = record_of m /\
    s ∈ subscription t /\ macd_subscription_id m = sub_id s /\ sub_id s <> VNull /\
    sub_sfdc_id s = Some sfdc /\ id ∈ ids /\ String.prefix id sfdc = true.
Proof.
  intros Hplain. rewrite select_macd_record_of, list_elem_of_fmap. split.
  - intros (m & -> & [Hm Hin]%elem_of_list_filter).
    apply sql_in_true in Hin as [Hnn Hin].
    apply list_elem_of_fmap in Hin as (s & Hs & [Hsin Hlike]%elem_of_list_filter).
    apply (like_conditions_prefix ids s Hplain) in Hlike as (sfdc & id & Hsf & Hid & Hpre).
    exists m, s, sfdc, id. repeat split; try done. congruence.
  - intros (m & s & sfdc & id & Hm & -> & Hs & Heq & Hnn & Hsf & Hid & Hpre).
    exists m. split; [done|]. apply elem_of_list_filter. split; [done|].
    apply sql_in_true. split; [congruence|].
    apply list_elem_of_fmap. exists s. split; [done|].
    apply elem_of_list_filter. split; [done|].
    apply (like_conditions_prefix ids s Hplain). by exists sfdc, id.
Qed.

(** X13.  A subscription list that holds the empty string passes
    validation, and its LIKE pattern matches every subscription that has an
    [sfdc_id], whatever else the list holds. *)
Theorem empty_id_matches_every_subscription subs :
  PStr "" ∈ subs ->
  (forall s, like_conditions (patterns_of subs) s =
             match sub_sfdc_id s with Some _ => true | None => false end) /\
  (forall org_id region case_id,
     truthy org_id = true -> truthy region = true -> truthy case_id = true ->
     validate_inputs org_id (PList subs) region case_id = []).
Proof.
  intros Hin. split.
  - intros s. unfold like_conditions. destruct (sub_sfdc_id s) as [sfdc|]; [|done].
    apply existsb_exists. exists "%". split; [|apply sql_like_percent].
    unfold patterns_of. apply in_map_iff. exists (PStr ""). split; [done|].
    by apply list_elem_of_In.
  - intros o r c Ho Hr Hc. unfold validate_inputs.
    destruct subs as [|x subs]; [by apply elem_of_nil in Hin|].
    cbn. by rewrite Ho, Hr, Hc.
Qed.

End ProcessorExtras.

(** ** The report *)

Section FormatterExtras.
Context `{PyRuntime}.

Lemma format_results_lines result org_id subscriptions test_mode :
  format_results result org_id subscriptions test_mode =
  join newline (report_lines result org_id subscriptions test_mode).
Proof.
  unfold format_results, report_lines, report_section. f_equal.
  destruct (skipped_records result) as [|s sl];
    destruct (updated_basket_ids result) as [|b bl];
    destruct (updated_macd_ids result) as [|i il];
    cbn [app map]; rewrite <- ?app_assoc; cbn [app]; rewrite <- ?app_assoc; reflexivity.
Qed.

Lemma length_report_section title (lines : list string) :
  length (report_section title lines) = section_length lines.
Proof. destruct lines; cbn; [done|]. rewrite length_app. cbn. lia. Qed.

Lemma elem_of_report_section title lines (x : string) :
  x ∈ lines -> x ∈ report_section title lines.
Proof.
  destruct lines as [|l ls]; [done|]. intros Hx. unfold report_section.
  apply list_elem_of_further, elem_of_app. by left.
Qed.

(** X14.  The report of [format_results] is a sequence of lines joined by
    newlines: the first tells the mode, the last repeats it, there is one
    line for each skipped record, for each updated basket id and for each
    updated MACD id, and seventeen fixed lines plus, for each non-empty
    list, its title, its lines and an empty line. *)
Theorem report_lists_every_record result org_id subscriptions test_mode :
  exists lines,
    format_results result org_id subscriptions test_mode = join newline lines /\
    head lines = Some (mode_banner test_mode) /\
    last lines = Some (mode_footer test_mode) /\
    (forall record, record ∈ skipped_records result -> skipped_line record ∈ lines) /\
    (forall basket_id, basket_id ∈ updated_basket_ids result -> id_line basket_id ∈ lines) /\
    (forall macd_id, macd_id ∈ updated_macd_ids result -> id_line macd_id ∈ lines) /\
    length lines = (17 + section_length (skipped_records result)
                    + section_length (updated_basket_ids result)
                    + section_length (updated_macd_ids result))%nat.
Proof.
  exists (report_lines result org_id subscriptions test_mode).
  split; [apply format_results_lines|]. split; [reflexivity|].
  unfold report_lines. split; [|split; [|split; [|split]]].
  - by rewrite !app_assoc, last_snoc.
  - intros r Hr. rewrite !elem_of_app. right; left.
    apply elem_of_report_section, list_elem_of_fmap. by exists r.
  - intros b Hb. rewrite !elem_of_app. right; right; left.
    apply elem_of_report_section, list_elem_of_fmap. by exists b.
  - intros i Hi. rewrite !elem_of_app. right; right; right; left.
    apply elem_of_report_section, list_elem_of_fmap. by exists i.
  - rewrite !length_app, !length_report_section.
    assert (Hm : forall {A B} (f : A -> B) l, section_length (map f l) = section_length l).
    { intros A B f [|x l]; cbn; [done|]. by rewrite length_map. }
    rewrite !Hm. unfold section_length. cbn [length].
    destruct (skipped_records result), (updated_basket_ids result), (updated_macd_ids result);
      cbn [length]; lia.
Qed.

(** X15.  The report depends on the counters, the skipped records and the
    two id lists of the result only: [committed] and [macd_records] never
    show.  Its first line follows [test_mode], so the reports of a test run
    and of a production run always differ, and a production run that
    committed nothing (the early return) is still reported as committed. *)
Theorem report_wording_follows_test_mode result result' org_id subscriptions test_mode :
  total_found result' = total_found result ->
  eligible_count result' = eligible_count result ->
  skipped_wrong_status result' = skipped_wrong_status result ->
  order_requests_updated result' = order_requests_updated result ->
  macd_requests_updated result' = macd_requests_updated result ->
  skipped_records result' = skipped_records result ->
  updated_basket_ids result' = updated_basket_ids result ->
  updated_macd_ids result' = updated_macd_ids result ->
  format_results result' org_id subscriptions test_mode =
    format_results result org_id subscriptions test_mode /\
  String.prefix (mode_banner test_mode)
                (format_results result org_id subscriptions test_mode) = true /\
  format_results result org_id subscriptions true <>
    format_results result' org_id subscriptions false.
Proof.
  intros H1 H2 H3 H4 H5 H6 H7 H8.
  assert (Heq : forall tm, report_lines result' org_id subscriptions tm =
                           report_lines result org_id subscriptions tm).
  { intros tm. unfold report_lines. by rewrite H1, H2, H3, H4, H5, H6, H7, H8. }
  rewrite !format_results_lines, !Heq.
  assert (Hpre : forall tm, String.prefix (mode_banner tm)
                   (join newline (report_lines result org_id subscriptions tm)) = true).
  { intros tm. unfold report_lines. cbn [app]. rewrite join_cons2. apply prefix_append. }
  split; [done|]. split; [apply Hpre|].
  intros Habs. pose proof (Hpre true) as Ht. rewrite Habs in Ht.
  unfold report_lines in Ht. cbn [app] in Ht. rewrite join_cons2 in Ht.
  cbn in Ht. discriminate Ht.
Qed.

End FormatterExtras.

(** ** The request handler *)

Section HandlerExtras.
Context `{PyRuntime}.
Variable ssm : nat -> outcome string.
Variable faults : step -> option exn.

Lemma process_raise_keeps_stored db_config org subs tm w e w' :
  process_macd_cancellation faults db_config org subs tm w = (Raise e, w') ->
  stored w' = stored w.
Proof.
  intros Hrun. pose proof (process_spec faults db_config org subs tm w) as Hp.
  rewrite Hrun in Hp. destruct Hp as [[_ ->] | (_ & _ & _ & _ & _ & _ & Hst & _)]; done.
Qed.

Lemma test_mode_keeps_stored db_config org subs w :
  stored (snd (process_macd_cancellation faults db_config org subs true w)) = stored w.
Proof.
  pose proof (process_spec faults db_config org subs true w) as Hp.
  destruct (process_macd_cancellation faults db_config org subs true w) as [[r|e] w'].
  - destruct Hp as (_ & w2 & _ & (o & t & -> & _ & Ht & Hg) & ->).
    cbn zeta in Hg. destruct Hg as (_ & _ & _ & _ & _ & _ & Hg).
    cbn [snd conn_close set_session record_call stored].
    destruct (eligible_of _).
    + by destruct Hg as (_ & _ & _ & _ & _ & -> & _).
    + cbn zeta in Hg. by destruct Hg as (_ & _ & _ & _ & _ & -> & _).
  - destruct Hp as [[_ ->] | (_ & _ & _ & _ & _ & _ & Hst & _)]; done.
Qed.

Lemma answer_of_frame p q r :
  db q = db p -> notes q = notes p -> answer_of q r -> answer_of p r.
Proof. unfold answer_of. intros -> ->. done. Qed.

Lemma handle_request_answer org subs region case_id tm p :
  answer_of p (handle_request faults org subs region case_id tm p).
Proof.
  unfold handle_request.
  destruct (get_database_config (environ p) region) as [cfg|e].
  - destruct (process_macd_cancellation faults cfg org subs tm (db p)) as [[r|e] w] eqn:Hrun;
      cbn.
    + left. split; [done|]. by eexists _, _.
    + right; right. split; [done|]. split; [|right; by eexists _, _].
      by apply (process_raise_keeps_stored cfg org subs tm (db p) e w).
  - destruct (isinstance_exn e [ValueError]); cbn; [|done].
    right; right. split; [done|]. split; [done | by left].
Qed.

Lemma handle_body_answer ev body p : answer_of p (handle_body faults ev body p).
Proof.
  unfold handle_body.
  destruct body; try (cbn; done).
  destruct (parse_list_parameter _); [|cbn; done].
  destruct (raw_test_flag _ _); [|cbn; done].
  destruct (validate_inputs _ _ _ _); [apply handle_request_answer|].
  cbn. right; left. done.
Qed.

Lemma ensure_parameters_quiet p :
  db (snd (ensure_parameters ssm p)) = db p /\ notes (snd (ensure_parameters ssm p)) = notes p.
Proof.
  pose proof (ensure_parameters_frame ssm p) as Hf.
  destruct (ensure_parameters ssm p) as [out p1]. by destruct Hf as (_ & ? & ? & _).
Qed.

Lemma handler_try_answer event p : answer_of p (handler_try ssm faults event p).
Proof.
  unfold handler_try. destruct (ensure_parameters_quiet p) as [Hdb Hnotes].
  destruct (ensure_parameters ssm p) as [[[]|e] p1]; cbn [snd] in *; [|cbn; done].
  destruct (PARAMETERS p1) as [| | | | | |items|]; try (cbn; done).
  set (p2 := set_environ _ p1).
  assert (Hq : forall r, answer_of p2 r -> answer_of p r).
  { intros r. by apply answer_of_frame. }
  destruct event as [| | | | | |ev|]; try (cbn; done).
  destruct (match dict_get ev "body" with PNone => PDict ev | _ => dict_get ev "body" end)
    as [| | | | | |b|];
    try (destruct (json_loads _) as [b'|e];
         [apply Hq, handle_body_answer
         |destruct (isinstance_exn e [JSONDecodeError]); cbn; [right; left; done | done]]).
  apply Hq, handle_body_answer.
Qed.

(** X16.  Whatever the event and the state of the process, the handler
    answers 200, 400 or 500.  A 400 means that neither the database nor the
    ticket was touched; any answer other than 200 to a request with a safe
    org id means that the committed database is as before; a 200 means that
    exactly one note was posted; and no invocation posts more than one
    note. *)
Theorem status_code_guarantees event p :
  match lambda_handler ssm faults event p with
  | (resp, p') =>
      (statusCode resp = 200 \/ statusCode resp = 400 \/ statusCode resp = 500) /\
      (statusCode resp = 400 -> db p' = db p /\ notes p' = notes p) /\
      ((forall ev b, event = PDict ev -> request_body ev b ->
                     safe_org_id (dict_get b "org_id")) ->
       statusCode resp <> 200 -> stored (db p') = stored (db p)) /\
      (statusCode resp = 200 -> exists case_id text, notes p' = notes p ++ [(case_id, text)]) /\
      (notes p' = notes p \/ exists case_id text, notes p' = notes p ++ [(case_id, text)])
  end.
Proof.
  rewrite lambda_handler_finish.
  pose proof (handler_try_answer event p) as Ha.
  destruct (handler_try ssm faults event p) as [[resp|e] p']; cbn [finish answer_of] in *.
  - destruct Ha as [[Hc Hn] | [(Hc & Hdb & Hn) | (Hc & Hst & Hn)]]; rewrite Hc.
    + repeat split; try done; eauto.
    + repeat split; try done; eauto. by rewrite Hdb.
    + repeat split; try done; eauto.
  - destruct Ha as [Hdb Hn]. cbn [statusCode]. repeat split; try done; eauto.
    by rewrite Hdb.
Qed.

Lemma handler_try_body ev b p p1 items :
  ensure_parameters ssm p = (Ok tt, p1) ->
  PARAMETERS p1 = PDict items ->
  request_body ev b ->
  handler_try ssm faults (PDict ev) p =
  handle_body faults ev (PDict b) (set_environ (update_environ items (environ p1)) p1).
Proof.
  intros He Hp Hb. unfold handler_try. rewrite He, Hp.
  destruct Hb as [-> | [[-> ->] | (Hnd & Hnn & Hj)]]; [done | done |].
  destruct (dict_get ev "body") as [| | | | | |d|] eqn:Hbody; try done;
    try (by rewrite Hj).
  by destruct (Hnd d).
Qed.

(** X17.  When the environment accepts every entry of the configuration,
    a request whose fields fail validation is answered with 400 and a
    message that lists every validation error, joined by semicolons, once
    the configuration was copied into the environment; nothing else
    happens. *)
Theorem invalid_request_is_rejected ev b p p1 items subs raw :
  ensure_parameters ssm p = (Ok tt, p1) ->
  PARAMETERS p1 = PDict items ->
  legal_environment items = true ->
  request_body ev b ->
  parse_list_parameter (dict_get_default b "subscriptions" (PList [])) = Ok subs ->
  raw_test_flag b (py_or (dict_get ev "queryStringParameters") (PDict [])) = Ok raw ->
  validate_inputs (dict_get b "org_id") (PList subs) (dict_get b "region")
                  (dict_get b "case_id") <> [] ->
  lambda_handler ssm faults (PDict ev) p =
  ({| statusCode := 400;
      body := message_body
                ("Validation errors: "
                 +:+ join "; " (validate_inputs (dict_get b "org_id") (PList subs)
                                  (dict_get b "region") (dict_get b "case_id"))) |},
   set_environ (update_environ items (environ p1)) p1).
Proof.
  intros He Hp _ Hb Hl Hr Hv. rewrite lambda_handler_finish.
  rewrite (handler_try_body ev b p p1 items He Hp Hb).
  unfold handle_body. rewrite Hl, Hr.
  by destruct (validate_inputs _ _ _ _).
Qed.

(** X18.  When the environment accepts every entry of the configuration,
    a [body] entry that is neither an object nor absent and whose text
    [json.loads] rejects is answered with 400 and the decoder's message,
    once the configuration was copied into the environment. *)
Theorem undecodable_body_is_rejected ev p p1 items e :
  ensure_parameters ssm p = (Ok tt, p1) ->
  PARAMETERS p1 = PDict items ->
  legal_environment items = true ->
  (forall d, dict_get ev "body" <> PDict d) -> dict_get ev "body" <> PNone ->
  json_loads (py_str (dict_get ev "body")) = Raise e ->
  isinstance_exn e [JSONDecodeError] = true ->
  lambda_handler ssm faults (PDict ev) p =
  ({| statusCode := 400; body := message_body ("Invalid JSON: " +:+ exn_msg e) |},
   set_environ (update_environ items (environ p1)) p1).
Proof.
  intros He Hp _ Hnd Hnn Hj Hi. rewrite lambda_handler_finish.
  unfold handler_try. rewrite He, Hp.
  destruct (dict_get ev "body") as [| | | | | |d|] eqn:Hbody; try done;
    try (by rewrite Hj, Hi).
  by destruct (Hnd d).
Qed.

(** X19.  Once [PARAMETERS] holds a truthy value that is not a dict, every
    invocation answers 500 with the attribute error of [items] and leaves
    the process as it is, so that the process never recovers; a parameter
    store that answers with such a JSON document brings the process into
    that state on its first invocation. *)
Theorem non_object_configuration_is_fatal event p :
  (truthy (PARAMETERS p) = true -> (forall items, PARAMETERS p <> PDict items) ->
   lambda_handler ssm faults event p =
   ({| statusCode := 500;
       body := message_body ("Lambda execution error: "
                             +:+ exn_msg (attribute_error (PARAMETERS p) "items")) |}, p)) /\
  (forall value v,
     truthy (PARAMETERS p) = false ->
     ssm (ssm_calls p) = Ok value -> json_loads value = Ok v ->
     (forall items, v <> PDict items) ->
     lambda_handler ssm faults event p =
     ({| statusCode := 500;
         body := message_body ("Lambda execution error: "
                               +:+ exn_msg (attribute_error v "items")) |},
      set_PARAMETERS v (count_ssm_call p))).
Proof.
  split.
  - intros Ht Hnd. rewrite lambda_handler_finish. unfold handler_try, ensure_parameters.
    rewrite Ht. destruct (PARAMETERS p) as [| | | | | |items|]; try done.
    by destruct (Hnd items).
  - intros value v Ht Hs Hj Hv. rewrite lambda_handler_finish.
    unfold handler_try, ensure_parameters, load_parameters. rewrite Ht, Hs, Hj.
    cbn [PARAMETERS set_PARAMETERS].
    destruct v as [| | | | | |items|]; try done. by destruct (Hv items).
Qed.

(** X20.  When [PARAMETERS] is not set and the parameter store fails, or
    its answer is not JSON, the handler answers 500 with the error's
    message; [PARAMETERS], the environment, the database and the ticket are
    as before, so that the failure is not remembered. *)
Theorem failed_fetch_is_not_memoized event p e :
  truthy (PARAMETERS p) = false ->
  (ssm (ssm_calls p) = Raise e \/
   exists value, ssm (ssm_calls p) = Ok value /\ json_loads value = Raise e) ->
  lambda_handler ssm faults event p =
  ({| statusCode := 500; body := message_body ("Lambda execution error: " +:+ exn_msg e) |},
   count_ssm_call p).
Proof.
  intros Ht Hs. rewrite lambda_handler_finish.
  unfold handler_try, ensure_parameters, load_parameters. rewrite Ht.
  destruct Hs as [-> | (value & -> & ->)]; done.
Qed.

(** X21.  A request with a safe org id whose body carries a [test] field
    that [parse_bool_parameter] reads as true never changes the committed
    database, whatever the other fields of the request, the configuration,
    the state of the process and the failures of the server. *)
Theorem test_flag_in_body_commits_nothing ev b p :
  request_body ev b ->
  safe_org_id (dict_get b "org_id") ->
  parse_bool_parameter (dict_get b "test") = true ->
  stored (db (snd (lambda_handler ssm faults (PDict ev) p))) = stored (db p).
Proof.
  intros Hb _ Hflag. rewrite lambda_handler_finish.
  assert (Hsnd : forall r, snd (finish r) = snd r) by (by intros [[?|?] ?]).
  rewrite Hsnd.
  destruct (ensure_parameters_quiet p) as [Hdb _].
  destruct (ensure_parameters ssm p) as [[[]|e] p1] eqn:He; cbn [snd] in Hdb.
  2:{ unfold handler_try. rewrite He. cbn. by rewrite Hdb. }
  destruct (PARAMETERS p1) as [| | | | | |items|] eqn:Hp;
    try (unfold handler_try; rewrite He, Hp; cbn; by rewrite Hdb).
  rewrite (handler_try_body ev b p p1 items He Hp Hb).
  set (p2 := set_environ _ p1).
  rewrite <- Hdb.
  change (db p1) with (db p2). clearbody p2.
  unfold handle_body.
  destruct (parse_list_parameter _) as [subs|]; [|done].
  unfold raw_test_flag. rewrite (parse_bool_truthy _ Hflag), Hflag.
  destruct (validate_inputs _ _ _ _); [|done].
  unfold handle_request.
  destruct (get_database_config _ _) as [cfg|e]; [|by destruct (isinstance_exn _ _)].
  pose proof (test_mode_keeps_stored cfg (dict_get b "org_id") subs (db p2)) as Hk.
  by destruct (process_macd_cancellation _ _ _ _ _ _) as [[r|e] w].
Qed.

(** X22.  The handler depends on the event only through the request body
    and the query-string parameters: an event that is the body itself, an
    event whose [body] entry is that object and an event whose [body] entry
    is its JSON text get the same answer and leave the same state. *)
Theorem body_forms_are_equivalent ev1 ev2 b p :
  request_body ev1 b -> request_body ev2 b ->
  dict_get ev1 "queryStringParameters" = dict_get ev2 "queryStringParameters" ->
  lambda_handler ssm faults (PDict ev1) p = lambda_handler ssm faults (PDict ev2) p.
Proof.
  intros Hb1 Hb2 Hq. rewrite !lambda_handler_finish. f_equal.
  destruct (ensure_parameters ssm p) as [[[]|e] p1] eqn:He.
  2:{ unfold handler_try. by rewrite He. }
  destruct (PARAMETERS p1) as [| | | | | |items|] eqn:Hp;
    try (unfold handler_try; by rewrite He, Hp).
  rewrite (handler_try_body ev1 b p p1 items He Hp Hb1).
  rewrite (handler_try_body ev2 b p p1 items He Hp Hb2).
  unfold handle_body. by rewrite Hq.
Qed.

End HandlerExtras.

(** ** The ticketing gateway: the rest of the retry loop *)

Section KayakoExtras.
Import Kayako.

Lemma request_loop_after_retries m url server k :
  (k <= 3)%nat -> (forall j, (j < k)%nat -> rate_limited (server j)) ->
  request_loop m url server 0 [] = request_loop m url server k (retries m url k).
Proof.
  intros Hk Hall.
  destruct k as [|[|[|[|]]]]; [done| | | |lia].
  - rewrite (request_loop_retry _ _ _ 0%nat) by (lia || apply Hall; lia). done.
  - rewrite (request_loop_retry _ _ _ 0%nat) by (lia || apply Hall; lia).
    rewrite (request_loop_retry _ _ _ 1%nat) by (lia || apply Hall; lia). done.
  - rewrite (request_loop_retry _ _ _ 0%nat) by (lia || apply Hall; lia).
    rewrite (request_loop_retry _ _ _ 1%nat) by (lia || apply Hall; lia).
    rewrite (request_loop_retry _ _ _ 2%nat) by (lia || apply Hall; lia). done.
Qed.

(** X23.  When the first [k < 3] attempts of [get], [post] or [put] meet
    HTTP 429 and the next one meets a success status of the method (200
    for [get], 201 for [post], 200 or 202 for [put]), the call returns the
    document of that response right after that request, having slept 15
    seconds after each 429; when decoding the document raises
    [ConnectionError] or [RequestException] the call returns [None], and
    any other exception reaches the caller. *)
Theorem success_returns_the_document (self : KayakoConnect) (m : http_method)
    (endpoint : string) (is_shim : bool) (server : nat -> attempt) (k : nat)
    (status_code : Z) (json : outcome pyval) :
  (k < 3)%nat ->
  (forall j, (j < k)%nat -> rate_limited (server j)) ->
  server k = Response status_code json ->
  success_status m status_code ->
  let url := (if is_shim then shim_url self else base_url self) +:+ endpoint in
  let trace := retries m url k ++ [HttpRequest m url] in
  (forall document,
     json = Ok document -> request self m endpoint is_shim server = (Ok document, trace)) /\
  (forall e,
     json = Raise e -> transport_error e ->
     request self m endpoint is_shim server = (Ok PNone, trace)) /\
  (forall e,
     json = Raise e -> ~ transport_error e ->
     request self m endpoint is_shim server = (Raise e, trace)).
Proof.
  intros Hk Hall Hs Hin. cbn zeta. unfold request.
  rewrite (request_loop_after_retries _ _ _ k) by (lia || done).
  rewrite request_loop_eq. destruct (lt_dec k 3); [|lia]. cbn zeta. rewrite Hs.
  apply is_success_spec in Hin. rewrite Hin.
  split; [by intros document ->|].
  split; intros e -> He.
  - apply breaks_loop_spec in He. by rewrite He.
  - destruct (breaks_loop e) eqn:Hb; [|done].
    apply breaks_loop_spec in Hb. done.
Qed.

Lemma slept_retries m url k : slept (retries m url k) = 15 * Z.of_nat k.
Proof.
  unfold retries. induction k as [|k IH]; [done|].
  change (slept (concat (repeat [HttpRequest m url; Sleep 15] (S k))))
    with (15 + slept (concat (repeat [HttpRequest m url; Sleep 15] k))).
  rewrite IH. lia.
Qed.

Lemma slept_snoc_request trace m url : slept (trace ++ [HttpRequest m url]) = slept trace.
Proof. unfold slept. rewrite fold_right_app. done. Qed.

Lemma request_trace (self : KayakoConnect) (m : http_method)
    (endpoint : string) (is_shim : bool) (server : nat -> attempt) :
  let url := (if is_shim then shim_url self else base_url self) +:+ endpoint in
  exists k,
    (k <= 3)%nat /\
    (forall j, (j < k)%nat -> rate_limited (server j)) /\
    (k < 3 -> ~ rate_limited (server k))%nat /\
    snd (request self m endpoint is_shim server) =
      retries m url k ++ (if Nat.eqb k 3 then [] else [HttpRequest m url]).
Proof.
  cbn zeta. unfold request.
  set (url := (if is_shim then shim_url self else base_url self) +:+ endpoint).
  destruct (request_loop_shape m url server) as (k & Hk & Hall & Hcase).
  exists k. split; [done|]. split; [done|].
  destruct Hcase as [[-> Heq] | (Hlt & Hnr & Htr & _)].
  - rewrite Heq. cbn [snd]. split; [lia|]. by rewrite app_nil_r.
  - rewrite Htr. split; [done|].
    assert (Hne : Nat.eqb k 3 = false) by (apply Nat.eqb_neq; lia).
    by rewrite Hne.
Qed.

Lemma request_events self m endpoint is_shim server :
  Forall (made_with m) (snd (request self m endpoint is_shim server)).
Proof.
  unfold request.
  set (url := (if is_shim then shim_url self else base_url self) +:+ endpoint).
  destruct (request_loop_shape m url server) as (k & Hk & _ & Hcase).
  assert (Hr : Forall (made_with m) (retries m url k)).
  { unfold retries. clear. induction k as [|k IH]; cbn; [constructor|].
    repeat constructor. exact IH. }
  destruct Hcase as [[-> ->] | (_ & _ & -> & _)]; [done|].
  apply Forall_app. split; [done|]. by repeat constructor.
Qed.

(** X24.  Whatever the endpoint does, a call of [get], [post] or [put]
    consists of [k <= 3] requests that met HTTP 429, each followed by a
    sleep of 15 seconds, and, unless [k = 3], one last request: the call
    sleeps [15 * k] seconds, at most 45, and only after a 429. *)
Theorem sleeps_only_after_rate_limit (self : KayakoConnect) (m : http_method)
    (endpoint : string) (is_shim : bool) (server : nat -> attempt) :
  let url := (if is_shim then shim_url self else base_url self) +:+ endpoint in
  let trace := snd (request self m endpoint is_shim server) in
  exists k,
    (k <= 3)%nat /\
    (forall j, (j < k)%nat -> rate_limited (server j)) /\
    (k < 3 -> ~ rate_limited (server k))%nat /\
    trace = retries m url k ++ (if Nat.eqb k 3 then [] else [HttpRequest m url]) /\
    slept trace = 15 * Z.of_nat k /\ slept trace <= 45.
Proof.
  cbn zeta.
  destruct (request_trace self m endpoint is_shim server) as (k & Hk & Hall & Hnr & Htr).
  cbn zeta in Htr. exists k. rewrite Htr.
  split; [done|]. split; [done|]. split; [done|]. split; [done|].
  assert (Hs : slept (retries m ((if is_shim then shim_url self else base_url self)
                                  +:+ endpoint) k
                      ++ (if Nat.eqb k 3 then [] else
                            [HttpRequest m ((if is_shim then shim_url self else base_url self)
                                            +:+ endpoint)]))
               = 15 * Z.of_nat k).
  { destruct (Nat.eqb k 3).
    - by rewrite app_nil_r, slept_retries.
    - by rewrite slept_snoc_request, slept_retries. }
  rewrite Hs. lia.
Qed.

End KayakoExtras.

(** ** The ticketing client: credentials and tags *)

Section ClientFacts.
Import Kayako KayakoClient.
Context `{PyRuntime}.
Variable b64decode_utf8 : string -> outcome string.
Variable py_eq : pyval -> pyval -> bool.

Lemma given_spec s : given s = true <-> exists v, s = Some v /\ v <> "".
Proof.
  destruct s as [v|]; cbn; [|split; [done | by intros (? & ? & _)]].
  rewrite negb_true_iff, String.eqb_neq. split; [eauto | by intros (? & [= <-] & ?)].
Qed.

(** X25.  [test_connection] on a freshly built client makes at most one
    request, a GET of the [departments.json] resource of the base URL, and
    makes it exactly when the environment holds a non-empty
    [kayako_email] and a non-empty [kayako_password] that decodes to a
    non-empty string; it returns [True] exactly when that request was made
    and answered with status 200. *)
Theorem connection_test_needs_credentials (environ : gmap string string) (server : attempt) :
  match test_connection (init b64decode_utf8 environ) server with
  | (connection_ok, trace) =>
      (trace = [] \/ trace = [HttpRequest GET departments_url]) /\
      (trace = [HttpRequest GET departments_url] <->
       (exists address, environ !! "kayako_email" = Some address /\ address <> "") /\
       (exists raw decoded,
          environ !! "kayako_password" = Some raw /\ raw <> "" /\
          b64decode_utf8 raw = Ok decoded /\ decoded <> "")) /\
      (connection_ok = true <->
       trace = [HttpRequest GET departments_url] /\ exists json, server = Response 200 json)
  end.
Proof.
  unfold test_connection.
  set (self := init b64decode_utf8 environ).
  assert (He : given (email self) = true <->
               exists address, environ !! "kayako_email" = Some address /\ address <> "").
  { apply given_spec. }
  assert (Hp : given (password self) = true <->
               exists raw decoded, environ !! "kayako_password" = Some raw /\ raw <> "" /\
                                   b64decode_utf8 raw = Ok decoded /\ decoded <> "").
  { rewrite given_spec. subst self. cbn [password init].
    destruct (environ !! "kayako_password") as [raw|];
      [|split; [by intros (? & ? & _) | by intros (? & ? & ? & _)]].
    destruct (String.eqb_spec raw "") as [->|Hraw].
    - split; [by intros (? & ? & _) | by intros (? & ? & [= <-] & ? & _)].
    - destruct (b64decode_utf8 raw) as [decoded|e] eqn:Hd.
      + split.
        * intros (v & [= <-] & Hv). by exists raw, decoded.
        * intros (raw' & decoded' & [= <-] & _ & Hd' & Hne).
          rewrite Hd in Hd'. injection Hd' as <-. by exists decoded.
      + split; [by intros (? & ? & _)|].
        intros (raw' & decoded' & [= <-] & _ & Hd' & _). congruence. }
  change (base_url (urls self) +:+ "departments.json") with departments_url.
  destruct (given (email self)) eqn:Ge; cbn [negb orb].
  2:{ split; [by left|]. split; [|split; [done | by intros [? _]]].
      split; [done|]. intros [Ha%He _]. done. }
  destruct (given (password self)) eqn:Gp; cbn [negb orb].
  2:{ split; [by left|]. split; [|split; [done | by intros [? _]]].
      split; [done|]. intros [_ Hb%Hp]. done. }
  assert (Hboth : (exists address, environ !! "kayako_email" = Some address /\ address <> "") /\
                  (exists raw decoded, environ !! "kayako_password" = Some raw /\ raw <> "" /\
                                       b64decode_utf8 raw = Ok decoded /\ decoded <> "")).
  { split; [by apply He | by apply Hp]. }
  destruct server as [status_code json|e].
  - split; [by right|]. split; [done|]. split.
    + intros ->%Z.eqb_eq. split; [done | by exists json].
    + intros (_ & json' & [= -> _]). done.
  - split; [by right|]. split; [done|]. split; [done | by intros (_ & ? & ?)].
Qed.

Lemma join_items_strings i names : join_items i (map PStr names) = Ok names.
Proof. revert i. induction names as [|n names IH]; intros i; cbn; [done|]. by rewrite IH. Qed.

Lemma str_join_strings sep names : str_join sep (map PStr names) = Ok (join sep names).
Proof. unfold str_join. by rewrite join_items_strings. Qed.

Lemma join_items_not_strings i l :
  (forall names, l <> map PStr names) ->
  exists e, join_items i l = Raise e /\ exn_cls e = TypeError.
Proof.
  revert i. induction l as [|v l IH]; intros i Hns; [by destruct (Hns [])|].
  destruct v as [| | | |s| | |]; cbn; try by eexists.
  destruct (IH (S i)) as (e & -> & He); [|by exists e].
  intros names ->. by apply (Hns (s :: names)).
Qed.

Lemma new_tag_list_named removed tag_objects names :
  (forall a b, py_eq (PStr a) (PStr b) = String.eqb a b) ->
  Forall2 named tag_objects names ->
  new_tag_list py_eq (map PStr removed) tag_objects =
  Ok (map PStr (List.filter (fun n => negb (bool_decide (n ∈ removed))) names)).
Proof.
  intros Heq HF. induction HF as [|tag n tags names (d & -> & Hn) _ IH]; [done|].
  cbn [new_tag_list get_method]. rewrite IH, Hn. cbn [List.filter].
  assert (Hc : contains py_eq (map PStr removed) (PStr n) = bool_decide (n ∈ removed)).
  { unfold contains. clear -Heq. induction removed as [|r removed IH]; cbn.
    - symmetry. apply bool_decide_eq_false. by intros ?%elem_of_nil.
    - rewrite Heq, IH. destruct (String.eqb_spec n r) as [->|Hne]; cbn.
      + symmetry. apply bool_decide_eq_true, list_elem_of_here.
      + apply bool_decide_ext. rewrite elem_of_cons. split; [by right | by intros [?|?]]. }
  rewrite Hc. by destruct (bool_decide (n ∈ removed)).
Qed.

(** X26.  When the GET of the ticket's tags returns an object whose [data]
    lists tag objects with the names [names], [delete_tags] sends one PUT to
    the same resource whose document holds, joined by commas and in the
    order received, the names that are not among the tags to delete; a
    single tag that is not a list counts as a list of one. *)
Theorem delete_tags_keeps_the_other_tags (self : Agent) (ticket_id tags : pyval)
    (removed names : list string) (document : list (string * pyval))
    (tag_objects : list pyval) (trace : list io_event)
    (server_get : nat -> attempt) (server_put : pyval -> nat -> attempt) :
  (forall a b, py_eq (PStr a) (PStr b) = String.eqb a b) ->
  as_list tags = map PStr removed ->
  get (urls self) (tags_endpoint ticket_id) false server_get = (Ok (PDict document), trace) ->
  dict_get document "data" = PList tag_objects ->
  Forall2 named tag_objects names ->
  let kept := List.filter (fun n => negb (bool_decide (n ∈ removed))) names in
  delete_tags py_eq self ticket_id tags server_get server_put =
  send (put (urls self) (tags_endpoint ticket_id) false
            (server_put (PDict [("tags", PStr (join "," kept))])))
       trace.
Proof.
  intros Heq Htags Hget Hdata Hnamed. cbn zeta. unfold delete_tags.
  rewrite Hget, Htags. cbn [get_method]. rewrite Hdata. cbn [iterate].
  rewrite (new_tag_list_named removed tag_objects names Heq Hnamed).
  by rewrite str_join_strings.
Qed.

(** X27.  When the GET of the ticket's tags gives [None] (any failure of
    the request, or a null document), [delete_tags] raises the attribute
    error of [None.get] and sends no PUT: every request it made is a GET. *)
Theorem delete_tags_needs_the_current_tags (self : Agent) (ticket_id tags : pyval)
    (server_get : nat -> attempt) (server_put : pyval -> nat -> attempt) :
  fst (get (urls self) (tags_endpoint ticket_id) false server_get) = Ok PNone ->
  delete_tags py_eq self ticket_id tags server_get server_put =
    (Raise (attribute_error PNone "get"),
     snd (get (urls self) (tags_endpoint ticket_id) false server_get)) /\
  Forall (made_with GET) (snd (delete_tags py_eq self ticket_id tags server_get server_put)).
Proof.
  intros Hget. unfold delete_tags.
  pose proof (request_events (urls self) GET (tags_endpoint ticket_id) false server_get) as Hev.
  fold (get (urls self)) in Hev.
  destruct (get (urls self) (tags_endpoint ticket_id) false server_get) as [out trace].
  cbn [fst snd] in *. subst out. cbn [get_method]. done.
Qed.

(** X28.  [add_tags] joins the tags with a comma and a space and sends
    them in one POST to the tags resource of the ticket when every tag is a
    string; when a tag is not a string it raises [TypeError] before any
    request is made. *)
Theorem add_tags_joins_or_refuses (self : Agent) (ticket_id tags : pyval)
    (server_post : pyval -> nat -> attempt) :
  (forall names, as_list tags = map PStr names ->
     add_tags self ticket_id tags server_post =
     send (post (urls self) (tags_endpoint ticket_id) false
                (server_post (PDict [("tags", PStr (join ", " names))]))) []) /\
  ((forall names, as_list tags <> map PStr names) ->
   exists e, add_tags self ticket_id tags server_post = (Raise e, []) /\
             exn_cls e = TypeError).
Proof.
  unfold add_tags. split.
  - intros names ->. by rewrite str_join_strings.
  - intros Hns. unfold str_join.
    destruct (join_items_not_strings 0%nat (as_list tags) Hns) as (e & -> & He).
    by exists e.
Qed.

End ClientFacts.

(** ** The help-center gateway *)

Section GatewayFacts.
Import Kayako.
Context `{PyRuntime}.
Variable b64decode_utf8 : string -> outcome string.
Variable py_eq : pyval -> pyval -> bool.

(** X29.  The three methods of [HelpCenterConnect] always return [None],
    whatever the client does or raises.  Without an agent, or with
    [is_kayako] false, they make no request; otherwise they make exactly the
    requests of the client's method. *)
Theorem gateway_absorbs_every_failure (self : HelpCenter.HelpCenterConnect)
    (ticket_id tags note : pyval) (server_get : nat -> attempt)
    (server : pyval -> nat -> attempt) :
  fst (HelpCenter.delete_tags py_eq self ticket_id tags server_get server) = PNone /\
  fst (HelpCenter.add_tags self ticket_id tags server) = PNone /\
  fst (HelpCenter.write_internal_note self ticket_id note server) = PNone /\
  (HelpCenter.is_kayako self = false \/ HelpCenter.kayako_agent self = None ->
   snd (HelpCenter.delete_tags py_eq self ticket_id tags server_get server) = [] /\
   snd (HelpCenter.add_tags self ticket_id tags server) = [] /\
   snd (HelpCenter.write_internal_note self ticket_id note server) = []) /\
  (forall agent,
     HelpCenter.is_kayako self = true -> HelpCenter.kayako_agent self = Some agent ->
     snd (HelpCenter.delete_tags py_eq self ticket_id tags server_get server) =
       snd (KayakoClient.delete_tags py_eq agent ticket_id tags server_get server) /\
     snd (HelpCenter.add_tags self ticket_id tags server) =
       snd (KayakoClient.add_tags agent ticket_id tags server) /\
     snd (HelpCenter.write_internal_note self ticket_id note server) =
       snd (KayakoClient.write_internal_note agent ticket_id note server)).
Proof.
  unfold HelpCenter.delete_tags, HelpCenter.add_tags, HelpCenter.write_internal_note,
    HelpCenter._execute_with_fallback.
  destruct (HelpCenter.is_kayako self), (HelpCenter.kayako_agent self) as [agent|];
    cbn [fst snd].
  2-4: (split; [done|]; split; [done|]; split; [done|];
        split; [by intros _; repeat split|]; by intros agent' ? ?).
  split; [by destruct (KayakoClient.delete_tags _ _ _ _ _ _) as [[?|?] ?]|].
  split; [by destruct (KayakoClient.add_tags _ _ _ _) as [[?|?] ?]|].
  split; [by destruct (KayakoClient.write_internal_note _ _ _ _) as [[?|?] ?]|].
  split; [by intros [?|?]|].
  intros agent' _ [= <-].
  destruct (KayakoClient.delete_tags py_eq agent ticket_id tags server_get server) as [[?|?] ?],
    (KayakoClient.add_tags agent ticket_id tags server) as [[?|?] ?],
    (KayakoClient.write_internal_note agent ticket_id note server) as [[?|?] ?];
    by repeat split.
Qed.

(** X30.  A [HelpCenterConnect] built with [is_kayako = True] keeps its
    agent whatever the connection test answered, so that
    [write_internal_note] always sends the note: it returns [None] after
    [k <= 3] PUT requests to the [tickets/update_many] resource of the shim
    that met HTTP 429 and, unless [k = 3], one more. *)
Theorem note_is_sent_whatever_the_test_said (environ : gmap string string)
    (test_server : attempt) (ticket_id note : pyval) (server : pyval -> nat -> attempt) :
  let hc_agent := fst (HelpCenter.init b64decode_utf8 true environ test_server) in
  let url := "https://nzm4zzomsptqgmle2tzhmxd27i0bednl.lambda-url.us-east-1.on.aws/api/v2/"
             +:+ "tickets/update_many" in
  HelpCenter.kayako_agent hc_agent = Some (KayakoClient.init b64decode_utf8 environ) /\
  exists k,
    (k <= 3)%nat /\
    (forall j, (j < k)%nat -> rate_limited (server (KayakoClient.note_data ticket_id note) j)) /\
    HelpCenter.write_internal_note hc_agent ticket_id note server =
    (PNone, retries PUT url k ++ (if Nat.eqb k 3 then [] else [HttpRequest PUT url])).
Proof.
  cbn zeta. unfold HelpCenter.init.
  destruct (KayakoClient.test_connection _ _) as [connection_ok trace]. cbn [fst].
  split; [done|].
  unfold HelpCenter.write_internal_note, HelpCenter._execute_with_fallback.
  cbn [HelpCenter.is_kayako HelpCenter.kayako_agent].
  unfold KayakoClient.write_internal_note, write_internal_note, put.
  set (data := KayakoClient.note_data ticket_id note).
  set (conn := KayakoClient.urls (KayakoClient.init b64decode_utf8 environ)).
  destruct (request_trace conn PUT "tickets/update_many" true (server data))
    as (k & Hk & Hall & _ & Htrace).
  exists k. split; [done|]. split; [done|].
  cbn zeta in Htrace.
  destruct (request conn PUT "tickets/update_many" true (server data)) as [[v|e] tr];
    cbn [snd] in Htrace; by rewrite Htrace.
Qed.

End GatewayFacts.

(** ** Concrete runs of the further properties *)

Section ConcreteExtras.
#[local] Existing Instance Reference.runtime.

(** The word [Yes] switches the flag on, and is truthy. *)
Lemma parse_bool_only_truthy_scalars_witness :
  parse_bool_parameter (PStr "Yes") = true /\ truthy (PStr "Yes") = true.
Proof.
  split; [reflexivity|].
  exact (proj1 (parse_bool_only_truthy_scalars (PStr "Yes") eq_refl)).
Defined.

(** A JSON array between a blank and a newline. *)
Lemma parse_list_ignores_surrounding_space_witness :
  (blank " " = true /\ blank newline = true) /\
  parse_list_parameter (PStr (" " +:+ "[1, 2]" +:+ newline)) = Ok [PInt 1; PInt 2].
Proof.
  split; [split; reflexivity|].
  rewrite (proj1 (parse_list_ignores_surrounding_space " " "[1, 2]" newline eq_refl eq_refl)).
  vm_compute. reflexivity.
Defined.

(** The org id of the scenario in double quotes. *)
Lemma org_id_ignores_quotes_and_case_witness :
  quotes (String dquote "") = true /\
  fst (process_macd_cancellation no_faults [] (PStr (String dquote "" +:+ "00D1"
                                                      +:+ String dquote ""))
         [PStr "sub1"] true scenario_world) =
  fst (process_macd_cancellation no_faults [] (PStr "00d1") [PStr "sub1"] true scenario_world).
Proof.
  split; [reflexivity|].
  destruct (org_id_ignores_quotes_and_case no_faults [] (String dquote "") "00D1"
              (String dquote "") [PStr "sub1"] true scenario_world eq_refl eq_refl)
    as (-> & _).
  vm_compute. reflexivity.
Defined.

(** The scenario once more after its request was cancelled: two rows fetched, none eligible, nothing committed in production mode. *)
Lemma no_eligible_row_changes_nothing_witness :
  (sql_identifier (schema_of "00D1") = true /\
   stored cancelled_world !! schema_of "00D1" = Some final_scenario_tenant /\
   eligible_of (select_macd final_scenario_tenant (patterns_of [PStr "sub1"])) = []) /\
  exists result w',
    process_macd_cancellation no_faults [] (PStr "00D1") [PStr "sub1"] false cancelled_world
      = (Ok result, w') /\
    total_found result = 2%nat /\ committed result = false /\
    stored w' = stored cancelled_world.
Proof.
  assert (H1 : stored cancelled_world !! schema_of "00D1" = Some final_scenario_tenant)
    by (vm_compute; reflexivity).
  assert (H2 : eligible_of (select_macd final_scenario_tenant (patterns_of [PStr "sub1"])) = [])
    by (vm_compute; reflexivity).
  split; [by repeat split|].
  pose proof (no_eligible_row_changes_nothing no_faults [] "00D1" [PStr "sub1"] false
                cancelled_world final_scenario_tenant eq_refl H1 H2) as Hthm.
  destruct (process_macd_cancellation no_faults [] (PStr "00D1") [PStr "sub1"] false
              cancelled_world) as [[r|e] w'] eqn:Hrun.
  - exists r, w'. destruct Hthm as (Hst & Hco & _).
    split; [reflexivity|]. split; [|by split].
    vm_compute in Hrun. by injection Hrun as <- _.
  - vm_compute in Hrun. discriminate Hrun.
Defined.

(** The scenario committed twice. *)
Lemma committed_run_is_idempotent_witness :
  (sql_identifier (schema_of "00D1") = true /\
   (forall s, no_faults s = None) /\ [PStr "sub1"] <> [] /\
   stored scenario_world !! schema_of "00D1" = Some scenario_tenant) /\
  exists r1 w1 r2 w2,
    process_macd_cancellation no_faults [] (PStr "00D1") [PStr "sub1"] false scenario_world
      = (Ok r1, w1) /\
    process_macd_cancellation no_faults [] (PStr "00D1") [PStr "sub1"] false w1 = (Ok r2, w2) /\
    stored w2 = stored w1 /\ eligible_count r2 = 0%nat /\ committed r2 = false.
Proof.
  assert (H1 : forall s, no_faults s = None) by reflexivity.
  assert (H2 : [PStr "sub1"] <> []) by discriminate.
  assert (H3 : stored scenario_world !! schema_of "00D1" = Some scenario_tenant)
    by (vm_compute; reflexivity).
  assert (H4 : forall row, row ∈ select_macd scenario_tenant (patterns_of [PStr "sub1"]) ->
                 r_status row = VText "posted" -> sql_truthy (r_id row) = true).
  { intros row Hin Hp.
    change (select_macd scenario_tenant (patterns_of [PStr "sub1"]))
      with [ {| r_id := VInt 10; r_basket_id := VText "b1"; r_status := VText "posted" |};
             {| r_id := VInt 11; r_basket_id := VText "b2"; r_status := VText "declined" |} ]
      in Hin.
    apply elem_of_cons in Hin as [-> | Hin]; [reflexivity|].
    apply list_elem_of_singleton in Hin as ->. discriminate Hp. }
  split; [by repeat split|].
  destruct (committed_run_is_idempotent no_faults [] "00D1" [PStr "sub1"] scenario_world
              scenario_tenant eq_refl H1 H2 H3 H4)
    as (r1 & w1 & r2 & w2 & Hr1 & Hr2 & Hst & _ & Hec & _ & _ & _ & Hco).
  by exists r1, w1, r2, w2.
Defined.

(** The declined request of the scenario is fetched through the prefix [sub1]. *)
Lemma select_matches_by_prefix_witness :
  forallb plain_id ["sub1"] = true /\
  {| r_id := VInt 11; r_basket_id := VText "b2"; r_status := VText "declined" |}
    ∈ select_macd scenario_tenant (patterns_of (map PStr ["sub1"])).
Proof.
  split; [reflexivity|].
  apply (select_matches_by_prefix scenario_tenant ["sub1"] _ eq_refl).
  exists {| macd_id := VInt 11; macd_subscription_id := VInt 1;
            macd_basket_id := VText "b2"; macd_status := VText "declined" |},
         {| sub_id := VInt 1; sub_sfdc_id := Some "sub1AAA" |}, "sub1AAA", "sub1".
  split; [apply list_elem_of_further, list_elem_of_here|].
  split; [reflexivity|]. split; [apply list_elem_of_here|].
  split; [reflexivity|]. split; [discriminate|]. split; [reflexivity|].
  split; [apply list_elem_of_here | reflexivity].
Defined.

(** The empty id is accepted and fetches all three MACD requests of the scenario. *)
Lemma empty_id_matches_every_subscription_witness :
  PStr "" ∈ [PStr ""] /\
  validate_inputs (PStr "00D1") (PList [PStr ""]) (PStr "eu") (PStr "999") = [] /\
  length (select_macd scenario_tenant (patterns_of [PStr ""])) = 3%nat.
Proof.
  assert (Hin : PStr "" ∈ [PStr ""]) by apply list_elem_of_here.
  split; [exact Hin|].
  destruct (empty_id_matches_every_subscription [PStr ""] Hin) as [Hlike Hvalid].
  split; [by apply Hvalid|].
  unfold select_macd.
  rewrite (List.filter_ext _ _ Hlike). vm_compute. reflexivity.
Defined.

(** The report of a production run that committed nothing. *)
Lemma report_wording_follows_test_mode_witness :
  String.prefix "✅ PRODUCTION MODE - Changes were committed"
    (format_results initial_result (PStr "00D1") [PStr "sub1"] false) = true /\
  committed initial_result = false /\
  format_results (set_committed true initial_result) (PStr "00D1") [PStr "sub1"] false =
  format_results initial_result (PStr "00D1") [PStr "sub1"] false.
Proof.
  destruct (report_wording_follows_test_mode initial_result (set_committed true initial_result)
              (PStr "00D1") [PStr "sub1"] false
              eq_refl eq_refl eq_refl eq_refl eq_refl eq_refl eq_refl eq_refl)
    as (Heq & Hpre & _).
  split; [exact Hpre|]. split; [reflexivity | exact Heq].
Defined.

(** The scenario in production mode against a server that fails the
    second UPDATE: the answer is 500, one note is posted, and the committed
    database is as before. *)
Lemma status_code_guarantees_witness :
  safe_org_id (dict_get (request_fields "eu" []) "org_id") /\
  statusCode (fst (lambda_handler scenario_ssm fail_update_macd (request_event "eu" [])
                     fresh_process)) = 500 /\
  stored (db (snd (lambda_handler scenario_ssm fail_update_macd (request_event "eu" [])
                     fresh_process))) = scenario_db.
Proof.
  assert (Hsafe : safe_org_id (dict_get (request_fields "eu" []) "org_id"))
    by (by intros o [= <-]).
  split; [exact Hsafe|].
  pose proof (status_code_guarantees scenario_ssm fail_update_macd (request_event "eu" [])
                fresh_process) as Hthm.
  destruct (lambda_handler scenario_ssm fail_update_macd (request_event "eu" []) fresh_process)
    as [resp p'] eqn:Hrun.
  assert (Hcode : statusCode resp = 500).
  { apply (f_equal fst) in Hrun. cbn [fst] in Hrun. subst resp. vm_compute. reflexivity. }
  destruct Hthm as (_ & _ & Hstored & _). cbn [fst snd].
  split; [exact Hcode|]. apply Hstored.
  - intros ev b [= <-] [Hbody | [[_ ->] | (_ & Hnone & _)]].
    + discriminate Hbody.
    + exact Hsafe.
    + by destruct Hnone.
  - rewrite Hcode. discriminate.
Defined.

(** A request with blank subscriptions and no case id. *)
Lemma invalid_request_is_rejected_witness :
  legal_environment deployment_items = true /\
  lambda_handler scenario_ssm no_faults (PDict incomplete_event) fresh_process =
  ({| statusCode := 400;
      body := message_body
                ("Validation errors: "
                 +:+ "Missing required field: subscriptions (must be a non-empty list)"
                 +:+ "; " +:+ "Missing required field: case_id") |},
   configured fresh_process).
Proof.
  split; [vm_compute; reflexivity|].
  rewrite (invalid_request_is_rejected scenario_ssm no_faults incomplete_event incomplete_event
             fresh_process (set_PARAMETERS deployment (count_ssm_call fresh_process))
             deployment_items [] (PBool false)).
  - reflexivity.
  - vm_compute. reflexivity.
  - reflexivity.
  - vm_compute. reflexivity.
  - right; left. split; reflexivity.
  - reflexivity.
  - reflexivity.
  - vm_compute. discriminate.
Defined.

(** A body that is not JSON. *)
Lemma undecodable_body_is_rejected_witness :
  legal_environment deployment_items = true /\
  lambda_handler scenario_ssm no_faults malformed_event fresh_process =
  ({| statusCode := 400; body := message_body ("Invalid JSON: " +:+ "Expecting value") |},
   configured fresh_process).
Proof.
  split; [vm_compute; reflexivity|].
  apply (undecodable_body_is_rejected scenario_ssm no_faults [("body", PStr "{oops")]
           fresh_process (set_PARAMETERS deployment (count_ssm_call fresh_process))
           deployment_items Reference.decode_error).
  - vm_compute. reflexivity.
  - reflexivity.
  - vm_compute. reflexivity.
  - intros d. discriminate.
  - discriminate.
  - vm_compute. reflexivity.
  - reflexivity.
Defined.

(** A process whose configuration is a JSON array. *)
Lemma non_object_configuration_is_fatal_witness :
  lambda_handler scenario_ssm no_faults (request_event "eu" []) misconfigured_process =
  ({| statusCode := 500;
      body := message_body ("Lambda execution error: " +:+ String squote "list"
                            +:+ String squote " object has no attribute "
                            +:+ String squote "items" +:+ String squote "") |},
   misconfigured_process).
Proof.
  apply (proj1 (non_object_configuration_is_fatal scenario_ssm no_faults
                  (request_event "eu" []) misconfigured_process)).
  - reflexivity.
  - intros items. discriminate.
Defined.

(** A parameter store that cannot be reached. *)
Lemma failed_fetch_is_not_memoized_witness :
  lambda_handler store_down no_faults (request_event "eu" []) fresh_process =
  ({| statusCode := 500;
      body := message_body ("Lambda execution error: " +:+ "ParameterNotFound") |},
   count_ssm_call fresh_process) /\
  PARAMETERS (count_ssm_call fresh_process) = PNone.
Proof.
  split; [|reflexivity].
  apply (failed_fetch_is_not_memoized store_down no_faults (request_event "eu" [])
           fresh_process (Exn ClientError "ParameterNotFound")).
  - reflexivity.
  - by left.
Defined.

(** The scenario requested with [test] set to [Yes]: answered 200, nothing committed. *)
Lemma test_flag_in_body_commits_nothing_witness :
  safe_org_id (dict_get test_event "org_id") /\
  parse_bool_parameter (dict_get test_event "test") = true /\
  statusCode (fst (lambda_handler scenario_ssm no_faults (PDict test_event) fresh_process))
    = 200 /\
  stored (db (snd (lambda_handler scenario_ssm no_faults (PDict test_event) fresh_process)))
    = scenario_db.
Proof.
  assert (Hsafe : safe_org_id (dict_get test_event "org_id")) by (by intros o [= <-]).
  split; [exact Hsafe|]. split; [reflexivity|]. split; [vm_compute; reflexivity|].
  apply (test_flag_in_body_commits_nothing scenario_ssm no_faults test_event test_event
           fresh_process).
  - right; left. split; reflexivity.
  - exact Hsafe.
  - reflexivity.
Defined.

(** The scenario request as the text of a [body] entry and as the event itself. *)
Lemma body_forms_are_equivalent_witness :
  lambda_handler scenario_ssm no_faults (PDict wrapped_event) fresh_process =
  lambda_handler scenario_ssm no_faults (request_event "eu" []) fresh_process.
Proof.
  apply (body_forms_are_equivalent scenario_ssm no_faults wrapped_event
           (request_fields "eu" []) (request_fields "eu" []) fresh_process).
  - right; right. split; [intros d; discriminate|]. split; [discriminate|].
    vm_compute. reflexivity.
  - right; left. split; reflexivity.
  - reflexivity.
Defined.

(** A GET that meets one 429 and then the tags of the ticket; a PUT that
    is accepted with 202; a POST that creates with 201; a body that is not
    JSON, with a decoder that raises a request error and with one that
    raises [ValueError]. *)
Lemma success_returns_the_document_witness :
  Kayako.get kayako_agent "cases/7/tags.json" false busy_then_tags =
  (Ok (PDict tags_document),
   [Kayako.HttpRequest Kayako.GET (Kayako.base_url kayako_agent +:+ "cases/7/tags.json");
    Kayako.Sleep 15;
    Kayako.HttpRequest Kayako.GET (Kayako.base_url kayako_agent +:+ "cases/7/tags.json")]) /\
  Kayako.put kayako_agent "tickets/update_many" true accepted =
  (Ok (PDict [("status", PStr "accepted")]),
   [Kayako.HttpRequest Kayako.PUT (Kayako.shim_url kayako_agent +:+ "tickets/update_many")]) /\
  Kayako.post kayako_agent "cases/7/tags.json" false created =
  (Ok (PDict [("id", PInt 7)]),
   [Kayako.HttpRequest Kayako.POST (Kayako.base_url kayako_agent +:+ "cases/7/tags.json")]) /\
  Kayako.get kayako_agent "cases/7/tags.json" false (garbled RequestException) =
  (Ok PNone,
   [Kayako.HttpRequest Kayako.GET (Kayako.base_url kayako_agent +:+ "cases/7/tags.json")]) /\
  Kayako.get kayako_agent "cases/7/tags.json" false (garbled ValueError) =
  (Raise (Exn ValueError "Expecting value"),
   [Kayako.HttpRequest Kayako.GET (Kayako.base_url kayako_agent +:+ "cases/7/tags.json")]).
Proof.
  assert (Hnone : forall server j, (j < 0)%nat -> Kayako.rate_limited (server j))
    by (intros server j Hj; lia).
  assert (Hbusy : forall j, (j < 1)%nat -> Kayako.rate_limited (busy_then_tags j)).
  { intros j Hj. assert (j = 0%nat) as -> by lia. by exists (Ok PNone). }
  split; [|split; [|split; [|split]]].
  - apply (proj1 (success_returns_the_document kayako_agent Kayako.GET "cases/7/tags.json"
                    false busy_then_tags 1 200 (Ok (PDict tags_document))
                    ltac:(lia) Hbusy eq_refl eq_refl)).
    reflexivity.
  - apply (proj1 (success_returns_the_document kayako_agent Kayako.PUT "tickets/update_many"
                    true accepted 0 202 (Ok (PDict [("status", PStr "accepted")]))
                    ltac:(lia) (Hnone accepted) eq_refl (or_intror eq_refl))).
    reflexivity.
  - apply (proj1 (success_returns_the_document kayako_agent Kayako.POST "cases/7/tags.json"
                    false created 0 201 (Ok (PDict [("id", PInt 7)]))
                    ltac:(lia) (Hnone created) eq_refl eq_refl)).
    reflexivity.
  - apply (proj1 (proj2 (success_returns_the_document kayako_agent Kayako.GET
                           "cases/7/tags.json" false (garbled RequestException) 0 200
                           (Raise (Exn RequestException "Expecting value"))
                           ltac:(lia) (Hnone (garbled RequestException)) eq_refl eq_refl))
             (Exn RequestException "Expecting value")).
    + reflexivity.
    + by right.
  - apply (proj2 (proj2 (success_returns_the_document kayako_agent Kayako.GET
                           "cases/7/tags.json" false (garbled ValueError) 0 200
                           (Raise (Exn ValueError "Expecting value"))
                           ltac:(lia) (Hnone (garbled ValueError)) eq_refl eq_refl))
             (Exn ValueError "Expecting value")).
    + reflexivity.
    + intros [Hc | Hc]; discriminate Hc.
Defined.

(** Deleting the tag [spam] from a ticket with three tags. *)
Lemma delete_tags_keeps_the_other_tags_witness :
  KayakoClient.delete_tags string_eq support_agent (PInt 7) (PStr "spam")
    busy_then_tags accepts_all =
  KayakoClient.send
    (Kayako.put kayako_agent "cases/7/tags.json" false
       (accepts_all (PDict [("tags", PStr "vip,billing")])))
    (snd (Kayako.get kayako_agent "cases/7/tags.json" false busy_then_tags)).
Proof.
  apply (delete_tags_keeps_the_other_tags string_eq support_agent (PInt 7) (PStr "spam")
           ["spam"] ["vip"; "spam"; "billing"] tags_document
           [PDict [("name", PStr "vip")]; PDict [("id", PInt 7); ("name", PStr "spam")];
            PDict [("name", PStr "billing")]]).
  - reflexivity.
  - reflexivity.
  - vm_compute. reflexivity.
  - reflexivity.
  - repeat constructor; by eexists.
Defined.

(** Deleting a tag from a ticket the endpoint does not know. *)
Lemma delete_tags_needs_the_current_tags_witness :
  KayakoClient.delete_tags string_eq support_agent (PInt 7) (PStr "spam")
    not_found accepts_all =
  (Raise (attribute_error PNone "get"),
   [Kayako.HttpRequest Kayako.GET (Kayako.base_url kayako_agent +:+ "cases/7/tags.json")]).
Proof.
  destruct (delete_tags_needs_the_current_tags string_eq support_agent (PInt 7) (PStr "spam")
              not_found accepts_all) as [-> _].
  - vm_compute. reflexivity.
  - vm_compute. reflexivity.
Defined.

(** Two tags added to a ticket, and a number given as a tag. *)
Lemma add_tags_joins_or_refuses_witness :
  KayakoClient.add_tags support_agent (PInt 7) (PList [PStr "vip"; PStr "urgent"]) accepts_all =
  KayakoClient.send
    (Kayako.post kayako_agent "cases/7/tags.json" false
       (accepts_all (PDict [("tags", PStr "vip, urgent")]))) [] /\
  exists e, KayakoClient.add_tags support_agent (PInt 7) (PInt 5) accepts_all = (Raise e, []) /\
            exn_cls e = TypeError.
Proof.
  split.
  - apply (proj1 (add_tags_joins_or_refuses support_agent (PInt 7)
                    (PList [PStr "vip"; PStr "urgent"]) accepts_all) ["vip"; "urgent"]).
    reflexivity.
  - apply (proj2 (add_tags_joins_or_refuses support_agent (PInt 7) (PInt 5) accepts_all)).
    intros [|n names]; discriminate.
Defined.

End ConcreteExtras.
